(** * OpenFront: the turn-resolution core and the self-play training loop

    A shallow embedding of the simulation/decision core of OpenFront:

    - [AI.processAIAction]            (src/app/utils/ai.ts, rule-based agents),
    - [Simulator.executeAction]       (src/app/utils/ai.ts, class GameSimulator),
    - [Page.handleCanvasClick]        (src/app/page.tsx, selection and attack),
    - [Neural.getLegalActions], [Neural.addExperience],
      [Neural.calculateReward] and the epsilon decay of
      [Neural.trainOnBatch]           (class NeuralAI).

    Modelling conventions.

    - Troop counts, gold, coordinates and building levels are JavaScript
      numbers that the program only ever fills with integers; they are [Z]
      here.  Integer addition, subtraction and multiplication are exact in
      binary64 below 2^53, and so is [Math.floor (a / b)] for integers
      [a], [b] with [0 < b].
    - [Math.floor (troops * 0.7)] and [Math.floor (troops * 0.8)] are NOT
      idealised: the product is the binary64 product (round to nearest,
      ties to even) of the integer with the binary64 constant, computed by
      the Standard Library's [SpecFloat.SFmul].  For instance
      [Math.floor (90 * 0.7)] is 62 in JavaScript, and 62 here.
    - The exploration rate and the rewards are binary64 numbers: their
      products and sums are those of [SpecFloat.SFmul] and
      [SpecFloat.SFadd].  The feature values and the model's scores, on
      whose values no statement depends, are rationals [Q].
    - Arrays of territory objects are lists; [arr[i].f = v] is a
      read-modify-write of cell [i], so that two indices naming the same
      cell alias as they do in the program.  Reading a property of a
      missing array element raises a TypeError in JavaScript: it is [None]
      here, and the operations are shown to return [Some].
    - An absent optional property ([wall?], [gold?]) is [None], or [false]
      for the flag [wall], which the program only tests for truthiness.
    - Status messages, logging and rendering are left out. *)

From Stdlib Require Import ZArith QArith Qpower Qminmax Lia.
From Stdlib Require Import Floats.SpecFloat.
From stdpp Require Import base option list strings.

#[local] Open Scope Z_scope.

(** ** JavaScript numbers *)

Module JS.

Definition prec : Z := 53.
Definition emax : Z := 1024.

(** The binary64 value of an integer. *)
Definition of_int (z : Z) : spec_float := binary_normalize prec emax z 0 false.

(** [Math.floor] of a finite binary64 value. Infinities and NaN have no
    integer floor; the program never produces them from integer troop
    counts, and they are mapped to 0. *)
Definition floor (f : spec_float) : Z :=
  match f with
  | S754_zero _ => 0
  | S754_finite s m e =>
      let v := if s then Z.neg m else Z.pos m in
      if 0 <=? e then Z.shiftl v e else Z.shiftr v (- e)
  | S754_infinity _ | S754_nan => 0
  end.

(** The binary64 literals [0.7] and [0.8]
    (0x1.6666666666666p-1 and 0x1.999999999999ap-1). *)
Definition lit_0_7 : spec_float := S754_finite false 6305039478318694 (-53).
Definition lit_0_8 : spec_float := S754_finite false 7205759403792794 (-53).

(** The binary64 literals [1.0], [0.5], [0.995] and [0.1]
    (0x1p0, 0x1p-1, 0x1.fd70a3d70a3d7p-1 and 0x1.999999999999ap-4). *)
Definition lit_1 : spec_float := S754_finite false 4503599627370496 (-52).
Definition lit_0_5 : spec_float := S754_finite false 4503599627370496 (-53).
Definition lit_0_995 : spec_float := S754_finite false 8962163258467287 (-53).
Definition lit_0_1 : spec_float := S754_finite false 7205759403792794 (-56).

(** The rational value of a finite binary64 number. *)
Definition to_Q (f : spec_float) : Q :=
  match f with
  | S754_finite s m e =>
      (inject_Z (if s then Z.neg m else Z.pos m) * 2 ^ e)%Q
  | _ => 0%Q
  end.

(** [Math.floor (n * c)] for an integer [n] and a binary64 constant [c]. *)
Definition floor_mul (n : Z) (c : spec_float) : Z :=
  floor (SFmul prec emax (of_int n) c).

End JS.

(** ** Data model (the interfaces shared by the three source modules) *)

Inductive BuildingType : Set :=
  fort | farm | tower | barracks | wall | mine | market.

#[global] Instance BuildingType_eq_dec : EqDecision BuildingType.
Proof. solve_decision. Defined.

Record Building : Set := mkBuilding {
  b_type : BuildingType;
  b_level : Z
}.

Record Owner : Set := mkOwner {
  o_id : string;
  o_name : string;
  o_color : string;
  o_troops : option Z
}.

Record Territory : Set := mkTerritory {
  t_x : Z;
  t_y : Z;
  t_type : string;
  t_color : string;
  t_owner : option Owner;
  t_troops : Z;
  t_troopCapacity : Z;
  t_isSelected : bool;
  t_building : option Building;
  t_wall : bool;
  t_gold : option Z
}.

Record AIPlayer : Set := mkAIPlayer {
  p_id : string;
  p_name : string;
  p_color : string;
  p_personality : option string;
  p_gold : option Z;
  p_troops : option Z;
  p_territory : option Z
}.

Inductive ActionKind : Set := attack | defend | build.

(** The duck-typed action object
    [{ action, source?, target?, buildingType? }]. *)
Record Decision : Set := mkDecision {
  d_action : ActionKind;
  d_source : option Territory;
  d_target : option Territory;
  d_buildingType : option BuildingType
}.

(** Field assignments [t.f = v]. *)
Definition set_owner (o : option Owner) (t : Territory) : Territory :=
  mkTerritory (t_x t) (t_y t) (t_type t) (t_color t) o (t_troops t)
    (t_troopCapacity t) (t_isSelected t) (t_building t) (t_wall t) (t_gold t).

Definition set_troops (n : Z) (t : Territory) : Territory :=
  mkTerritory (t_x t) (t_y t) (t_type t) (t_color t) (t_owner t) n
    (t_troopCapacity t) (t_isSelected t) (t_building t) (t_wall t) (t_gold t).

Definition set_isSelected (b : bool) (t : Territory) : Territory :=
  mkTerritory (t_x t) (t_y t) (t_type t) (t_color t) (t_owner t) (t_troops t)
    (t_troopCapacity t) b (t_building t) (t_wall t) (t_gold t).

Definition set_building (b : option Building) (t : Territory) : Territory :=
  mkTerritory (t_x t) (t_y t) (t_type t) (t_color t) (t_owner t) (t_troops t)
    (t_troopCapacity t) (t_isSelected t) b (t_wall t) (t_gold t).

Definition set_wall (w : bool) (t : Territory) : Territory :=
  mkTerritory (t_x t) (t_y t) (t_type t) (t_color t) (t_owner t) (t_troops t)
    (t_troopCapacity t) (t_isSelected t) (t_building t) w (t_gold t).

Definition set_gold (g : option Z) (p : AIPlayer) : AIPlayer :=
  mkAIPlayer (p_id p) (p_name p) (p_color p) (p_personality p) g
    (p_troops p) (p_territory p).

(** [arr.findIndex (pred)]; [None] stands for the index -1. *)
Fixpoint findIndex {A : Type} (pred : A -> bool) (arr : list A) : option nat :=
  match arr with
  | [] => None
  | a :: rest => if pred a then Some O else S <$> findIndex pred rest
  end.

(** The callback [(t) => t.x === c.x && t.y === c.y]. *)
Definition sameCoords (c t : Territory) : bool :=
  (t_x t =? t_x c) && (t_y t =? t_y c).

(** [arr[i].f = ...]: cell [i] is read, changed and stored back. *)
Definition update (i : nat) (f : Territory -> Territory)
    (arr : list Territory) : option (list Territory) :=
  t ← arr !! i; Some (<[i := f t]> arr).

(** [t.owner && t.owner.id === id]. *)
Definition ownedBy (id : string) (t : Territory) : bool :=
  match t_owner t with
  | Some o => bool_decide (o_id o = id)
  | None => false
  end.

(** [{ id: p.id, name: p.name, color: p.color }]. *)
Definition ownerOf (p : AIPlayer) : Owner :=
  mkOwner (p_id p) (p_name p) (p_color p) None.

(** [t.building?.type === "fort" ? t.building.level : 0]. *)
Definition defenseBonusOf (t : Territory) : Z :=
  match t_building t with
  | Some b => if decide (b_type b = fort) then b_level b else 0
  | None => 0
  end.

(** The table [buildingCosts], identical in ai.ts, the simulator and
    getLegalActions. *)
Definition buildingCosts (b : BuildingType) : Z :=
  match b with
  | fort => 100
  | farm => 150
  | tower => 200
  | barracks => 120
  | wall => 80
  | mine => 150
  | market => 200
  end.

(** [Math.sqrt (dx * dx + dy * dy) <= r] for integers [dx], [dy], [r]. *)
Definition withinDistance (dx dy r : Z) : bool :=
  (0 <=? r) && (dx * dx + dy * dy <=? r * r).

(** [p.gold || 0]. *)
Definition goldOr0 (p : AIPlayer) : Z := default 0 (p_gold p).

(** ** The rule-based agents' resolver: [processAIAction] (ai.ts) *)

Module AI.

(** [Math.floor (troops * 0.7)]. *)
Definition attackingTroops (troops : Z) : Z := JS.floor_mul troops JS.lit_0_7.

(** The body of [case "attack"] once both indices are found. *)
Definition resolveAttack (territories : list Territory)
    (attackingIndex targetIndex : nat) (aiPlayer : AIPlayer)
    : option (list Territory) :=
  src ← territories !! attackingIndex;
  tgt ← territories !! targetIndex;
  let attackingTroops := attackingTroops (t_troops src) in
  let defenseBonus := defenseBonusOf tgt in
  let effectiveDefense := t_troops tgt * (1 + defenseBonus) in
  if attackingTroops >? effectiveDefense then
    let remainingTroops := attackingTroops - t_troops tgt in
    ts1 ← update targetIndex (set_owner (Some (ownerOf aiPlayer))) territories;
    ts2 ← update targetIndex (set_troops remainingTroops) ts1;
    ts3 ← update targetIndex
            (fun c => if bool_decide (t_building c <> None) && negb (t_wall c)
                      then set_building None c else c) ts2;
    update attackingIndex
      (fun c => set_troops (t_troops c - attackingTroops) c) ts3
  else
    ts1 ← update targetIndex
            (fun c => set_troops
                        (t_troops c - attackingTroops / (1 + defenseBonus)) c)
            territories;
    update attackingIndex
      (fun c => set_troops (t_troops c - attackingTroops) c) ts1.

(** The body of [case "build"] once the index is found. The player
    object is mutated ([aiPlayer.gold -= cost]), so it is returned. *)
Definition resolveBuild (territories : list Territory) (buildIndex : nat)
    (buildingType : BuildingType) (aiPlayer : AIPlayer)
    : option (list Territory * AIPlayer) :=
  let cost := buildingCosts buildingType in
  match p_gold aiPlayer with
  | Some gold =>
      if negb (gold =? 0) && (gold >=? cost) then
        let aiPlayer' := set_gold (Some (gold - cost)) aiPlayer in
        cell ← territories !! buildIndex;
        if decide (buildingType = wall) then
          if bool_decide (t_owner cell = None) then
            ts1 ← update buildIndex (set_wall true) territories;
            ts2 ← update buildIndex (set_owner (Some (ownerOf aiPlayer'))) ts1;
            ts3 ← update buildIndex (set_troops 0) ts2;
            Some (ts3, aiPlayer')
          else Some (territories, aiPlayer')
        else
          if ownedBy (p_id aiPlayer') cell then
            ts1 ← update buildIndex
                    (set_building (Some (mkBuilding buildingType 1)))
                    territories;
            Some (ts1, aiPlayer')
          else Some (territories, aiPlayer')
      else Some (territories, aiPlayer)
  | None => Some (territories, aiPlayer)
  end.

Definition processAIAction (territories : list Territory)
    (decision : Decision) (aiPlayer : AIPlayer)
    : option (list Territory * AIPlayer) :=
  match d_action decision with
  | attack =>
      match d_source decision, d_target decision with
      | Some source, Some target =>
          match findIndex (sameCoords source) territories,
                findIndex (sameCoords target) territories with
          | Some attackingIndex, Some targetIndex =>
              ts ← resolveAttack territories attackingIndex targetIndex aiPlayer;
              Some (ts, aiPlayer)
          | _, _ => Some (territories, aiPlayer)
          end
      | _, _ => Some (territories, aiPlayer)
      end
  | defend =>
      match d_target decision with
      | Some target =>
          match findIndex (sameCoords target) territories with
          | Some defendIndex =>
              ts ← update defendIndex
                     (fun c => set_troops (t_troops c + 5) c) territories;
              Some (ts, aiPlayer)
          | None => Some (territories, aiPlayer)
          end
      | None => Some (territories, aiPlayer)
      end
  | build =>
      match d_target decision, d_buildingType decision with
      | Some target, Some buildingType =>
          match findIndex (sameCoords target) territories with
          | Some buildIndex =>
              resolveBuild territories buildIndex buildingType aiPlayer
          | None => Some (territories, aiPlayer)
          end
      | _, _ => Some (territories, aiPlayer)
      end
  end.

End AI.

(** ** The training simulator's resolver: [GameSimulator.executeAction] *)

Module Simulator.

(** [Math.floor (source.troops * 0.8)]. *)
Definition attackingTroops (troops : Z) : Z := JS.floor_mul troops JS.lit_0_8.

(** The body of [case "attack"] once both indices are found. [source]
    and [target] are references into [this.territories]: the source is
    charged first, and [target.troops] is read afterwards. *)
Definition resolveAttack (territories : list Territory)
    (sourceIndex targetIndex : nat) (player : AIPlayer)
    : option (list Territory) :=
  source ← territories !! sourceIndex;
  if negb (ownedBy (p_id player) source) || (t_troops source <? 2) then
    Some territories
  else
    let attackingTroops := attackingTroops (t_troops source) in
    ts1 ← update sourceIndex
            (fun c => set_troops (t_troops c - attackingTroops) c) territories;
    target ← ts1 !! targetIndex;
    if attackingTroops >? t_troops target then
      ts2 ← update targetIndex (set_owner (Some (ownerOf player))) ts1;
      update targetIndex
        (fun c => set_troops (attackingTroops - t_troops c) c) ts2
    else
      update targetIndex
        (fun c => set_troops (t_troops c - attackingTroops) c) ts1.

(** The body of [case "build"] once the index is found. *)
Definition resolveBuild (territories : list Territory) (buildIndex : nat)
    (buildingType : BuildingType) (player : AIPlayer)
    : option (list Territory * AIPlayer) :=
  let cost := buildingCosts buildingType in
  if goldOr0 player <? cost then Some (territories, player)
  else
    let player' := set_gold (Some (goldOr0 player - cost)) player in
    cell ← territories !! buildIndex;
    if decide (buildingType = wall) then
      if bool_decide (t_owner cell = None) then
        ts1 ← update buildIndex (set_wall true) territories;
        ts2 ← update buildIndex (set_owner (Some (ownerOf player'))) ts1;
        ts3 ← update buildIndex (set_troops 0) ts2;
        Some (ts3, player')
      else Some (territories, player')
    else
      if ownedBy (p_id player') cell then
        ts1 ← update buildIndex
                (set_building (Some (mkBuilding buildingType 1))) territories;
        Some (ts1, player')
      else Some (territories, player').

(** [executeAction action player], as a function of [this.territories]
    and the player object, both of which it mutates. *)
Definition executeAction (territories : list Territory)
    (action : Decision) (player : AIPlayer)
    : option (list Territory * AIPlayer) :=
  match d_action action with
  | attack =>
      match d_source action, d_target action with
      | Some source, Some target =>
          match findIndex (sameCoords source) territories,
                findIndex (sameCoords target) territories with
          | Some sourceIndex, Some targetIndex =>
              ts ← resolveAttack territories sourceIndex targetIndex player;
              Some (ts, player)
          | _, _ => Some (territories, player)
          end
      | _, _ => Some (territories, player)
      end
  | defend =>
      match d_target action with
      | Some target =>
          match findIndex (sameCoords target) territories with
          | Some defendIndex =>
              cell ← territories !! defendIndex;
              if ownedBy (p_id player) cell then
                ts ← update defendIndex
                       (fun c => set_troops (t_troops c + 5) c) territories;
                Some (ts, player)
              else Some (territories, player)
          | None => Some (territories, player)
          end
      | None => Some (territories, player)
      end
  | build =>
      match d_target action, d_buildingType action with
      | Some target, Some buildingType =>
          match findIndex (sameCoords target) territories with
          | Some buildIndex =>
              resolveBuild territories buildIndex buildingType player
          | None => Some (territories, player)
          end
      | _, _ => Some (territories, player)
      end
  end.

(** [determineWinner]: the owner id that is first to reach the largest
    territory count, in the order in which ids first occur in the grid
    (the insertion order of the object [territoryCounts]). *)
Fixpoint bump (id : string) (counts : list (string * Z)) : list (string * Z) :=
  match counts with
  | [] => [(id, 1)]
  | (k, n) :: rest =>
      if decide (k = id) then (k, n + 1) :: rest else (k, n) :: bump id rest
  end.

Definition territoryCounts (territories : list Territory) : list (string * Z) :=
  foldl (fun counts t =>
           match t_owner t with
           | Some o => bump (o_id o) counts
           | None => counts
           end) [] territories.

Definition determineWinner (territories : list Territory) : option string :=
  snd (foldl (fun '(maxTerritories, winner) '(playerId, count) =>
                if count >? maxTerritories then (count, Some playerId)
                else (maxTerritories, winner))
             (0, None) (territoryCounts territories)).

End Simulator.

(** ** The interactive client: the selection/attack part of
    [handleCanvasClick] (page.tsx)

    The part of the handler that runs once the player has claimed a
    starting area and is not in building mode, from the clicked index
    on: the handler finds [clickedIndex] with [findIndex] and returns at
    once when there is none. *)

Module Page.

(** [{ id: "player1", name: playerName || "Player", color: "#e63946" }]. *)
Definition player1 (playerName : string) : Owner :=
  mkOwner "player1"%string
    (if decide (playerName = EmptyString) then "Player"%string else playerName)
    "#e63946"%string None.

(** [b && b.type === "tower" ? b.level : 0]. *)
Definition hasRangeBonus (t : Territory) : Z :=
  match t_building t with
  | Some b => if decide (b_type b = tower) then b_level b else 0
  | None => 0
  end.

(** The branch "Attacking enemy or neutral territory". *)
Definition attackBranch (ts : list Territory) (selectedIndex clickedIndex : nat)
    (playerName : string) : option (list Territory) :=
  selectedTerritory ← ts !! selectedIndex;
  targetTerritory ← ts !! clickedIndex;
  let defenseBonus := defenseBonusOf targetTerritory in
  let effectiveDefense := t_troops targetTerritory * (1 + defenseBonus) in
  let attackingTroops := t_troops selectedTerritory / 2 in
  if attackingTroops >? 0 then
    if attackingTroops >? effectiveDefense then
      ts1 ← update clickedIndex (set_owner (Some (player1 playerName))) ts;
      ts2 ← update clickedIndex
              (fun c => set_troops (attackingTroops - t_troops c) c) ts1;
      ts3 ← update selectedIndex
              (fun c => set_troops (t_troops c - attackingTroops) c) ts2;
      update clickedIndex
        (fun c => if bool_decide (t_building c <> None)
                  then set_building None c else c) ts3
    else
      ts1 ← update clickedIndex
              (fun c => set_troops
                          (t_troops c - attackingTroops / (1 + defenseBonus)) c)
              ts;
      update selectedIndex
        (fun c => set_troops (t_troops c - attackingTroops) c) ts1
  else Some ts.

(** The branch "Moving troops between own territories". *)
Definition moveBranch (ts : list Territory) (selectedIndex clickedIndex : nat)
    : option (list Territory) :=
  selectedTerritory ← ts !! selectedIndex;
  let troopsToMove := JS.floor_mul (t_troops selectedTerritory) JS.lit_0_8 in
  if troopsToMove >? 0 then
    ts1 ← update clickedIndex
            (fun c => set_troops (t_troops c + troopsToMove) c) ts;
    update selectedIndex
      (fun c => set_troops (t_troops c - troopsToMove) c) ts1
  else Some ts.

Definition handleCanvasClick (territories : list Territory)
    (clickedIndex : nat) (playerName : string) : option (list Territory) :=
  match findIndex t_isSelected territories with
  | None =>
      clicked ← territories !! clickedIndex;
      if ownedBy "player1"%string clicked
      then update clickedIndex (set_isSelected true) territories
      else Some territories
  | Some selectedIndex =>
      selectedTerritory ← territories !! selectedIndex;
      targetTerritory ← territories !! clickedIndex;
      let dx := t_x selectedTerritory - t_x targetTerritory in
      let dy := t_y selectedTerritory - t_y targetTerritory in
      if t_wall targetTerritory then
        update selectedIndex (set_isSelected false) territories
      else
        ts ← (if withinDistance dx dy (2 + hasRangeBonus selectedTerritory) then
                if ownedBy "player1"%string targetTerritory
                then moveBranch territories selectedIndex clickedIndex
                else attackBranch territories selectedIndex clickedIndex
                       playerName
              else Some territories);
        update selectedIndex (set_isSelected false) ts
  end.

End Page.

(** ** The learning agent: class [NeuralAI] *)

Module Neural.

(** [distance <= range && distance > 0 && !t.wall], with
    [distance = Math.sqrt (dx * dx + dy * dy)] on integer coordinates. *)
Definition findAdjacentTerritories (territories : list Territory)
    (territory : Territory) (range : Z) : list Territory :=
  List.filter
    (fun t =>
       let dx := t_x t - t_x territory in
       let dy := t_y t - t_y territory in
       withinDistance dx dy range && (0 <? dx * dx + dy * dy)
       && negb (t_wall t))
    territories.

Definition findNearbyEmptyTerritories (territories : list Territory)
    (territory : Territory) (range : Z) : list Territory :=
  List.filter
    (fun t =>
       let dx := t_x t - t_x territory in
       let dy := t_y t - t_y territory in
       withinDistance dx dy range && (0 <? dx * dx + dy * dy)
       && bool_decide (t_owner t = None) && negb (t_wall t))
    territories.

(** [n.owner && n.owner.id !== id]. *)
Definition enemyOf (id : string) (n : Territory) : bool :=
  match t_owner n with
  | Some o => negb (bool_decide (o_id o = id))
  | None => false
  end.

(** [Object.entries (buildingCosts)], in the order of the literal. *)
Definition buildingCostEntries : list (BuildingType * Z) :=
  map (fun b => (b, buildingCosts b))
      [fort; farm; tower; barracks; wall; mine; market].

Definition attackActions (territories ownedTerritories : list Territory)
    (player : AIPlayer) : list Decision :=
  flat_map
    (fun source =>
       if t_troops source <? 5 then []
       else
         flat_map
           (fun target =>
              if ownedBy (p_id player) target then []
              else if t_wall target then []
              else if t_troops source >? t_troops target
                   then [mkDecision attack (Some source) (Some target) None]
                   else [])
           (findAdjacentTerritories territories source 2))
    ownedTerritories.

Definition getLegalActions (territories : list Territory) (player : AIPlayer)
    : list Decision :=
  let ownedTerritories := List.filter (ownedBy (p_id player)) territories in
  let attacks := attackActions territories ownedTerritories player in
  let borderTerritories :=
    List.filter
      (fun territory =>
         existsb (enemyOf (p_id player))
                 (findAdjacentTerritories territories territory 2))
      ownedTerritories in
  let defends :=
    map (fun target => mkDecision defend None (Some target) None)
        borderTerritories in
  let builds :=
    if goldOr0 player >=? 80 then
      let buildableTerritories :=
        List.filter
          (fun t => bool_decide (t_building t = None) && negb (t_wall t))
          ownedTerritories in
      let emptyNearbyTerritories :=
        flat_map (fun border => findNearbyEmptyTerritories territories border 2)
                 borderTerritories in
      flat_map
        (fun target =>
           flat_map
             (fun '(buildingType, cost) =>
                if goldOr0 player <? cost then []
                else if decide (buildingType = wall) then []
                else [mkDecision build None (Some target) (Some buildingType)])
             buildingCostEntries)
        buildableTerritories
      ++ (if goldOr0 player >=? buildingCosts wall then
            map (fun target => mkDecision build None (Some target) (Some wall))
                emptyNearbyTerritories
          else [])
    else [] in
  attacks ++ defends ++ builds.

(** *** Replay memory *)

Record Experience : Type := mkExperience {
  e_state : list Q;
  e_action : list Z;
  e_reward : Q;
  e_nextState : list Q;
  e_done : bool
}.

Definition replayMemorySize : Z := 10000.

(** [push] the new experience, then [shift] once if the array has
    become longer than [replayMemorySize]. *)
Definition addExperience (replayMemory : list Experience) (e : Experience)
    : list Experience :=
  let pushed := replayMemory ++ [e] in
  if Z.of_nat (length pushed) >? replayMemorySize then tail pushed else pushed.

(** *** Exploration rate *)

(** The fields [epsilon = 1.0], [epsilonMin = 0.1] and
    [epsilonDecay = 0.995]. *)
Definition epsilonInit : spec_float := JS.lit_1.
Definition epsilonMin : spec_float := JS.lit_0_1.
Definition epsilonDecay : spec_float := JS.lit_0_995.

(** The "Decay epsilon" step that ends a completed [trainOnBatch]:
    [if (this.epsilon > this.epsilonMin) this.epsilon *= this.epsilonDecay],
    on binary64 numbers. *)
Definition decayEpsilon (epsilon : spec_float) : spec_float :=
  if SFltb epsilonMin epsilon
  then SFmul JS.prec JS.emax epsilon epsilonDecay
  else epsilon.

(** The exploration rate after [n] completed batch updates. *)
Fixpoint epsilonAfter (n : nat) : spec_float :=
  match n with
  | O => epsilonInit
  | S k => decayEpsilon (epsilonAfter k)
  end.

(** *** Reward *)

Record GameState : Set := mkGameState {
  s_territories : list Territory;
  s_player : AIPlayer
}.

Definition territoryCount (s : GameState) : Z :=
  Z.of_nat (length (List.filter (ownedBy (p_id (s_player s))) (s_territories s))).

Definition troopCount (s : GameState) : Z :=
  foldl (fun sum t =>
           if ownedBy (p_id (s_player s)) t then sum + t_troops t else sum)
        0 (s_territories s).

Definition buildingCount (s : GameState) : Z :=
  foldl (fun sum t =>
           if ownedBy (p_id (s_player s)) t
              && bool_decide (t_building t <> None)
           then sum + 1 else sum)
        0 (s_territories s).

(** The weighted sum
    [territoryDiff * 10 + goldDiff * 0.1 + troopDiff * 0.5 + buildingDiff * 5]
    as the program evaluates it: in binary64 and from left to right, on
    the four integer differences. *)
Definition weightedSum (territoryDiff goldDiff troopDiff buildingDiff : Z)
    : spec_float :=
  let mul := SFmul JS.prec JS.emax in
  let add := SFadd JS.prec JS.emax in
  add (add (add (mul (JS.of_int territoryDiff) (JS.of_int 10))
                (mul (JS.of_int goldDiff) JS.lit_0_1))
           (mul (JS.of_int troopDiff) JS.lit_0_5))
      (mul (JS.of_int buildingDiff) (JS.of_int 5)).

Definition calculateReward (prevState currentState : GameState) : spec_float :=
  let territoryDiff := territoryCount currentState - territoryCount prevState in
  let goldDiff := goldOr0 (s_player currentState) - goldOr0 (s_player prevState) in
  let troopDiff := troopCount currentState - troopCount prevState in
  let buildingDiff := buildingCount currentState - buildingCount prevState in
  weightedSum territoryDiff goldDiff troopDiff buildingDiff.

End Neural.

(** ** Notions used in the statements *)

(** What a successful attack by [p] with [force] troops leaves in the
    target cell. *)
Definition captured (p : AIPlayer) (force : Z) (t : Territory) : Territory :=
  let c := set_troops (force - t_troops t) (set_owner (Some (ownerOf p)) t) in
  if bool_decide (t_building c <> None) && negb (t_wall c)
  then set_building None c else c.

(** A land cell as [generateRandomMap] creates it, with the given
    coordinates, owner, troops, building and wall flag. *)
Definition cell (x y : Z) (owner : option Owner) (troops : Z)
    (building : option Building) (isWall : bool) : Territory :=
  mkTerritory x y "land" "#c2b280" owner troops 100 false building isWall None.

(** The players that [initializePlayers] creates. *)
Definition neuralPlayer : AIPlayer :=
  mkAIPlayer "neural" "Neural AI" "#e63946" None (Some 500) (Some 100) (Some 0).

Definition ai1 : AIPlayer :=
  mkAIPlayer "ai1" "AI Player 1" "#457b9d" (Some "defensive"%string)
    (Some 500) (Some 100) (Some 0).

Definition attackOf (source target : Territory) : Decision :=
  mkDecision attack (Some source) (Some target) None.

Definition defendOf (target : Territory) : Decision :=
  mkDecision defend None (Some target) None.

Definition buildOf (target : Territory) (buildingType : BuildingType) : Decision :=
  mkDecision build None (Some target) (Some buildingType).

(** The replay memory after a sequence of [addExperience] calls on the
    initially empty array. *)
Definition memoryAfter (inserted : list Neural.Experience)
    : list Neural.Experience :=
  foldl Neural.addExperience [] inserted.

(** 10001 experiences that differ in their reward. *)
Definition experienceNo (n : nat) : Neural.Experience :=
  Neural.mkExperience [] [0; 0; 0; 0] (inject_Z (Z.of_nat n)) [] false.

Definition laterExperiences : list Neural.Experience :=
  map experienceNo (seq 1 (Z.to_nat Neural.replayMemorySize)).

(** The closed form that the specification gives for the exploration
    rate after [n] batch updates, [max (epsilonMin, 1.0 * 0.995^n)], on
    exact numbers. *)
Definition specEpsilon (n : nat) : Q :=
  Qmax (1 # 10) (1 * (995 # 1000) ^ Z.of_nat n).

(** A transition in which the neural player gains 2 territories and 50
    gold, loses 10 troops and gains 1 building. *)
Definition stateBefore : Neural.GameState :=
  Neural.mkGameState
    [cell 0 0 (Some (ownerOf neuralPlayer)) 20 None false;
     cell 1 0 (Some (ownerOf ai1)) 3 None false;
     cell 2 0 None 2 None false]
    (set_gold (Some 100) neuralPlayer).

Definition stateAfter : Neural.GameState :=
  Neural.mkGameState
    [cell 0 0 (Some (ownerOf neuralPlayer)) 4
       (Some (mkBuilding barracks 1)) false;
     cell 1 0 (Some (ownerOf neuralPlayer)) 3 None false;
     cell 2 0 (Some (ownerOf neuralPlayer)) 3 None false]
    (set_gold (Some 150) neuralPlayer).

(** What a successful second-click attack with [force] troops leaves in
    the target cell. *)
Definition capturedByPlayer (playerName : string) (force : Z) (t : Territory)
    : Territory :=
  let c := set_troops (force - t_troops t)
             (set_owner (Some (Page.player1 playerName)) t) in
  if bool_decide (t_building c <> None) then set_building None c else c.

(** The invariant of walled cells: no building and no troops. *)
Definition wallInvariant (ts : list Territory) : Prop :=
  Forall (fun t => t_wall t = true -> t_building t = None /\ t_troops t = 0) ts.

(** Example cells and grids. *)
Definition neuralCell : Territory :=
  cell 0 0 (Some (ownerOf neuralPlayer)) 10 None false.

Definition fortCell : Territory :=
  cell 1 0 (Some (ownerOf ai1)) 5 (Some (mkBuilding fort 1)) false.

Definition farmCell : Territory :=
  cell 1 0 (Some (ownerOf ai1)) 3 (Some (mkBuilding farm 1)) false.

Definition ai1FarmCell : Territory :=
  cell 0 0 (Some (ownerOf ai1)) 5 (Some (mkBuilding farm 1)) false.

Definition ai1Cell : Territory :=
  cell 0 0 (Some (ownerOf ai1)) 10 None false.

Definition neuralWall : Territory :=
  cell 1 0 (Some (ownerOf neuralPlayer)) 0 None true.

Definition enemyCell : Territory :=
  cell 2 0 (Some (ownerOf ai1)) 8 None false.

Definition fortGrid : list Territory := [neuralCell; fortCell].
Definition farmGrid : list Territory := [neuralCell; farmCell].
Definition builtGrid : list Territory := [ai1FarmCell].
Definition enemyWallGrid : list Territory := [ai1Cell; neuralWall].
Definition ownWallGrid : list Territory := [neuralCell; neuralWall; enemyCell].

(** The interactive player's selected cell and two targets. *)
Definition selectedCell : Territory :=
  mkTerritory 0 0 "land" "#c2b280"
    (Some (Page.player1 "Ann")) 10 100 true None false None.

Definition neutralCell : Territory := cell 1 0 None 3 None false.

Definition fortifiedCell : Territory :=
  cell 1 0 (Some (ownerOf ai1)) 3 (Some (mkBuilding fort 1)) false.

(** Proof steps. [run_update_with lem] runs the next in-place update,
    [lem] being the lemma that an update inside the array returns;
    [lookup_insert] reads a cell of an array that was updated in place;
    [step_update_with lem] rewrites the next update into an insertion,
    [lem] being the lemma that says which. *)
Ltac run_update_with lem :=
  match goal with
  | |- context [update ?i ?f ?l] =>
      let l' := fresh "ts" in
      let E := fresh "E" in
      let L := fresh "L" in
      destruct (lem l i f) as (l' & E & L);
      [lia | rewrite E; simpl]
  end.

Ltac finish_run := eexists; split; [reflexivity | lia].

Ltac lookup_insert :=
  repeat first
    [ rewrite list_lookup_insert_eq by (rewrite ?length_insert; assumption)
    | rewrite list_lookup_insert_ne by congruence ].

Ltac step_update_with lem :=
  match goal with
  | |- context [update ?i ?f ?l] =>
      erewrite (lem l i f)
        by (lookup_insert; first [eassumption | reflexivity]);
      simpl
  end.

(** * More of the program

    The rest of the three source modules, as far as it can be embedded.
    [Math.random] is not modelled as a generator: each call site takes
    its draw as an argument. Where the program computes
    [Math.floor (Math.random () * n)] to index an array of length [n],
    the argument is a natural number [k] and the index is [k mod n]: it
    ranges over the indices of the array as the program's index does. *)

(** [arr[Math.floor (Math.random () * arr.length)]]; [None] is
    [undefined], the result on an empty array. *)
Definition pick {A : Type} (k : nat) (arr : list A) : option A :=
  arr !! (k mod length arr)%nat.

(** [arr.sort ((a, b) => key (a) - key (b))]: the sort is stable, so the
    result is the one that a stable insertion sort gives. *)
Fixpoint insertByKey {A : Type} (key : A -> Z) (x : A) (sorted : list A)
    : list A :=
  match sorted with
  | [] => [x]
  | y :: rest =>
      if key x <=? key y then x :: y :: rest
      else y :: insertByKey key x rest
  end.

Definition sortByKey {A : Type} (key : A -> Z) (arr : list A) : list A :=
  foldr (insertByKey key) [] arr.

(** ** More of class [NeuralAI] *)

Module NeuralAI.

(** The list [buildingTypes] of [extractFeatures] and [indicesToAction]. *)
Definition buildingTypes : list BuildingType :=
  [fort; farm; tower; barracks; wall; mine; market].

(** The ten numbers that [extractFeatures] pushes for one territory. *)
Definition territoryFeatures (id : string) (territory : Territory) : list Q :=
  [match t_owner territory with
   | None => 0%Q
   | Some o => if bool_decide (o_id o = id) then 1%Q else (-1)%Q
   end;
   (inject_Z (t_troops territory) / 100)%Q]
  ++ map (fun type =>
            match t_building territory with
            | Some b => if decide (b_type b = type) then 1%Q else 0%Q
            | None => 0%Q
            end)
         buildingTypes
  ++ [if t_wall territory then 1%Q else 0%Q].

Definition extractFeatures (territories : list Territory) (player : AIPlayer)
    : list Q :=
  flat_map (territoryFeatures (p_id player)) territories
  ++ [(inject_Z (goldOr0 player) / 1000)%Q;
      (inject_Z (default 0%Z (p_troops player)) / 1000)%Q;
      (inject_Z (default 0%Z (p_territory player)) / 100)%Q].

(** [findIndex] as a number: -1 when nothing matches. *)
Definition indexOrMinus1 (i : option nat) : Z :=
  match i with
  | Some n => Z.of_nat n
  | None => -1
  end.

(** [buildingTypeMap]. *)
Definition buildingTypeMap (b : BuildingType) : Z :=
  match b with
  | fort => 0
  | farm => 1
  | tower => 2
  | barracks => 3
  | wall => 4
  | mine => 5
  | market => 6
  end.

Definition actionToIndices (action : Decision) (territories : list Territory)
    : list Z :=
  let actionTypeIndex :=
    match d_action action with
    | attack => 0
    | defend => 1
    | build => 2
    end in
  let sourceIndex :=
    match d_source action with
    | Some source => indexOrMinus1 (findIndex (sameCoords source) territories)
    | None => -1
    end in
  let targetIndex :=
    match d_target action with
    | Some target => indexOrMinus1 (findIndex (sameCoords target) territories)
    | None => -1
    end in
  let buildingTypeIndex :=
    match d_buildingType action with
    | Some b => buildingTypeMap b
    | None => -1
    end in
  [actionTypeIndex; sourceIndex; targetIndex; buildingTypeIndex].

(** [i >= 0 && i < arr.length ? arr[i] : undefined], for an index that
    may itself be [undefined]. *)
Definition elementAt {A : Type} (i : option Z) (arr : list A) : option A :=
  match i with
  | Some z =>
      if (0 <=? z) && (z <? Z.of_nat (length arr)) then arr !! Z.to_nat z
      else None
  | None => None
  end.

(** [indices] is destructured into its first four elements; a missing
    element is [undefined], which equals neither 0 nor 1 and fails both
    range tests. *)
Definition indicesToAction (indices : list Z) (territories : list Territory)
    : Decision :=
  let actionType :=
    match indices !! 0%nat with
    | Some 0 => attack
    | Some 1 => defend
    | _ => build
    end in
  mkDecision actionType
    (elementAt (indices !! 1%nat) territories)
    (elementAt (indices !! 2%nat) territories)
    (elementAt (indices !! 3%nat) buildingTypes).

(** The output slot of an action, as [trainOnBatch] and [chooseAction]
    compute it from the indices:
    [type * 100 + (source + 1) * 10 + (target + 1)]. *)
Definition actionIndex (indices : list Z) : option Z :=
  actionTypeIndex ← indices !! 0%nat;
  sourceIndex ← indices !! 1%nat;
  targetIndex ← indices !! 2%nat;
  Some (actionTypeIndex * 100 + (sourceIndex + 1) * 10 + (targetIndex + 1)).

(** [addMetric]: [push], then [shift] once when more than 1000 metrics
    are held. *)
Record TrainingMetrics : Type := mkTrainingMetrics {
  m_episode : Z;
  m_reward : Q;
  m_territoriesOwned : Z;
  m_goldAccumulated : Z;
  m_troopsAccumulated : Z;
  m_buildingsConstructed : Z;
  m_winRate : Z
}.

Definition addMetric (metrics : list TrainingMetrics) (metric : TrainingMetrics)
    : list TrainingMetrics :=
  let pushed := metrics ++ [metric] in
  if (1000 <? length pushed)%nat then tail pushed else pushed.

Definition batchSize : nat := 32.

(** [sampleBatch]: [batchSize] draws with replacement; [draws i] is the
    draw of round [i]. An empty memory yields [undefined] entries. *)
Definition sampleBatch (replayMemory : list Neural.Experience)
    (draws : nat -> nat) : list (option Neural.Experience) :=
  map (fun i => pick (draws i) replayMemory) (seq 0 batchSize).

(** A predicted value or [-Infinity]. *)
Definition Score : Type := option Q.

(** [a <= b] on scores. For the comparator [(x, y) => y.score - x.score]
    of [chooseAction], [scoreLe (score y) (score x)] says that the
    comparator's result on [(x, y)] is not positive; on two [-Infinity]
    the result is NaN, which [sort] reads as 0. *)
Definition scoreLe (a b : Score) : bool :=
  match a, b with
  | None, _ => true
  | Some _, None => false
  | Some x, Some y => Qle_bool x y
  end.

(** [actionScores.sort ((a, b) => b.score - a.score)], stable and
    descending. *)
Fixpoint insertByScore {A : Type} (score : A -> Score) (x : A)
    (sorted : list A) : list A :=
  match sorted with
  | [] => [x]
  | y :: rest =>
      if scoreLe (score y) (score x) then x :: y :: rest
      else y :: insertByScore score x rest
  end.

Definition sortByScoreDesc {A : Type} (score : A -> Score) (arr : list A)
    : list A :=
  foldr (insertByScore score) [] arr.

(** The score of a legal action: the model's output at the action's
    slot, [-Infinity] when the slot is outside the output. *)
Definition actionScore (qValues : list Q) (territories : list Territory)
    (action : Decision) : Score :=
  match actionIndex (actionToIndices action territories) with
  | Some i =>
      if (0 <=? i) && (i <? Z.of_nat (length qValues))
      then qValues !! Z.to_nat i else None
  | None => None
  end.

(** [chooseAction]. [explore] is the outcome of
    [Math.random () < this.epsilon], [draw] the draw for the random
    index, and [qValues] the model's output row for the state, [None]
    when no model is loaded. [None] as a result is [undefined] (random
    choice among no actions) or the TypeError of [actionScores[0].action]
    on an empty array. *)
Definition chooseAction (explore : bool) (draw : nat)
    (qValues : option (list Q)) (territories : list Territory)
    (legalActions : list Decision) : option Decision :=
  if explore then pick draw legalActions
  else
    match qValues with
    | None => pick draw legalActions
    | Some q =>
        head (sortByScoreDesc (actionScore q territories) legalActions)
    end.

End NeuralAI.

(** ** Notions used in the statements about class [NeuralAI] *)

Definition coords (t : Territory) : Z * Z := (t_x t, t_y t).

(** A grid in which no two territories share their coordinates. *)
Definition distinctCoords (ts : list Territory) : Prop := NoDup (map coords ts).

(** The territory that a coordinate lookup finds for [c]: the first one
    of the grid with the coordinates of [c]. *)
Definition firstAt (ts : list Territory) (c : Territory) : option Territory :=
  i ← findIndex (sameCoords c) ts; ts !! i.

(** The metrics held after a sequence of [addMetric] calls on the
    initially empty array. *)
Definition metricsAfter (inserted : list NeuralAI.TrainingMetrics)
    : list NeuralAI.TrainingMetrics :=
  foldl NeuralAI.addMetric [] inserted.

(** A grid of ten cells in a row and two actions on it. *)
Definition rowOfTen : list Territory :=
  map (fun n => cell (Z.of_nat n) 0 (Some (ownerOf neuralPlayer)) 10 None false)
      (seq 0 10).

Definition cellNo (n : Z) : Territory :=
  cell n 0 (Some (ownerOf neuralPlayer)) 10 None false.

(** ** More of class [GameSimulator] *)

Module GameSimulator.

Definition maxGameDays : Z := 200.

(** [checkGameOver]: [Object.keys (territoryCounts).length <= 1], or the
    day limit is reached. *)
Definition checkGameOver (territories : list Territory) (gameDay : Z) : bool :=
  (length (Simulator.territoryCounts territories) <=? 1)%nat
  || (gameDay >=? maxGameDays).

(** [findAdjacentTerritories] of the simulator is the one of [NeuralAI]
    on [this.territories]. *)
Definition findAdjacentTerritories (territories : list Territory)
    (territory : Territory) : list Territory :=
  Neural.findAdjacentTerritories territories territory 2.

(** The three counters of [updateGameState] for one player, after the
    inner [forEach]. *)
Definition playerCounters (territories : list Territory) (player : AIPlayer)
    : Z * Z * Z :=
  foldl
    (fun '(territoryCount, goldIncome, troopGrowth) territory =>
       if ownedBy (p_id player) territory then
         match t_building territory with
         | Some b =>
             match b_type b with
             | mine => (territoryCount + 1, goldIncome + 15, troopGrowth)
             | market => (territoryCount + 1, goldIncome + 25, troopGrowth)
             | farm => (territoryCount + 1, goldIncome, troopGrowth + 3)
             | barracks => (territoryCount + 1, goldIncome, troopGrowth + 5)
             | _ => (territoryCount + 1, goldIncome, troopGrowth)
             end
         | None => (territoryCount + 1, goldIncome, troopGrowth)
         end
       else (territoryCount, goldIncome, troopGrowth))
    (0, 10, 5) territories.

(** The body of the outer [forEach] of [updateGameState] for one player;
    [draw] is the draw for the player's random territory. *)
Definition updatePlayer (territories : list Territory) (player : AIPlayer)
    (draw : nat) : option (list Territory * AIPlayer) :=
  let '(territoryCount, goldIncome, troopGrowth) :=
    playerCounters territories player in
  let player' :=
    mkAIPlayer (p_id player) (p_name player) (p_color player)
      (p_personality player)
      (Some (goldOr0 player + goldIncome))
      (Some (default 0 (p_troops player) + troopGrowth))
      (Some territoryCount) in
  let ownedTerritories := List.filter (ownedBy (p_id player)) territories in
  match pick draw ownedTerritories with
  | Some randomTerritory =>
      match findIndex (sameCoords randomTerritory) territories with
      | Some index =>
          ts ← update index (fun c => set_troops (t_troops c + 1) c) territories;
          Some (ts, player')
      | None => Some (territories, player')
      end
  | None => Some (territories, player')
  end.

(** [updateGameState]: the players are updated in order, each on the
    grid that the previous ones left; [draws i] is the draw of player
    [i]. *)
Fixpoint updatePlayers (territories : list Territory) (players : list AIPlayer)
    (draws : nat -> nat) (i : nat) : option (list Territory * list AIPlayer) :=
  match players with
  | [] => Some (territories, [])
  | player :: rest =>
      '(ts, player') ← updatePlayer territories player (draws i);
      '(ts', rest') ← updatePlayers ts rest draws (S i);
      Some (ts', player' :: rest')
  end.

Definition updateGameState (territories : list Territory)
    (players : list AIPlayer) (draws : nat -> nat)
    : option (list Territory * list AIPlayer) :=
  updatePlayers territories players draws 0.

(** The building type that [executeAITurn] chooses in build mode from
    the gold at hand; [draw] is the draw for the option. *)
Definition chooseBuildingType (availableGold : Z) (draw : nat) : BuildingType :=
  if availableGold >=? 200 then
    default barracks (pick draw [tower; market; barracks; farm; fort; mine])
  else if availableGold >=? 150 then
    default barracks (pick draw [farm; mine; fort; barracks])
  else if availableGold >=? 100 then
    default barracks (pick draw [fort; barracks])
  else wall.

(** [executeAITurn]. [attackRoll] is the outcome of
    [Math.random () < 0.7]; the three draws are those for the attacking
    territory, the territory to build on and the building type. *)
Definition executeAITurn (territories : list Territory) (player : AIPlayer)
    (attackRoll : bool) (drawSource drawTarget drawType : nat)
    : option (list Territory * AIPlayer) :=
  let ownedTerritories := List.filter (ownedBy (p_id player)) territories in
  match ownedTerritories with
  | [] => Some (territories, player)
  | _ :: _ =>
      let attackCandidates :=
        List.filter (fun t => t_troops t >=? 5) ownedTerritories in
      if negb (bool_decide (attackCandidates = [])) && attackRoll then
        match pick drawSource attackCandidates with
        | Some source =>
            let adjacentTerritories :=
              findAdjacentTerritories territories source in
            let targetableTerritories :=
              List.filter
                (fun t => negb (t_wall t) && negb (ownedBy (p_id player) t)
                          && (t_troops t <? t_troops source))
                adjacentTerritories in
            match sortByKey t_troops targetableTerritories with
            | target :: _ =>
                Simulator.executeAction territories (attackOf source target)
                  player
            | [] => Some (territories, player)
            end
        | None => Some (territories, player)
        end
      else if goldOr0 player >=? 80 then
        let buildableTerritories :=
          List.filter
            (fun t => bool_decide (t_building t = None) && negb (t_wall t))
            ownedTerritories in
        match pick drawTarget buildableTerritories with
        | Some target =>
            Simulator.executeAction territories
              (buildOf target (chooseBuildingType (goldOr0 player) drawType))
              player
        | None => Some (territories, player)
        end
      else
        match sortByKey t_troops ownedTerritories with
        | weakestTerritory :: _ =>
            Simulator.executeAction territories (defendOf weakestTerritory)
              player
        | [] => Some (territories, player)
        end
  end.

(** The draws of one day of an episode: the outcome of
    [Math.random () < this.epsilon] and the index draw of [chooseAction],
    the model's output row ([None] when no model is loaded), the draws
    of the turn of opponent number [i] and the draw of player number [i]
    in [updateGameState]. *)
Record DayDraws : Type := mkDayDraws {
  day_explore : bool;
  day_action : nat;
  day_qValues : option (list Q);
  day_attackRoll : nat -> bool;
  day_source : nat -> nat;
  day_target : nat -> nat;
  day_type : nat -> nat;
  day_growth : nat -> nat
}.

(** The loop [for (let i = 1; i < this.players.length; i++)] over the
    opponents, each on the grid that the previous one left. *)
Fixpoint opponentsTurns (territories : list Territory)
    (opponents : list AIPlayer) (draws : DayDraws) (i : nat)
    : option (list Territory * list AIPlayer) :=
  match opponents with
  | [] => Some (territories, [])
  | aiPlayer :: rest =>
      '(ts, aiPlayer') ←
        executeAITurn territories aiPlayer (day_attackRoll draws i)
          (day_source draws i) (day_target draws i) (day_type draws i);
      '(ts', rest') ← opponentsTurns ts rest draws (S i);
      Some (ts', aiPlayer' :: rest')
  end.

Record DayResult : Type := mkDayResult {
  r_territories : list Territory;
  r_players : list AIPlayer;
  r_isGameOver : bool;
  r_reward : spec_float
}.

(** The body of the [while] loop of [runEpisode], for the day that
    follows [gameDay].

    [previousState.territories] is [[...this.territories]]: a new array
    of the same territory objects. Everything that follows changes the
    grid by assigning to properties of these objects, and never replaces
    an element of [this.territories]; so when [calculateReward] reads
    [previousState.territories] at the end of the day, it reads the
    territories as they are then. [previousState.player] is
    [{ ...neuralPlayer }], a new object with the player's numbers and
    strings of the morning, which later assignments to [neuralPlayer] do
    not reach.

    With no player, [getLegalActions] reads [id] of [undefined] and
    raises. The experience that the loop stores in the replay memory of
    the [NeuralAI] object is not part of the result and is left out. *)
Definition runDay (territories : list Territory) (players : list AIPlayer)
    (gameDay : Z) (draws : DayDraws) : option DayResult :=
  match players with
  | [] => None
  | neuralPlayer :: opponents =>
      let previousPlayer := neuralPlayer in
      let legalActions := Neural.getLegalActions territories neuralPlayer in
      '(ts1, neuralPlayer1) ←
        match legalActions with
        | [] => Some (territories, neuralPlayer)
        | _ :: _ =>
            action ← NeuralAI.chooseAction (day_explore draws)
                       (day_action draws) (day_qValues draws) territories
                       legalActions;
            Simulator.executeAction territories action neuralPlayer
        end;
      '(ts2, opponents2) ← opponentsTurns ts1 opponents draws 1;
      '(ts3, players3) ←
        updateGameState ts2 (neuralPlayer1 :: opponents2) (day_growth draws);
      neuralPlayer3 ← head players3;
      let isGameOver := checkGameOver ts3 (gameDay + 1) in
      let previousState := Neural.mkGameState ts3 previousPlayer in
      let currentState := Neural.mkGameState ts3 neuralPlayer3 in
      Some (mkDayResult ts3 players3 isGameOver
              (Neural.calculateReward previousState currentState))
  end.

(** The [while] loop of [runEpisode]: at most [days] more days, the
    number of days left before [maxGameDays]; [draws n] are the draws of
    the day after day [n]. *)
Fixpoint runDays (days : nat) (territories : list Territory)
    (players : list AIPlayer) (gameDay : Z) (draws : nat -> DayDraws)
    (totalReward : spec_float)
    : option (list Territory * list AIPlayer * spec_float) :=
  match days with
  | O => Some (territories, players, totalReward)
  | S days' =>
      r ← runDay territories players gameDay (draws (Z.to_nat gameDay));
      let totalReward' := SFadd JS.prec JS.emax totalReward (r_reward r) in
      if r_isGameOver r
      then Some (r_territories r, r_players r, totalReward')
      else runDays days' (r_territories r) (r_players r) (gameDay + 1) draws
             totalReward'
  end.

Record EpisodeResult : Type := mkEpisodeResult {
  totalReward : spec_float;
  territoriesOwned : Z;
  goldAccumulated : Z;
  troopsAccumulated : Z;
  buildingsConstructed : Z;
  isWinner : bool
}.

(** [runEpisode], from the state that [initializeEpisode] or the
    previous episode left. The final counts are the filter and the two
    [reduce] calls of [calculateReward], on [this.territories] and the
    first player. *)
Definition runEpisode (territories : list Territory) (players : list AIPlayer)
    (gameDay : Z) (draws : nat -> DayDraws) : option EpisodeResult :=
  '(ts, players', totalReward) ←
    runDays (Z.to_nat (maxGameDays - gameDay)) territories players gameDay
      draws (JS.of_int 0);
  neuralPlayer ← head players';
  let final := Neural.mkGameState ts neuralPlayer in
  let isWinner :=
    bool_decide (Simulator.determineWinner ts = Some (p_id neuralPlayer)) in
  Some (mkEpisodeResult
          (if isWinner
           then SFadd JS.prec JS.emax totalReward (JS.of_int 100)
           else totalReward)
          (Neural.territoryCount final) (goldOr0 neuralPlayer)
          (Neural.troopCount final) (Neural.buildingCount final) isWinner).

End GameSimulator.

(** ** Notions used in the statements about class [GameSimulator] *)

(** The number of territories that the player with the given id owns. *)
Definition ownedCount (id : string) (ts : list Territory) : Z :=
  Z.of_nat (length (List.filter (ownedBy id) ts)).

(** The number of owned territories with a building of the given type. *)
Definition buildingsOfType (type : BuildingType) (id : string)
    (ts : list Territory) : Z :=
  Z.of_nat
    (length
       (List.filter
          (fun t => ownedBy id t
                    && bool_decide (b_type <$> t_building t = Some type))
          ts)).

(** The owner id of a territory, if it has an owner. *)
Definition ownerId (t : Territory) : option string := o_id <$> t_owner t.

(** All troops on the grid. *)
Definition totalTroops (ts : list Territory) : Z :=
  foldr Z.add 0 (map t_troops ts).

(** A territory without its troop count. *)
Definition withoutTroops (t : Territory) : Territory := set_troops 0 t.

(** The troops on the territories of the owner [id]. *)
Definition troopsOf (id : string) (ts : list Territory) : Z :=
  foldr Z.add 0 (map t_troops (List.filter (ownedBy id) ts)).

(** The action that [executeAITurn] hands to [executeAction]: the same
    choices, without the call; [None] when the turn ends without one. *)
Definition aiTurnAction (territories : list Territory) (player : AIPlayer)
    (attackRoll : bool) (drawSource drawTarget drawType : nat)
    : option Decision :=
  let ownedTerritories := List.filter (ownedBy (p_id player)) territories in
  match ownedTerritories with
  | [] => None
  | _ :: _ =>
      let attackCandidates :=
        List.filter (fun t => t_troops t >=? 5) ownedTerritories in
      if negb (bool_decide (attackCandidates = [])) && attackRoll then
        match pick drawSource attackCandidates with
        | Some source =>
            let adjacentTerritories :=
              GameSimulator.findAdjacentTerritories territories source in
            let targetableTerritories :=
              List.filter
                (fun t => negb (t_wall t) && negb (ownedBy (p_id player) t)
                          && (t_troops t <? t_troops source))
                adjacentTerritories in
            match sortByKey t_troops targetableTerritories with
            | target :: _ => Some (attackOf source target)
            | [] => None
            end
        | None => None
        end
      else if goldOr0 player >=? 80 then
        let buildableTerritories :=
          List.filter
            (fun t => bool_decide (t_building t = None) && negb (t_wall t))
            ownedTerritories in
        match pick drawTarget buildableTerritories with
        | Some target =>
            Some (buildOf target
                    (GameSimulator.chooseBuildingType (goldOr0 player)
                       drawType))
        | None => None
        end
      else
        match sortByKey t_troops ownedTerritories with
        | weakestTerritory :: _ => Some (defendOf weakestTerritory)
        | [] => None
        end
  end.

(** An action that asks for neither of the two things that the
    resolvers do not test for: its target, if it attacks, is no wall;
    and if it builds something other than a wall, its target has no
    building. *)
Definition withinUntestedRules (a : Decision) : Prop :=
  match d_action a with
  | attack => exists target, d_target a = Some target /\ t_wall target = false
  | defend => True
  | build =>
      exists target type,
        d_target a = Some target /\ d_buildingType a = Some type
        /\ (type <> wall -> t_building target = None)
  end.

(** A day on which the neural player, alone in the episode, explores and
    takes the first of its legal actions. *)
Definition firstActionDraws : GameSimulator.DayDraws :=
  GameSimulator.mkDayDraws true 0 None (fun _ => false) (fun _ => 0%nat)
    (fun _ => 0%nat) (fun _ => 0%nat) (fun _ => 0%nat).

(** The neural player next to a weaker territory without owner. *)
Definition captureGrid : list Territory := [neuralCell; neutralCell].

(** [captureGrid] at the end of that day: the neural player has taken
    the second territory with 8 of its 10 troops, and has grown by one
    troop on the first. *)
Definition capturedGrid : list Territory :=
  [cell 0 0 (Some (ownerOf neuralPlayer)) 3 None false;
   cell 1 0 (Some (ownerOf neuralPlayer)) 5 None false].

(** The neural player at the end of that day. *)
Definition neuralPlayerNextDay : AIPlayer :=
  mkAIPlayer "neural" "Neural AI" "#e63946" None (Some 510) (Some 105) (Some 2).

(** ** The whole of [handleCanvasClick] (page.tsx) *)

Module Client.

(** The React state that the handler reads and sets. The empty string
    of [selectedBuildingType] is [None]. *)
Record Session : Set := mkSession {
  territories : list Territory;
  playerGold : Z;
  hasClaimedTerritory : bool;
  buildingMode : bool;
  selectedBuildingType : option BuildingType
}.

(** The first click: the territories within [claimRadius] of the clicked
    one are claimed, whatever they are, and the clicked one gets a
    barracks. *)
Definition claimTerritories (ts : list Territory) (clickedIndex : nat)
    (playerName : string) : option (list Territory) :=
  startingTerritory ← ts !! clickedIndex;
  Some (map (fun territory =>
               let dx := t_x territory - t_x startingTerritory in
               let dy := t_y territory - t_y startingTerritory in
               if withinDistance dx dy 2 then
                 let claimed :=
                   set_troops 10
                     (set_owner (Some (Page.player1 playerName)) territory) in
                 if dx * dx + dy * dy =? 0
                 then set_building (Some (mkBuilding barracks 1)) claimed
                 else claimed
               else territory)
            ts).

(** A click in building mode. The costs of [buildingTypes] are those of
    [buildingCosts]. The result is the grid, the player's gold and
    whether the building mode is left. *)
Definition buildClick (ts : list Territory) (clickedIndex : nat)
    (selected : BuildingType) (gold : Z) (playerName : string)
    : option (list Territory * Z * bool) :=
  territory ← ts !! clickedIndex;
  if decide (selected = wall) then
    if bool_decide (t_owner territory = None) then
      if gold >=? buildingCosts wall then
        ts1 ← update clickedIndex (set_wall true) ts;
        ts2 ← update clickedIndex
                (set_owner (Some (Page.player1 playerName))) ts1;
        ts3 ← update clickedIndex (set_troops 0) ts2;
        Some (ts3, gold - buildingCosts wall, true)
      else Some (ts, gold, false)
    else Some (ts, gold, false)
  else if ownedBy "player1" territory then
    if bool_decide (t_building territory <> None) then Some (ts, gold, false)
    else if gold >=? buildingCosts selected then
      ts1 ← update clickedIndex
              (set_building (Some (mkBuilding selected 1))) ts;
      Some (ts1, gold - buildingCosts selected, true)
    else Some (ts, gold, false)
  else Some (ts, gold, false).

(** [handleCanvasClick] from the tile coordinates [(x, y)] on. *)
Definition handleCanvasClick (s : Session) (x y : Z) (playerName : string)
    : option Session :=
  match findIndex (fun t => (t_x t =? x) && (t_y t =? y)) (territories s) with
  | None => Some s
  | Some clickedIndex =>
      if negb (hasClaimedTerritory s) then
        ts ← claimTerritories (territories s) clickedIndex playerName;
        Some (mkSession ts (playerGold s) true (buildingMode s)
                (selectedBuildingType s))
      else
        match buildingMode s, selectedBuildingType s with
        | true, Some selected =>
            match buildClick (territories s) clickedIndex selected
                    (playerGold s) playerName with
            | Some (ts, gold, placed) =>
                Some (if placed
                      then mkSession ts gold true false None
                      else mkSession ts gold true true (Some selected))
            | None => None
            end
        | _, _ =>
            ts ← Page.handleCanvasClick (territories s) clickedIndex playerName;
            Some (mkSession ts (playerGold s) true (buildingMode s)
                    (selectedBuildingType s))
        end
  end.

End Client.

(** ** Notions used in the statements about the click handler *)

(** A territory without its troop count and its selection flag. *)
Definition fixedPart (t : Territory) : Territory :=
  set_isSelected false (set_troops 0 t).

(** ** The rule-based agents' proposer: [makeAIDecisions] (ai.ts) *)

Module Strategies.

(** The binary64 literals [0.15], [0.2], [0.25], [0.3], [0.35], [0.4],
    [0.45], [0.6], [0.85] and [1.2]. *)
Definition lit_0_15 : spec_float := S754_finite false 5404319552844595 (-55).
Definition lit_0_2 : spec_float := S754_finite false 7205759403792794 (-55).
Definition lit_0_25 : spec_float := S754_finite false 4503599627370496 (-54).
Definition lit_0_3 : spec_float := S754_finite false 5404319552844595 (-54).
Definition lit_0_35 : spec_float := S754_finite false 6305039478318694 (-54).
Definition lit_0_4 : spec_float := S754_finite false 7205759403792794 (-54).
Definition lit_0_45 : spec_float := S754_finite false 8106479329266893 (-54).
Definition lit_0_6 : spec_float := S754_finite false 5404319552844595 (-53).
Definition lit_0_85 : spec_float := S754_finite false 7656119366529843 (-53).
Definition lit_1_2 : spec_float := S754_finite false 5404319552844595 (-52).

(** [n * c] for an array length or a troop count [n] and a binary64
    constant [c]. *)
Definition times (n : Z) (c : spec_float) : spec_float :=
  SFmul JS.prec JS.emax (JS.of_int n) c.

(** [Math.max (a, b)] on two numbers. *)
Definition Math_max (a b : spec_float) : spec_float :=
  if SFltb a b then b else a.

(** The draws of one call of each strategy: an index draw for every
    [Math.floor (Math.random () * n)], the outcome for every
    [Math.random () < c] that is tested once, and the number itself
    where it is compared with several bounds. *)
Record BuildingDraws : Set := mkBuildingDraws {
  bd_target : nat;
  bd_border : nat;
  bd_wallRoll : bool;
  bd_wall : nat;
  bd_rollHigh : spec_float;
  bd_rollMedium : spec_float;
  bd_lowWall : nat;
  bd_fort : nat
}.

Record DefensiveDraws : Set := mkDefensiveDraws {
  dd_fortRoll : bool;
  dd_wall : nat
}.

Record ExpansionDraws : Set := mkExpansionDraws {
  ed_barracksRoll : bool;
  ed_mineRoll : bool;
  ed_building : BuildingDraws
}.

Record BalancedDraws : Set := mkBalancedDraws {
  bl_roll : spec_float;
  bl_building : BuildingDraws;
  bl_defensive : DefensiveDraws;
  bl_expansion : ExpansionDraws;
  bl_buildingAgain : BuildingDraws;
  bl_expansionAgain : ExpansionDraws
}.

Record Draws : Set := mkDraws {
  dr_personality : nat;
  dr_defensive : DefensiveDraws;
  dr_expansion : ExpansionDraws;
  dr_building : BuildingDraws;
  dr_aggressive : ExpansionDraws;
  dr_balanced : BalancedDraws
}.

Definition selectPersonality (draw : nat) : option string :=
  pick draw ["aggressive"; "defensive"; "expansionist"; "builder"]%string.

(** [findAdjacentTerritories] and [findNearbyEmptyTerritories] of ai.ts
    are those of [NeuralAI] at the default range 2. *)
Definition findAdjacentTerritories (territories : list Territory)
    (territory : Territory) : list Territory :=
  Neural.findAdjacentTerritories territories territory 2.

Definition findNearbyEmptyTerritories (territories : list Territory)
    (territory : Territory) : list Territory :=
  Neural.findNearbyEmptyTerritories territories territory 2.

(** The counters [(borderTerritories, threatenedTerritories)] of
    [calculateThreatLevel] after its [forEach]. *)
Definition threatCounters (territories ownedTerritories : list Territory)
    (aiId : string) : Z * Z :=
  foldl
    (fun '(borderTerritories, threatenedTerritories) territory =>
       let neighbors := findAdjacentTerritories territories territory in
       let enemyNeighbors := List.filter (Neural.enemyOf aiId) neighbors in
       match enemyNeighbors with
       | [] => (borderTerritories, threatenedTerritories)
       | e :: rest =>
           let ourTroops := t_troops territory in
           let maxEnemyTroops :=
             foldl Z.max (t_troops e) (map t_troops rest) in
           if maxEnemyTroops >? ourTroops
           then (borderTerritories + 1, threatenedTerritories + 1)
           else (borderTerritories + 1, threatenedTerritories)
       end)
    (0, 0) ownedTerritories.

Definition calculateThreatLevel (territories ownedTerritories : list Territory)
    (aiId : string) : spec_float :=
  let '(borderTerritories, threatenedTerritories) :=
    threatCounters territories ownedTerritories aiId in
  if borderTerritories =? 0 then JS.of_int 0
  else SFdiv JS.prec JS.emax (JS.of_int threatenedTerritories)
         (JS.of_int borderTerritories).

(** [aiPlayer.gold && aiPlayer.gold >= cost]. *)
Definition goldAtLeast (aiPlayer : AIPlayer) (cost : Z) : bool :=
  match p_gold aiPlayer with
  | Some gold => negb (gold =? 0) && (gold >=? cost)
  | None => false
  end.

(** [(t) => !t.building && !t.wall]. *)
Definition noBuildingNoWall (t : Territory) : bool :=
  bool_decide (t_building t = None) && negb (t_wall t).

(** [(t) => t.building?.type === type]. *)
Definition hasBuilding (type : BuildingType) (t : Territory) : bool :=
  match t_building t with
  | Some b => bool_decide (b_type b = type)
  | None => false
  end.

(** The first decision that the body of a [for ... of] loop returns. *)
Fixpoint firstDecision (body : Territory -> option Decision)
    (candidates : list Territory) : option Decision :=
  match candidates with
  | [] => None
  | territory :: rest =>
      match body territory with
      | Some decision => Some decision
      | None => firstDecision body rest
      end
  end.

(** [defensiveStrategy]. The border territories are sorted in place
    before they are used, and sorting keeps the array empty or not. *)
Definition defensiveStrategy (territories ownedTerritories : list Territory)
    (aiPlayer : AIPlayer) (draws : DefensiveDraws) : option Decision :=
  let borderTerritories :=
    sortByKey t_troops
      (List.filter
         (fun territory =>
            existsb (Neural.enemyOf (p_id aiPlayer))
              (findAdjacentTerritories territories territory))
         ownedTerritories) in
  match borderTerritories with
  | [] => None
  | weakestBorder :: _ =>
      if goldAtLeast aiPlayer 100
         && bool_decide (t_building weakestBorder = None)
         && dd_fortRoll draws
      then Some (buildOf weakestBorder fort)
      else
        let wallNear borderTerritory :=
          match findNearbyEmptyTerritories territories borderTerritory with
          | [] => None
          | (_ :: _) as emptyNearbyTerritories =>
              Some (mkDecision build None
                      (pick (dd_wall draws) emptyNearbyTerritories)
                      (Some wall))
          end in
        match (if goldAtLeast aiPlayer 80
               then firstDecision wallNear borderTerritories else None) with
        | Some decision => Some decision
        | None => Some (defendOf weakestBorder)
        end
  end.

(** The rule of [buildingStrategy] for the building type and the target
    before the final preference for border forts; [None] is the
    [return null] of the last branch. The rolls are drawn only in the
    branches that test them. *)
Definition chooseBuilding (ownedTerritories emptyTerritories borderTerritories
      wallableTerritories : list Territory) (gold : Z) (draws : BuildingDraws)
    : option (BuildingType * option Territory) :=
  let count type :=
    Z.of_nat (length (List.filter (hasBuilding type) ownedTerritories)) in
  let owned := Z.of_nat (length ownedTerritories) in
  let border := Z.of_nat (length borderTerritories) in
  let targetTerritory := pick (bd_target draws) emptyTerritories in
  if SFltb (JS.of_int (count mine))
       (Math_max (JS.of_int 2) (times owned lit_0_15))
     && (gold >=? 150)
  then Some (mine, targetTerritory)
  else if SFltb (JS.of_int (count barracks)) (times owned lit_0_4)
          && (gold >=? 120)
  then Some (barracks, targetTerritory)
  else if SFltb (JS.of_int (count market)) (times owned lit_0_25)
          && (gold >=? 200)
  then Some (market, targetTerritory)
  else if SFltb (JS.of_int (count farm)) (times owned lit_0_3)
          && (gold >=? 150)
  then Some (farm, targetTerritory)
  else if SFltb (JS.of_int (count fort)) (times border lit_0_4)
          && (gold >=? 100)
  then
    let emptyBorderTerritories :=
      List.filter noBuildingNoWall borderTerritories in
    Some (fort,
          match emptyBorderTerritories with
          | [] => targetTerritory
          | _ :: _ => pick (bd_border draws) emptyBorderTerritories
          end)
  else if SFltb (JS.of_int (count tower)) (times owned lit_0_2)
          && (gold >=? 200)
  then Some (tower, targetTerritory)
  else if negb (bool_decide (wallableTerritories = []))
          && bd_wallRoll draws && (gold >=? 80)
  then Some (wall, pick (bd_wall draws) wallableTerritories)
  else if gold >=? 300 then
    let roll := bd_rollHigh draws in
    Some (if SFltb roll lit_0_4 then market
          else if SFltb roll JS.lit_0_7 then tower
          else if SFltb roll lit_0_85 then barracks
          else fort,
          targetTerritory)
  else if gold >=? 150 then
    let roll := bd_rollMedium draws in
    Some (if SFltb roll lit_0_35 then barracks
          else if SFltb roll lit_0_6 then mine
          else if SFltb roll JS.lit_0_8 then farm
          else fort,
          targetTerritory)
  else if gold >=? 120 then Some (barracks, targetTerritory)
  else if gold >=? 100 then Some (fort, targetTerritory)
  else if gold >=? 80 then
    Some (wall,
          match wallableTerritories with
          | [] => targetTerritory
          | _ :: _ => pick (bd_lowWall draws) wallableTerritories
          end)
  else None.

Definition buildingStrategy (territories ownedTerritories : list Territory)
    (aiPlayer : AIPlayer) (draws : BuildingDraws) : option Decision :=
  match p_gold aiPlayer with
  | None => None
  | Some gold =>
      if (gold =? 0) || (gold <? 80) then None
      else
        let emptyTerritories :=
          List.filter noBuildingNoWall ownedTerritories in
        match emptyTerritories with
        | [] => None
        | _ :: _ =>
            let borderTerritories :=
              List.filter
                (fun territory =>
                   existsb
                     (fun n => bool_decide (t_owner n = None)
                               || Neural.enemyOf (p_id aiPlayer) n)
                     (findAdjacentTerritories territories territory))
                ownedTerritories in
            let wallableTerritories :=
              flat_map (findNearbyEmptyTerritories territories)
                borderTerritories in
            '(buildingType, targetTerritory) ←
              chooseBuilding ownedTerritories emptyTerritories
                borderTerritories wallableTerritories gold draws;
            let emptyBorderTerritories :=
              List.filter noBuildingNoWall borderTerritories in
            let targetTerritory' :=
              if decide (buildingType = fort) then
                match emptyBorderTerritories with
                | [] => targetTerritory
                | _ :: _ => pick (bd_fort draws) emptyBorderTerritories
                end
              else targetTerritory in
            Some (mkDecision build None targetTerritory' (Some buildingType))
        end
  end.

Definition expansionStrategy (territories ownedTerritories : list Territory)
    (aiPlayer : AIPlayer) (draws : ExpansionDraws) : option Decision :=
  let attackCandidates :=
    List.filter (fun t => t_troops t >=? 5) ownedTerritories in
  match attackCandidates with
  | [] => None
  | _ :: _ =>
      let attackFrom territory :=
        let neighbors := findAdjacentTerritories territories territory in
        let targetableNeighbors :=
          List.filter
            (fun n => negb (t_wall n) && negb (ownedBy (p_id aiPlayer) n)
                      && (t_troops n <? t_troops territory))
            neighbors in
        match sortByKey t_troops targetableNeighbors with
        | target :: _ => Some (attackOf territory target)
        | [] => None
        end in
      match firstDecision attackFrom attackCandidates with
      | Some decision => Some decision
      | None =>
          let nonBuildingTerritories :=
            List.filter noBuildingNoWall ownedTerritories in
          match (if goldAtLeast aiPlayer 120 && ed_barracksRoll draws
                 then head nonBuildingTerritories else None) with
          | Some target => Some (buildOf target barracks)
          | None =>
              match (if goldAtLeast aiPlayer 150 && ed_mineRoll draws
                     then head nonBuildingTerritories else None) with
              | Some target => Some (buildOf target mine)
              | None =>
                  buildingStrategy territories ownedTerritories aiPlayer
                    (ed_building draws)
              end
          end
      end
  end.

(** [t.building?.type === "fort" ? t.troops * 2 : t.troops]. *)
Definition defenseOf (t : Territory) : Z :=
  if hasBuilding fort t then t_troops t * 2 else t_troops t.

Definition aggressiveStrategy (territories ownedTerritories : list Territory)
    (aiPlayer : AIPlayer) (draws : ExpansionDraws) : option Decision :=
  let attackCandidates :=
    List.filter (fun t => t_troops t >=? 8) ownedTerritories in
  match attackCandidates with
  | [] => None
  | _ :: _ =>
      let playerTerritories :=
        List.filter (fun t => ownedBy "player1" t && negb (t_wall t))
          territories in
      match playerTerritories with
      | [] => expansionStrategy territories ownedTerritories aiPlayer draws
      | _ :: _ =>
          let attackFrom territory :=
            let hasRangeBonus := if hasBuilding tower territory then 1 else 0 in
            let attackRange := 2 + hasRangeBonus in
            let targetsInRange :=
              List.filter
                (fun playerTerritory =>
                   withinDistance (t_x territory - t_x playerTerritory)
                     (t_y territory - t_y playerTerritory) attackRange)
                playerTerritories in
            match sortByKey defenseOf targetsInRange with
            | target :: _ =>
                if SFltb (times (defenseOf target) lit_1_2)
                     (JS.of_int (t_troops territory))
                then Some (attackOf territory target)
                else None
            | [] => None
            end in
          match firstDecision attackFrom attackCandidates with
          | Some decision => Some decision
          | None =>
              if goldAtLeast aiPlayer 200 then
                match List.filter noBuildingNoWall ownedTerritories with
                | target :: _ => Some (buildOf target tower)
                | [] => None
                end
              else None
          end
      end
  end.

(** [a || b] on two results that are a decision or [null]. *)
Definition orElse (a b : option Decision) : option Decision :=
  match a with
  | Some decision => Some decision
  | None => b
  end.

Definition balancedStrategy (territories ownedTerritories : list Territory)
    (aiPlayer : AIPlayer) (gameDay : Z) (threatLevel : spec_float)
    (draws : BalancedDraws) : option Decision :=
  let roll := bl_roll draws in
  orElse
    (if SFltb roll lit_0_45
     then buildingStrategy territories ownedTerritories aiPlayer
            (bl_building draws)
     else None)
    (orElse
       (if SFltb roll
             (SFadd JS.prec JS.emax lit_0_3
                (SFmul JS.prec JS.emax threatLevel lit_0_4))
        then defensiveStrategy territories ownedTerritories aiPlayer
               (bl_defensive draws)
        else None)
       (orElse
          (if SFltb roll lit_0_6 || (gameDay <? 10)
           then expansionStrategy territories ownedTerritories aiPlayer
                  (bl_expansion draws)
           else None)
          (orElse
             (buildingStrategy territories ownedTerritories aiPlayer
                (bl_buildingAgain draws))
             (expansionStrategy territories ownedTerritories aiPlayer
                (bl_expansionAgain draws))))).

(** [aiPlayer.personality = ...]. *)
Definition set_personality (personality : option string) (p : AIPlayer)
    : AIPlayer :=
  mkAIPlayer (p_id p) (p_name p) (p_color p) personality (p_gold p)
    (p_troops p) (p_territory p).

(** [makeAIDecisions]. The player object may get its personality
    assigned, so it is returned with the decision. *)
Definition makeAIDecisions (territories : list Territory) (aiPlayer : AIPlayer)
    (gameDay : Z) (draws : Draws) : option Decision * AIPlayer :=
  let ownedTerritories := List.filter (ownedBy (p_id aiPlayer)) territories in
  match ownedTerritories with
  | [] => (None, aiPlayer)
  | _ :: _ =>
      let aiPlayer' :=
        match p_personality aiPlayer with
        | None | Some EmptyString =>
            set_personality (selectPersonality (dr_personality draws)) aiPlayer
        | Some _ => aiPlayer
        end in
      let personality := p_personality aiPlayer' in
      let threatLevel :=
        calculateThreatLevel territories ownedTerritories (p_id aiPlayer') in
      (if SFltb JS.lit_0_7 threatLevel then
         defensiveStrategy territories ownedTerritories aiPlayer'
           (dr_defensive draws)
       else if (gameDay <? 5)
               || bool_decide (personality = Some "expansionist"%string) then
         expansionStrategy territories ownedTerritories aiPlayer'
           (dr_expansion draws)
       else if bool_decide (personality = Some "builder"%string)
               || (15 <? Z.of_nat (length ownedTerritories)) then
         buildingStrategy territories ownedTerritories aiPlayer'
           (dr_building draws)
       else if bool_decide (personality = Some "aggressive"%string) then
         aggressiveStrategy territories ownedTerritories aiPlayer'
           (dr_aggressive draws)
       else
         balancedStrategy territories ownedTerritories aiPlayer' gameDay
           threatLevel (dr_balanced draws),
       aiPlayer')
  end.

End Strategies.

(** ** The simulator's map: [GameSimulator.generateRandomMap] *)

Module MapGenerator.

(** The territory pushed for the tile [(x, y)]; the draws are those of
    [Math.floor (Math.random () * 5)] and [Math.floor (Math.random () * 20)]. *)
Definition newTerritory (x y : Z) (troopsDraw goldDraw : nat) : Territory :=
  mkTerritory x y "land" "#c2b280" None
    (Z.of_nat (troopsDraw mod 5) + 1) 100 false None false
    (Some (Z.of_nat (goldDraw mod 20))).

(** The body of the [forEach] that adds water and mountains. *)
Definition addTerrain (random : spec_float) (territory : Territory)
    : Territory :=
  if SFltb random JS.lit_0_1 then
    mkTerritory (t_x territory) (t_y territory) "water" "#4a8fde"
      (t_owner territory) 0 (t_troopCapacity territory)
      (t_isSelected territory) (t_building territory) (t_wall territory)
      (t_gold territory)
  else if SFltb random Strategies.lit_0_2 then
    mkTerritory (t_x territory) (t_y territory) "mountain" "#808080"
      (t_owner territory) (t_troops territory) 50
      (t_isSelected territory) (t_building territory) (t_wall territory)
      (t_gold territory)
  else territory.

(** [generateRandomMap (width, height)]. The tiles are pushed row by
    row; the draws of tile number [i] in that order are [troopsDraw i],
    [goldDraw i] and, in the second pass, [terrainRoll i]. *)
Definition generateRandomMap (width height : nat)
    (troopsDraw goldDraw : nat -> nat) (terrainRoll : nat -> spec_float)
    : list Territory :=
  let territories :=
    flat_map
      (fun y =>
         map (fun x =>
                newTerritory (Z.of_nat x) (Z.of_nat y)
                  (troopsDraw (y * width + x)%nat)
                  (goldDraw (y * width + x)%nat))
             (seq 0 width))
      (seq 0 height) in
  imap (fun i territory => addTerrain (terrainRoll i) territory) territories.

End MapGenerator.

(** ** Notions used in the statements about the proposer *)

(** A territory of player [id] with a neighbour in range that belongs to
    somebody else: the border territories of [defensiveStrategy]. *)
Definition threatenedBorder (ts : list Territory) (id : string)
    (t : Territory) : bool :=
  ownedBy id t
  && existsb (Neural.enemyOf id) (Strategies.findAdjacentTerritories ts t).

(** The cell that a wall build of player [p] writes over [t]. *)
Definition walled (p : AIPlayer) (t : Territory) : Territory :=
  set_troops 0 (set_owner (Some (ownerOf p)) (set_wall true t)).

(** What the strategies keep to when they propose an attack, a
    reinforcement or a build for the player [p] on the grid [ts]. *)
Definition soundAttack (ts : list Territory) (p : AIPlayer) (d : Decision)
    : Prop :=
  exists source target,
    d = attackOf source target
    /\ In source ts /\ In target ts
    /\ ownedBy (p_id p) source = true /\ 5 <= t_troops source
    /\ t_wall target = false
    /\ ((ownedBy (p_id p) target = false
         /\ t_troops target < t_troops source)
        \/ ownedBy "player1" target = true).

Definition soundDefend (ts : list Territory) (p : AIPlayer) (d : Decision)
    : Prop :=
  exists target,
    d = defendOf target
    /\ In target ts
    /\ threatenedBorder ts (p_id p) target = true
    /\ forall t, In t ts -> threatenedBorder ts (p_id p) t = true ->
                 t_troops target <= t_troops t.

Definition soundBuild (ts : list Territory) (p : AIPlayer) (d : Decision)
    : Prop :=
  exists target type gold,
    d = buildOf target type
    /\ In target ts
    /\ p_gold p = Some gold /\ buildingCosts type <= gold
    /\ if decide (type = wall)
       then t_wall target = false
            /\ (t_owner target = None
                \/ (ownedBy (p_id p) target = true
                    /\ t_building target = None))
       else ownedBy (p_id p) target = true /\ t_building target = None.

Definition soundDecision (ts : list Territory) (p : AIPlayer) (d : Decision)
    : Prop :=
  soundAttack ts p d \/ soundDefend ts p d \/ soundBuild ts p d.

(** Facts from the tests on the gold, as inequalities. *)
Ltac gold_facts :=
  repeat match goal with
         | H : _ && _ = true |- _ => apply andb_true_iff in H as [? ?]
         | H : (_ >=? _) = true |- _ => apply Z.geb_le in H
         end.

(** The next test of an [if ... else if ...] chain that returns. *)
Ltac next_test :=
  match goal with
  | |- (if ?b then _ else _) = _ -> _ => destruct b eqn:?
  end.

(** Draws for the examples: every index draw is 0, every tested roll
    fails except the ones named in [eagerDraws], every compared roll is
    0. *)
Definition zeroBuildingDraws : Strategies.BuildingDraws :=
  Strategies.mkBuildingDraws 0 0 false 0 (JS.of_int 0) (JS.of_int 0) 0 0.

Definition zeroDraws : Strategies.Draws :=
  let expansion := Strategies.mkExpansionDraws false false zeroBuildingDraws in
  Strategies.mkDraws 0 (Strategies.mkDefensiveDraws false 0) expansion
    zeroBuildingDraws expansion
    (Strategies.mkBalancedDraws (JS.of_int 0) zeroBuildingDraws
       (Strategies.mkDefensiveDraws false 0) expansion zeroBuildingDraws
       expansion).

(** As [zeroDraws], with the roll for a barracks of [expansionStrategy]
    succeeding. *)
Definition eagerDraws : Strategies.Draws :=
  let expansion := Strategies.mkExpansionDraws true false zeroBuildingDraws in
  Strategies.mkDraws 0 (Strategies.mkDefensiveDraws false 0) expansion
    zeroBuildingDraws expansion
    (Strategies.mkBalancedDraws (JS.of_int 0) zeroBuildingDraws
       (Strategies.mkDefensiveDraws false 0) expansion zeroBuildingDraws
       expansion).

(** A territory of another player with more troops than [ai1Cell], next
    to it. *)
Definition strongNeighbour : Territory :=
  cell 1 0 (Some (ownerOf neuralPlayer)) 20 None false.

(** [ai1] with 90 gold. *)
Definition poorAi1 : AIPlayer := set_gold (Some 90) ai1.

(** Going back through a run that returned: every bind, test and case
    distinction of the hypotheses is split, and every in-place update is
    replaced by what [lem] says about it. *)
Ltac trace_run_with lem :=
  repeat match goal with
         | H : None = Some _ |- _ => discriminate H
         | H : Some _ = Some _ |- _ => injection H as H
         | H : (_, _) = (_, _) |- _ => injection H as H
         | H : (?m ≫= _) = Some _ |- _ =>
             let E := fresh "E" in
             destruct m eqn:E; cbn [mbind option_bind] in H
         | H : (if ?b then _ else _) = Some _ |- _ => destruct b
         | H : match ?x with _ => _ end = Some _ |- _ => destruct x eqn:?
         | H : update _ _ _ = Some _ |- _ =>
             apply lem in H; [|intros ?; repeat case_match; reflexivity]
         end.

(** * Properties *)

(** ** Arrays: [findIndex] and in-place updates *)

Lemma findIndex_Some {A : Type} (pred : A -> bool) (arr : list A) (i : nat) :
  findIndex pred arr = Some i ->
  exists a, arr !! i = Some a /\ pred a = true.
Proof.
  revert i. induction arr as [|a rest IH]; intros i; simpl; [discriminate|].
  destruct (pred a) eqn:Hp.
  - intros [= <-]. eauto.
  - destruct (findIndex pred rest) as [j|]; simpl; [|discriminate].
    intros [= <-]. simpl. apply IH. reflexivity.
Qed.

Lemma findIndex_None {A : Type} (pred : A -> bool) (arr : list A) :
  findIndex pred arr = None -> forall a, In a arr -> pred a = false.
Proof.
  induction arr as [|a rest IH]; simpl; [tauto|].
  destruct (pred a) eqn:Hp; [discriminate|].
  destruct (findIndex pred rest); simpl; [discriminate|].
  intros _ b [<-|Hb]; [assumption|]. apply IH; [reflexivity|assumption].
Qed.

Lemma update_Some (arr : list Territory) (i : nat) f (t : Territory) :
  arr !! i = Some t -> update i f arr = Some (<[i := f t]> arr).
Proof. intros H. unfold update. rewrite H. reflexivity. Qed.

Lemma update_insert_same (arr : list Territory) (i : nat) f (x : Territory) :
  (i < length arr)%nat ->
  update i f (<[i := x]> arr) = Some (<[i := f x]> arr).
Proof.
  intros Hi. unfold update. rewrite list_lookup_insert_eq by assumption.
  simpl. rewrite list_insert_insert_eq. reflexivity.
Qed.

Lemma update_insert_other (arr : list Territory) (i j : nat) f (x t : Territory) :
  i <> j -> arr !! i = Some t ->
  update i f (<[j := x]> arr) = Some (<[i := f t]> (<[j := x]> arr)).
Proof.
  intros Hne Hi. unfold update.
  rewrite list_lookup_insert_ne by congruence. rewrite Hi. reflexivity.
Qed.

(** ** [processAIAction]: the attack rule of the rule-based agents *)

Lemma AI_resolveAttack_success ts ai ti p (s t : Territory) :
  ts !! ai = Some s -> ts !! ti = Some t -> ai <> ti ->
  AI.attackingTroops (t_troops s) > t_troops t * (1 + defenseBonusOf t) ->
  AI.resolveAttack ts ai ti p
  = Some (<[ai := set_troops (t_troops s - AI.attackingTroops (t_troops s)) s]>
            (<[ti := captured p (AI.attackingTroops (t_troops s)) t]> ts)).
Proof.
  intros Hs Ht Hne Hwin. unfold AI.resolveAttack. rewrite Hs, Ht. simpl.
  assert (Hlt : (ti < length ts)%nat) by (eapply lookup_lt_Some; eassumption).
  destruct (Z.gtb_spec (AI.attackingTroops (t_troops s))
              (t_troops t * (1 + defenseBonusOf t))) as [_|Hle]; [|lia].
  rewrite (update_Some _ _ _ _ Ht). simpl.
  rewrite update_insert_same by assumption. simpl.
  rewrite update_insert_same by assumption. simpl.
  rewrite (update_insert_other _ _ _ _ _ s) by assumption.
  reflexivity.
Qed.

Lemma AI_resolveAttack_failure ts ai ti p (s t : Territory) :
  ts !! ai = Some s -> ts !! ti = Some t -> ai <> ti ->
  AI.attackingTroops (t_troops s) <= t_troops t * (1 + defenseBonusOf t) ->
  AI.resolveAttack ts ai ti p
  = Some (<[ai := set_troops (t_troops s - AI.attackingTroops (t_troops s)) s]>
            (<[ti := set_troops
                       (t_troops t
                        - AI.attackingTroops (t_troops s) / (1 + defenseBonusOf t))
                       t]> ts)).
Proof.
  intros Hs Ht Hne Hlose. unfold AI.resolveAttack. rewrite Hs, Ht. simpl.
  destruct (Z.gtb_spec (AI.attackingTroops (t_troops s))
              (t_troops t * (1 + defenseBonusOf t))) as [Hgt|_]; [lia|].
  rewrite (update_Some _ _ _ _ Ht). simpl.
  rewrite (update_insert_other _ _ _ _ _ s) by assumption.
  reflexivity.
Qed.

Lemma captured_owner p force t :
  t_owner (captured p force t) = Some (ownerOf p).
Proof. unfold captured. destruct (_ && _); reflexivity. Qed.

Lemma captured_troops p force t :
  t_troops (captured p force t) = force - t_troops t.
Proof. unfold captured. destruct (_ && _); reflexivity. Qed.

Lemma captured_building p force t :
  t_wall t = false -> t_building (captured p force t) = None.
Proof.
  intros Hw. unfold captured. simpl. rewrite Hw.
  case_bool_decide as Hb; simpl; [reflexivity|].
  destruct (t_building t); [discriminate Hb|reflexivity].
Qed.

(** The attack rule of [processAIAction], for a source and a target that
    are different cells of the grid: the source always pays the full
    force; the target is captured when the force exceeds the effective
    defence, and otherwise loses the force divided by [1 + defenseBonus];
    no other cell changes and the player object is not touched. *)
Lemma processAIAction_attack_rule ts source target p ai ti (s t : Territory) :
  findIndex (sameCoords source) ts = Some ai ->
  findIndex (sameCoords target) ts = Some ti ->
  ts !! ai = Some s -> ts !! ti = Some t -> ai <> ti ->
  let force := AI.attackingTroops (t_troops s) in
  let effectiveDefense := t_troops t * (1 + defenseBonusOf t) in
  exists ts',
    AI.processAIAction ts (attackOf source target) p = Some (ts', p)
    /\ length ts' = length ts
    /\ (forall j, j <> ai -> j <> ti -> ts' !! j = ts !! j)
    /\ ts' !! ai = Some (set_troops (t_troops s - force) s)
    /\ ts' !! ti
       = Some (if force >? effectiveDefense then captured p force t
               else set_troops
                      (t_troops t - force / (1 + defenseBonusOf t)) t).
Proof.
  intros Hai Hti Hs Ht Hne force eff.
  assert (Hla : (ai < length ts)%nat) by (eapply lookup_lt_Some; eassumption).
  assert (Hlt : (ti < length ts)%nat) by (eapply lookup_lt_Some; eassumption).
  unfold AI.processAIAction, attackOf. simpl. rewrite Hai, Hti.
  destruct (Z.gtb_spec force eff) as [Hgt|Hle].
  - rewrite (AI_resolveAttack_success _ _ _ _ _ _ Hs Ht Hne) by (fold force eff; lia).
    simpl. eexists. split; [reflexivity|]. fold force.
    repeat split.
    + rewrite !length_insert. reflexivity.
    + intros j Hja Hjt. rewrite !list_lookup_insert_ne by congruence. reflexivity.
    + rewrite list_lookup_insert_eq by (rewrite length_insert; assumption).
      reflexivity.
    + rewrite list_lookup_insert_ne by assumption.
      rewrite list_lookup_insert_eq by assumption. reflexivity.
  - rewrite (AI_resolveAttack_failure _ _ _ _ _ _ Hs Ht Hne) by (fold force eff; lia).
    simpl. eexists. split; [reflexivity|]. fold force.
    repeat split.
    + rewrite !length_insert. reflexivity.
    + intros j Hja Hjt. rewrite !list_lookup_insert_ne by congruence. reflexivity.
    + rewrite list_lookup_insert_eq by (rewrite length_insert; assumption).
      reflexivity.
    + rewrite list_lookup_insert_ne by assumption.
      rewrite list_lookup_insert_eq by assumption. reflexivity.
Qed.

(** ** [executeAction]: the attack rule of the training simulator *)

(** The simulator's rule, for a source owned by the player with at least
    2 troops and a different target cell: the force is compared with the
    target's raw troop count, whatever building stands on the target, and
    nothing but owner and troops is written. *)
Lemma executeAction_attack_rule ts source target p si ti (s t : Territory) :
  findIndex (sameCoords source) ts = Some si ->
  findIndex (sameCoords target) ts = Some ti ->
  ts !! si = Some s -> ts !! ti = Some t -> si <> ti ->
  ownedBy (p_id p) s = true -> 2 <= t_troops s ->
  let force := Simulator.attackingTroops (t_troops s) in
  exists ts',
    Simulator.executeAction ts (attackOf source target) p = Some (ts', p)
    /\ (forall j, j <> si -> j <> ti -> ts' !! j = ts !! j)
    /\ ts' !! si = Some (set_troops (t_troops s - force) s)
    /\ ts' !! ti
       = Some (if force >? t_troops t
               then set_troops (force - t_troops t)
                      (set_owner (Some (ownerOf p)) t)
               else set_troops (t_troops t - force) t).
Proof.
  intros Hsi Hti Hs Ht Hne Hown Htroops force.
  assert (Hla : (si < length ts)%nat) by (eapply lookup_lt_Some; eassumption).
  assert (Hlt : (ti < length ts)%nat) by (eapply lookup_lt_Some; eassumption).
  unfold Simulator.executeAction, attackOf. simpl. rewrite Hsi, Hti.
  unfold Simulator.resolveAttack. rewrite Hs. simpl. rewrite Hown. simpl.
  destruct (Z.ltb_spec (t_troops s) 2) as [?|_]; [lia|].
  rewrite (update_Some _ _ _ _ Hs). simpl.
  rewrite list_lookup_insert_ne by assumption. rewrite Ht. simpl. fold force.
  destruct (force >? t_troops t).
  - rewrite (update_insert_other _ _ _ _ _ t) by congruence. simpl.
    rewrite update_insert_same by (rewrite length_insert; assumption). simpl.
    eexists. split; [reflexivity|]. repeat split.
    + intros j Hja Hjt. rewrite !list_lookup_insert_ne by congruence. reflexivity.
    + rewrite list_lookup_insert_ne by congruence.
      rewrite list_lookup_insert_eq by assumption. reflexivity.
    + rewrite list_lookup_insert_eq by (rewrite length_insert; assumption).
      reflexivity.
  - rewrite (update_insert_other _ _ _ _ _ t) by congruence. simpl.
    eexists. split; [reflexivity|]. repeat split.
    + intros j Hja Hjt. rewrite !list_lookup_insert_ne by congruence. reflexivity.
    + rewrite list_lookup_insert_ne by congruence.
      rewrite list_lookup_insert_eq by assumption. reflexivity.
    + rewrite list_lookup_insert_eq by (rewrite length_insert; assumption).
      reflexivity.
Qed.

(** ** No operation raises *)

Lemma update_ex (arr : list Territory) (i : nat) f :
  (i < length arr)%nat ->
  exists arr', update i f arr = Some arr' /\ length arr' = length arr.
Proof.
  intros Hi. destruct (lookup_lt_is_Some_2 arr i Hi) as [t Ht].
  rewrite (update_Some _ _ _ _ Ht). eexists. split; [reflexivity|].
  apply length_insert.
Qed.

Lemma AI_resolveAttack_returns ts ai ti p :
  (ai < length ts)%nat -> (ti < length ts)%nat ->
  exists ts', AI.resolveAttack ts ai ti p = Some ts' /\ length ts' = length ts.
Proof.
  intros Ha Ht.
  destruct (lookup_lt_is_Some_2 ts ai Ha) as [s Hs].
  destruct (lookup_lt_is_Some_2 ts ti Ht) as [t Htt].
  unfold AI.resolveAttack. rewrite Hs, Htt. simpl.
  destruct (_ >? _); repeat run_update_with update_ex; finish_run.
Qed.

Lemma AI_resolveBuild_returns ts i bt p :
  (i < length ts)%nat ->
  exists ts' p', AI.resolveBuild ts i bt p = Some (ts', p')
                 /\ length ts' = length ts.
Proof.
  intros Hi. destruct (lookup_lt_is_Some_2 ts i Hi) as [c Hc].
  unfold AI.resolveBuild.
  destruct (p_gold p) as [g|]; [|do 2 eexists; split; reflexivity].
  destruct (_ && _); [|do 2 eexists; split; reflexivity].
  rewrite Hc. simpl.
  destruct (decide (bt = wall)).
  - destruct (bool_decide _); repeat run_update_with update_ex;
      do 2 eexists; (split; [reflexivity | lia]).
  - destruct (ownedBy _ _); repeat run_update_with update_ex;
      do 2 eexists; (split; [reflexivity | lia]).
Qed.

(** [processAIAction] returns a grid of the same size on every input:
    none of its property reads can meet a missing array element. *)
Lemma processAIAction_returns ts d p :
  exists ts' p', AI.processAIAction ts d p = Some (ts', p')
                 /\ length ts' = length ts.
Proof.
  unfold AI.processAIAction.
  destruct (d_action d).
  - destruct (d_source d) as [src|], (d_target d) as [tgt|];
      try (do 2 eexists; split; reflexivity).
    destruct (findIndex (sameCoords src) ts) as [ai|] eqn:Ha;
      [|do 2 eexists; split; reflexivity].
    destruct (findIndex (sameCoords tgt) ts) as [ti|] eqn:Ht;
      [|do 2 eexists; split; reflexivity].
    apply findIndex_Some in Ha as (s & Hs & _).
    apply findIndex_Some in Ht as (t & Htt & _).
    apply lookup_lt_Some in Hs. apply lookup_lt_Some in Htt.
    destruct (AI_resolveAttack_returns ts ai ti p Hs Htt) as (ts' & -> & L).
    simpl. do 2 eexists. split; [reflexivity|assumption].
  - destruct (d_target d) as [tgt|]; [|do 2 eexists; split; reflexivity].
    destruct (findIndex (sameCoords tgt) ts) as [i|] eqn:Hi;
      [|do 2 eexists; split; reflexivity].
    apply findIndex_Some in Hi as (t & Htt & _). apply lookup_lt_Some in Htt.
    run_update_with update_ex. do 2 eexists. split; [reflexivity|lia].
  - destruct (d_target d) as [tgt|], (d_buildingType d) as [bt|];
      try (do 2 eexists; split; reflexivity).
    destruct (findIndex (sameCoords tgt) ts) as [i|] eqn:Hi;
      [|do 2 eexists; split; reflexivity].
    apply findIndex_Some in Hi as (t & Htt & _). apply lookup_lt_Some in Htt.
    apply AI_resolveBuild_returns. assumption.
Qed.

Lemma Simulator_resolveAttack_returns ts si ti p :
  (si < length ts)%nat -> (ti < length ts)%nat ->
  exists ts', Simulator.resolveAttack ts si ti p = Some ts'
              /\ length ts' = length ts.
Proof.
  intros Ha Ht.
  destruct (lookup_lt_is_Some_2 ts si Ha) as [s Hs].
  unfold Simulator.resolveAttack. rewrite Hs. simpl.
  destruct (_ || _); [eexists; split; reflexivity|].
  run_update_with update_ex.
  assert (Hti : (ti < length ts0)%nat) by lia.
  destruct (lookup_lt_is_Some_2 ts0 ti Hti) as [t Htt]. rewrite Htt. simpl.
  destruct (_ >? _); repeat run_update_with update_ex; finish_run.
Qed.

Lemma Simulator_resolveBuild_returns ts i bt p :
  (i < length ts)%nat ->
  exists ts' p', Simulator.resolveBuild ts i bt p = Some (ts', p')
                 /\ length ts' = length ts.
Proof.
  intros Hi. destruct (lookup_lt_is_Some_2 ts i Hi) as [c Hc].
  unfold Simulator.resolveBuild.
  destruct (_ <? _); [do 2 eexists; split; reflexivity|].
  rewrite Hc. simpl.
  destruct (decide (bt = wall)).
  - destruct (bool_decide _); repeat run_update_with update_ex;
      do 2 eexists; (split; [reflexivity | lia]).
  - destruct (ownedBy _ _); repeat run_update_with update_ex;
      do 2 eexists; (split; [reflexivity | lia]).
Qed.

(** So does [executeAction]. *)
Lemma executeAction_returns ts d p :
  exists ts' p', Simulator.executeAction ts d p = Some (ts', p')
                 /\ length ts' = length ts.
Proof.
  unfold Simulator.executeAction.
  destruct (d_action d).
  - destruct (d_source d) as [src|], (d_target d) as [tgt|];
      try (do 2 eexists; split; reflexivity).
    destruct (findIndex (sameCoords src) ts) as [si|] eqn:Ha;
      [|do 2 eexists; split; reflexivity].
    destruct (findIndex (sameCoords tgt) ts) as [ti|] eqn:Ht;
      [|do 2 eexists; split; reflexivity].
    apply findIndex_Some in Ha as (s & Hs & _).
    apply findIndex_Some in Ht as (t & Htt & _).
    apply lookup_lt_Some in Hs. apply lookup_lt_Some in Htt.
    destruct (Simulator_resolveAttack_returns ts si ti p Hs Htt) as (ts' & -> & L).
    simpl. do 2 eexists. split; [reflexivity|assumption].
  - destruct (d_target d) as [tgt|]; [|do 2 eexists; split; reflexivity].
    destruct (findIndex (sameCoords tgt) ts) as [i|] eqn:Hi;
      [|do 2 eexists; split; reflexivity].
    apply findIndex_Some in Hi as (t & Htt & _). rewrite Htt. simpl.
    apply lookup_lt_Some in Htt.
    destruct (ownedBy _ _); [|do 2 eexists; split; reflexivity].
    run_update_with update_ex. do 2 eexists. split; [reflexivity|lia].
  - destruct (d_target d) as [tgt|], (d_buildingType d) as [bt|];
      try (do 2 eexists; split; reflexivity).
    destruct (findIndex (sameCoords tgt) ts) as [i|] eqn:Hi;
      [|do 2 eexists; split; reflexivity].
    apply findIndex_Some in Hi as (t & Htt & _). apply lookup_lt_Some in Htt.
    apply Simulator_resolveBuild_returns. assumption.
Qed.

(** The click handler returns too, for a clicked index inside the grid
    (the handler obtains it from [findIndex] and stops on -1). *)
Lemma handleCanvasClick_returns ts ci name :
  (ci < length ts)%nat ->
  exists ts', Page.handleCanvasClick ts ci name = Some ts'
              /\ length ts' = length ts.
Proof.
  intros Hci. destruct (lookup_lt_is_Some_2 ts ci Hci) as [tgt Ht].
  unfold Page.handleCanvasClick.
  destruct (findIndex t_isSelected ts) as [si|] eqn:Hsel.
  - apply findIndex_Some in Hsel as (sel & Hs & _).
    assert (Hsi : (si < length ts)%nat) by (eapply lookup_lt_Some; eassumption).
    rewrite Hs, Ht. simpl.
    destruct (t_wall tgt); [run_update_with update_ex; finish_run|].
    destruct (withinDistance _ _ _); [|simpl; run_update_with update_ex; finish_run].
    destruct (ownedBy "player1" tgt).
    + unfold Page.moveBranch. rewrite Hs. simpl.
      destruct (_ >? 0); simpl; repeat run_update_with update_ex; finish_run.
    + unfold Page.attackBranch. rewrite Hs, Ht. simpl.
      destruct (_ >? 0); [|simpl; run_update_with update_ex; finish_run].
      destruct (_ >? _); simpl; repeat run_update_with update_ex; finish_run.
  - rewrite Ht. simpl.
    destruct (ownedBy "player1" tgt);
      [run_update_with update_ex; finish_run | eexists; split; reflexivity].
Qed.

(** ** Rejections that leave the grid unchanged *)

(** A coordinate that matches no territory: the action is a no-op. *)
Lemma processAIAction_missing_territory ts d p c :
  (d_action d = attack /\ (d_source d = Some c \/ d_target d = Some c)
   \/ d_action d <> attack /\ d_target d = Some c) ->
  findIndex (sameCoords c) ts = None ->
  AI.processAIAction ts d p = Some (ts, p).
Proof.
  intros Hd Hmiss. unfold AI.processAIAction.
  destruct Hd as [[-> [Hc|Hc]]|[Hna Hc]].
  - rewrite Hc, Hmiss. destruct (d_target d); reflexivity.
  - rewrite Hc, Hmiss. destruct (d_source d) as [src|]; [|reflexivity].
    destruct (findIndex (sameCoords src) ts); reflexivity.
  - rewrite Hc, Hmiss. destruct (d_action d); [congruence| |].
    + reflexivity.
    + destruct (d_buildingType d); reflexivity.
Qed.

Lemma executeAction_missing_territory ts d p c :
  (d_action d = attack /\ (d_source d = Some c \/ d_target d = Some c)
   \/ d_action d <> attack /\ d_target d = Some c) ->
  findIndex (sameCoords c) ts = None ->
  Simulator.executeAction ts d p = Some (ts, p).
Proof.
  intros Hd Hmiss. unfold Simulator.executeAction.
  destruct Hd as [[-> [Hc|Hc]]|[Hna Hc]].
  - rewrite Hc, Hmiss. destruct (d_target d); reflexivity.
  - rewrite Hc, Hmiss. destruct (d_source d) as [src|]; [|reflexivity].
    destruct (findIndex (sameCoords src) ts); reflexivity.
  - rewrite Hc, Hmiss. destruct (d_action d); [congruence| |].
    + reflexivity.
    + destruct (d_buildingType d); reflexivity.
Qed.

(** A build the player cannot pay for changes neither the grid nor the
    player's gold. *)
Lemma build_insufficient_gold ts target bt p :
  goldOr0 p < buildingCosts bt ->
  AI.processAIAction ts (buildOf target bt) p = Some (ts, p)
  /\ Simulator.executeAction ts (buildOf target bt) p = Some (ts, p).
Proof.
  intros Hgold.
  unfold AI.processAIAction, Simulator.executeAction, buildOf. simpl.
  destruct (findIndex (sameCoords target) ts) as [i|]; [|split; reflexivity].
  unfold AI.resolveBuild, Simulator.resolveBuild.
  unfold goldOr0 in *. split.
  - destruct (p_gold p) as [g|]; [|reflexivity]. simpl in Hgold.
    destruct (Z.geb_spec g (buildingCosts bt)) as [?|_]; [lia|].
    rewrite andb_false_r. reflexivity.
  - destruct (Z.ltb_spec (default 0 (p_gold p)) (buildingCosts bt)) as [_|?];
      [reflexivity|lia].
Qed.

(** C10. A build on an existing cell by a player who can pay for it
    always costs the player the full price, in both resolvers; when the
    placement check then fails (a wall on a cell that has an owner, or
    another building on a cell the player does not own) the grid comes
    back unchanged, and the gold is gone all the same. *)
Theorem build_pays_before_placement ts target bt p i (c : Territory) g :
  findIndex (sameCoords target) ts = Some i ->
  ts !! i = Some c ->
  p_gold p = Some g ->
  buildingCosts bt <= g ->
  let paid := set_gold (Some (g - buildingCosts bt)) p in
  let misplaced :=
    bt = wall /\ t_owner c <> None
    \/ bt <> wall /\ ownedBy (p_id p) c = false in
  (exists ts', AI.processAIAction ts (buildOf target bt) p = Some (ts', paid)
               /\ (misplaced -> ts' = ts))
  /\ (exists ts', Simulator.executeAction ts (buildOf target bt) p
                  = Some (ts', paid)
                  /\ (misplaced -> ts' = ts)).
Proof.
  intros Hi Hc Hg Hcost paid misplaced.
  assert (Hlt : (i < length ts)%nat) by (eapply lookup_lt_Some; eassumption).
  assert (Hpos : 0 < buildingCosts bt) by (destruct bt; simpl; lia).
  unfold AI.processAIAction, Simulator.executeAction, buildOf. simpl.
  rewrite Hi. unfold AI.resolveBuild, Simulator.resolveBuild, goldOr0.
  rewrite Hg. simpl.
  destruct (Z.eqb_spec g 0) as [?|_]; [lia|].
  destruct (Z.geb_spec g (buildingCosts bt)) as [_|?]; [|lia].
  destruct (Z.ltb_spec g (buildingCosts bt)) as [?|_]; [lia|].
  simpl. rewrite Hc. simpl. fold paid.
  destruct (decide (bt = wall)) as [Hw|Hw].
  - case_bool_decide as Ho.
    + split; repeat run_update_with update_ex; eexists; (split; [reflexivity|]);
        intros [[_ Hown]|[Hnw _]]; congruence.
    + split; eexists; (split; [reflexivity|]); reflexivity.
  - destruct (ownedBy (p_id p) c) eqn:Hown.
    + split; repeat run_update_with update_ex; eexists; (split; [reflexivity|]);
        intros [[Hbw _]|[_ Hno]]; congruence.
    + split; eexists; (split; [reflexivity|]); reflexivity.
Qed.

Lemma build_pays_before_placement_witness :
  let ts := [cell 0 0 (Some (ownerOf ai1)) 5 None false] in
  AI.processAIAction ts (buildOf (cell 0 0 None 0 None false) wall) neuralPlayer
  = Some (ts, set_gold (Some 420) neuralPlayer)
  /\ Simulator.executeAction ts (buildOf (cell 0 0 None 0 None false) fort)
       neuralPlayer
     = Some (ts, set_gold (Some 400) neuralPlayer).
Proof.
  intros ts. split.
  - destruct (build_pays_before_placement ts (cell 0 0 None 0 None false) wall
                neuralPlayer 0%nat (cell 0 0 (Some (ownerOf ai1)) 5 None false)
                500)
      as [(ts' & E & Hsame) _];
      [reflexivity | reflexivity | reflexivity | simpl; lia |].
    rewrite E. rewrite Hsame; [reflexivity|].
    left. split; [reflexivity | discriminate].
  - destruct (build_pays_before_placement ts (cell 0 0 None 0 None false) fort
                neuralPlayer 0%nat (cell 0 0 (Some (ownerOf ai1)) 5 None false)
                500)
      as [_ (ts' & E & Hsame)];
      [reflexivity | reflexivity | reflexivity | simpl; lia |].
    rewrite E. rewrite Hsame; [reflexivity|].
    right. split; [discriminate | reflexivity].
Defined.

(** ** The interactive client's second click *)

(** The attack rule of the client's second click, for any troop counts:
    the force is half the selected cell's troops, and with a positive
    force the outcome is that of [processAIAction], except that a
    captured cell always loses its building. *)
Lemma second_click_attack_rule ts si ci name (sel tgt : Territory) :
  findIndex t_isSelected ts = Some si ->
  ts !! si = Some sel -> ts !! ci = Some tgt -> si <> ci ->
  t_wall tgt = false ->
  ownedBy "player1" tgt = false ->
  withinDistance (t_x sel - t_x tgt) (t_y sel - t_y tgt)
    (2 + Page.hasRangeBonus sel) = true ->
  0 < t_troops sel / 2 ->
  let force := t_troops sel / 2 in
  let effectiveDefense := t_troops tgt * (1 + defenseBonusOf tgt) in
  exists ts',
    Page.handleCanvasClick ts ci name = Some ts'
    /\ (forall j, j <> si -> j <> ci -> ts' !! j = ts !! j)
    /\ ts' !! si
       = Some (set_isSelected false (set_troops (t_troops sel - force) sel))
    /\ ts' !! ci
       = Some (if force >? effectiveDefense
               then capturedByPlayer name force tgt
               else set_troops
                      (t_troops tgt - force / (1 + defenseBonusOf tgt)) tgt).
Proof.
  intros Hsel Hs Ht Hne Hwall Hown Hdist Hpos force eff.
  assert (Hls : (si < length ts)%nat) by (eapply lookup_lt_Some; eassumption).
  assert (Hlc : (ci < length ts)%nat) by (eapply lookup_lt_Some; eassumption).
  unfold Page.handleCanvasClick. rewrite Hsel, Hs, Ht. simpl.
  rewrite Hwall, Hdist, Hown. unfold Page.attackBranch. rewrite Hs, Ht. simpl.
  fold force. fold eff.
  destruct (Z.gtb_spec force 0) as [_|?]; [|lia].
  destruct (force >? eff).
  - repeat step_update_with update_Some.
    eexists. split; [reflexivity|].
    split; [intros j Hj1 Hj2; lookup_insert; reflexivity|].
    split; lookup_insert; reflexivity.
  - repeat step_update_with update_Some.
    eexists. split; [reflexivity|].
    split; [intros j Hj1 Hj2; lookup_insert; reflexivity|].
    split; lookup_insert; reflexivity.
Qed.

(** C2. In the client's second-click flow the force is half the selected
    cell's troops. From a selected cell with 10 troops (force 5) onto an
    in-range, unwalled cell with 3 troops that the player does not own:
    without a fort the attack succeeds, the target keeps 2 troops, passes
    to the player and loses its building; with a level-1 fort the
    effective defence is 6, the attack fails, the target keeps 1 troop and
    its owner. The selected cell is left with 5 troops either way, and no
    other cell changes. *)
Theorem second_click_attack ts si ci name (sel tgt : Territory) :
  findIndex t_isSelected ts = Some si ->
  ts !! si = Some sel -> ts !! ci = Some tgt -> si <> ci ->
  t_wall tgt = false ->
  ownedBy "player1" tgt = false ->
  withinDistance (t_x sel - t_x tgt) (t_y sel - t_y tgt)
    (2 + Page.hasRangeBonus sel) = true ->
  t_troops sel = 10 -> t_troops tgt = 3 ->
  exists ts' sel' tgt',
    Page.handleCanvasClick ts ci name = Some ts'
    /\ ts' !! si = Some sel' /\ ts' !! ci = Some tgt'
    /\ (forall j, j <> si -> j <> ci -> ts' !! j = ts !! j)
    /\ (defenseBonusOf tgt = 0 ->
        t_troops tgt' = 2 /\ t_owner tgt' = Some (Page.player1 name)
        /\ t_building tgt' = None /\ t_troops sel' = 5)
    /\ (t_building tgt = Some (mkBuilding fort 1) ->
        t_troops tgt * (1 + defenseBonusOf tgt) = 6
        /\ t_troops tgt' = 1 /\ t_owner tgt' = t_owner tgt
        /\ t_building tgt' = t_building tgt /\ t_troops sel' = 5).
Proof.
  intros Hsel Hs Ht Hne Hwall Hown Hdist Hst Htt.
  assert (Hls : (si < length ts)%nat) by (eapply lookup_lt_Some; eassumption).
  assert (Hlc : (ci < length ts)%nat) by (eapply lookup_lt_Some; eassumption).
  unfold Page.handleCanvasClick. rewrite Hsel, Hs, Ht. simpl.
  rewrite Hwall, Hdist, Hown. unfold Page.attackBranch. rewrite Hs, Ht. simpl.
  rewrite Hst, Htt. change (10 / 2) with 5. simpl (5 >? 0).
  cbv iota.
  destruct (5 >? 3 * (1 + defenseBonusOf tgt)) eqn:Hcmp.
  - repeat step_update_with update_Some.
    do 3 eexists. split; [reflexivity|].
    split; [lookup_insert; reflexivity|].
    split; [lookup_insert; reflexivity|].
    split; [intros j Hj1 Hj2; lookup_insert; reflexivity|].
    split.
    + intros _. simpl. rewrite Htt, Hst.
      case_bool_decide as Hb; simpl; repeat split; try reflexivity.
      destruct (t_building tgt); [discriminate Hb|reflexivity].
    + intros Hb. unfold defenseBonusOf in Hcmp. rewrite Hb in Hcmp.
      simpl in Hcmp. discriminate.
  - repeat step_update_with update_Some.
    do 3 eexists. split; [reflexivity|].
    split; [lookup_insert; reflexivity|].
    split; [lookup_insert; reflexivity|].
    split; [intros j Hj1 Hj2; lookup_insert; reflexivity|].
    split.
    + intros Hb. rewrite Hb in Hcmp. simpl in Hcmp. discriminate.
    + intros Hb. simpl. unfold defenseBonusOf. rewrite !Hb. simpl.
      rewrite Htt, Hst. repeat split; reflexivity.
Qed.

Lemma second_click_attack_witness :
  (exists ts' sel' tgt',
     Page.handleCanvasClick [selectedCell; neutralCell] 1 "Ann" = Some ts'
     /\ ts' !! 0%nat = Some sel' /\ ts' !! 1%nat = Some tgt'
     /\ t_troops tgt' = 2 /\ t_owner tgt' = Some (Page.player1 "Ann")
     /\ t_troops sel' = 5)
  /\ (exists ts' sel' tgt',
        Page.handleCanvasClick [selectedCell; fortifiedCell] 1 "Ann" = Some ts'
        /\ ts' !! 0%nat = Some sel' /\ ts' !! 1%nat = Some tgt'
        /\ t_troops tgt' = 1 /\ t_owner tgt' = Some (ownerOf ai1)
        /\ t_troops sel' = 5).
Proof.
  split.
  - destruct (second_click_attack [selectedCell; neutralCell] 0 1 "Ann"
                selectedCell neutralCell)
      as (ts' & sel' & tgt' & E & Hs & Ht & _ & Hplain & _);
      [reflexivity | reflexivity | reflexivity | lia | reflexivity
      | reflexivity | reflexivity | reflexivity | reflexivity |].
    destruct (Hplain eq_refl) as (H1 & H2 & _ & H4).
    exists ts', sel', tgt'. repeat split; assumption.
  - destruct (second_click_attack [selectedCell; fortifiedCell] 0 1 "Ann"
                selectedCell fortifiedCell)
      as (ts' & sel' & tgt' & E & Hs & Ht & _ & _ & Hfort);
      [reflexivity | reflexivity | reflexivity | lia | reflexivity
      | reflexivity | reflexivity | reflexivity | reflexivity |].
    destruct (Hfort eq_refl) as (_ & H1 & H2 & _ & H4).
    exists ts', sel', tgt'. repeat split; assumption.
Defined.

(** ** The simulator's attack branch against the attack rule *)

(** The binary64 products behind the three attack forces used below, and
    one that differs from the exact product: 90 * 0.7 is
    62.99999999999999 in binary64. *)
Example attack_forces :
  AI.attackingTroops 10 = 7 /\ Simulator.attackingTroops 10 = 8
  /\ AI.attackingTroops 90 = 62.
Proof. repeat split; vm_compute; reflexivity. Qed.

(** C1 (fails in the simulator). The neural player attacks, from a cell
    with 10 troops, a cell with 5 troops and a level-1 fort. The force is
    8 and the effective defence 5 * (1 + 1) = 10, so the attack rule makes
    the attack fail and the target lose floor (8 / 2) = 4 troops.
    [executeAction] compares the force with the raw 5 troops instead: the
    attack succeeds and the target changes hands with 3 troops.
    [processAIAction] follows the rule on the same grid (force 7, target
    left with 5 - floor (7 / 2) = 2 troops and its owner). *)
Theorem executeAction_attack_ignores_fort :
  Simulator.attackingTroops (t_troops neuralCell) = 8
  /\ t_troops fortCell * (1 + defenseBonusOf fortCell) = 10
  /\ Simulator.executeAction fortGrid (attackOf neuralCell fortCell) neuralPlayer
     = Some ([cell 0 0 (Some (ownerOf neuralPlayer)) 2 None false;
              cell 1 0 (Some (ownerOf neuralPlayer)) 3
                (Some (mkBuilding fort 1)) false],
             neuralPlayer)
  /\ AI.processAIAction fortGrid (attackOf neuralCell fortCell) neuralPlayer
     = Some ([cell 0 0 (Some (ownerOf neuralPlayer)) 3 None false;
              cell 1 0 (Some (ownerOf ai1)) 2
                (Some (mkBuilding fort 1)) false],
             neuralPlayer).
Proof. repeat split; vm_compute; reflexivity. Qed.

(** C5 (fails in the simulator). The neural player captures a cell with
    3 troops and a farm. [executeAction] writes owner and troops only:
    the farm is still there after the capture. [processAIAction] clears
    the building of the same cell. *)
Theorem executeAction_capture_keeps_building :
  Simulator.executeAction farmGrid (attackOf neuralCell farmCell) neuralPlayer
  = Some ([cell 0 0 (Some (ownerOf neuralPlayer)) 2 None false;
           cell 1 0 (Some (ownerOf neuralPlayer)) 5
             (Some (mkBuilding farm 1)) false],
          neuralPlayer)
  /\ AI.processAIAction farmGrid (attackOf neuralCell farmCell) neuralPlayer
     = Some ([cell 0 0 (Some (ownerOf neuralPlayer)) 3 None false;
              cell 1 0 (Some (ownerOf neuralPlayer)) 4 None false],
             neuralPlayer).
Proof. repeat split; vm_compute; reflexivity. Qed.

(** In general: a capture by [executeAction] never changes the building
    of the captured cell. *)
Lemma executeAction_capture_building ts source target p si ti (s t : Territory) :
  findIndex (sameCoords source) ts = Some si ->
  findIndex (sameCoords target) ts = Some ti ->
  ts !! si = Some s -> ts !! ti = Some t -> si <> ti ->
  ownedBy (p_id p) s = true -> 2 <= t_troops s ->
  Simulator.attackingTroops (t_troops s) > t_troops t ->
  exists ts' t',
    Simulator.executeAction ts (attackOf source target) p = Some (ts', p)
    /\ ts' !! ti = Some t'
    /\ t_owner t' = Some (ownerOf p)
    /\ t_building t' = t_building t.
Proof.
  intros Hsi Hti Hs Ht Hne Hown Htr Hwin.
  destruct (executeAction_attack_rule ts source target p si ti s t)
    as (ts' & E & _ & _ & Htgt); try assumption.
  destruct (Z.gtb_spec (Simulator.attackingTroops (t_troops s)) (t_troops t))
    as [_|?]; [|lia].
  do 2 eexists. split; [exact E|]. split; [exact Htgt|]. split; reflexivity.
Qed.

(** ** Illegal actions that the resolvers carry out *)

(** C3 as the specification states it does not hold of the resolvers
    taken alone. A fort built on a cell that already holds a farm
    replaces the farm, and an attack on a wall captures the wall:
    neither resolver looks at the target's building or wall flag before
    it acts. *)
Theorem resolvers_carry_out_illegal_actions :
  AI.processAIAction builtGrid (buildOf ai1FarmCell fort) ai1
  = Some ([cell 0 0 (Some (ownerOf ai1)) 5 (Some (mkBuilding fort 1)) false],
          set_gold (Some 400) ai1)
  /\ Simulator.executeAction builtGrid (buildOf ai1FarmCell fort) ai1
     = Some ([cell 0 0 (Some (ownerOf ai1)) 5 (Some (mkBuilding fort 1)) false],
             set_gold (Some 400) ai1)
  /\ AI.processAIAction enemyWallGrid (attackOf ai1Cell neuralWall) ai1
     = Some ([cell 0 0 (Some (ownerOf ai1)) 3 None false;
              cell 1 0 (Some (ownerOf ai1)) 7 None true],
             ai1)
  /\ Simulator.executeAction enemyWallGrid (attackOf ai1Cell neuralWall) ai1
     = Some ([cell 0 0 (Some (ownerOf ai1)) 2 None false;
              cell 1 0 (Some (ownerOf ai1)) 8 None true],
             ai1).
Proof. repeat split; vm_compute; reflexivity. Qed.

(** ** Walls *)

(** A wall built by [processAIAction] or [executeAction] on a cell
    without owner makes the cell a wall without troops, owned for display
    by the builder; the cell's building is not touched. *)
Lemma wall_build_cell ts target p i (c : Territory) g :
  findIndex (sameCoords target) ts = Some i ->
  ts !! i = Some c ->
  t_owner c = None ->
  p_gold p = Some g -> buildingCosts wall <= g ->
  let paid := set_gold (Some (g - buildingCosts wall)) p in
  let walled := set_troops 0 (set_owner (Some (ownerOf p)) (set_wall true c)) in
  AI.processAIAction ts (buildOf target wall) p = Some (<[i := walled]> ts, paid)
  /\ Simulator.executeAction ts (buildOf target wall) p
     = Some (<[i := walled]> ts, paid)
  /\ t_wall walled = true /\ t_troops walled = 0
  /\ t_building walled = t_building c.
Proof.
  intros Hi Hc Hown Hg Hcost paid walled.
  assert (Hlt : (i < length ts)%nat) by (eapply lookup_lt_Some; eassumption).
  unfold AI.processAIAction, Simulator.executeAction, buildOf. simpl.
  rewrite Hi. unfold AI.resolveBuild, Simulator.resolveBuild, goldOr0.
  rewrite Hg. simpl in *.
  destruct (Z.eqb_spec g 0) as [?|_]; [lia|].
  destruct (Z.geb_spec g 80) as [_|?]; [|lia].
  destruct (Z.ltb_spec g 80) as [?|_]; [lia|].
  simpl. rewrite Hc. simpl. rewrite Hown. simpl.
  repeat step_update_with update_Some. rewrite !list_insert_insert_eq.
  repeat split; reflexivity.
Qed.

(** C4 (fails in both resolvers). A wall is owned, for display, by the
    player who built it, so it counts among the player's territories:
    with an enemy in range, [getLegalActions] offers to defend it, and
    the defence puts 5 troops on the walled cell. The grid satisfies the
    wall invariant before the action and breaks it afterwards. *)
Theorem defend_puts_troops_on_wall :
  wallInvariant ownWallGrid
  /\ In (defendOf neuralWall) (Neural.getLegalActions ownWallGrid neuralPlayer)
  /\ (exists ts',
        Simulator.executeAction ownWallGrid (defendOf neuralWall) neuralPlayer
        = Some (ts', neuralPlayer)
        /\ ts' !! 1%nat = Some (cell 1 0 (Some (ownerOf neuralPlayer)) 5 None true)
        /\ ~ wallInvariant ts')
  /\ (exists ts',
        AI.processAIAction ownWallGrid (defendOf neuralWall) neuralPlayer
        = Some (ts', neuralPlayer)
        /\ ts' !! 1%nat = Some (cell 1 0 (Some (ownerOf neuralPlayer)) 5 None true)
        /\ ~ wallInvariant ts').
Proof.
  assert (Hbroken :
    ~ wallInvariant [neuralCell;
                     cell 1 0 (Some (ownerOf neuralPlayer)) 5 None true;
                     enemyCell]).
  { unfold wallInvariant. intros H.
    apply Forall_cons_1 in H as [_ H]. apply Forall_cons_1 in H as [H _].
    destruct (H eq_refl) as [_ H0]. discriminate H0. }
  split.
  { unfold wallInvariant, ownWallGrid.
    repeat constructor; simpl; intros; discriminate. }
  split.
  { vm_compute. do 2 right. left. reflexivity. }
  split; eexists; (split; [vm_compute; reflexivity|]);
    (split; [reflexivity | exact Hbroken]).
Qed.

(** ** Legal actions *)

Lemma build_actions_are_builds ts p a :
  In a (flat_map
          (fun target =>
             flat_map
               (fun '(buildingType, cost) =>
                  if goldOr0 p <? cost then []
                  else if decide (buildingType = wall) then []
                  else [mkDecision build None (Some target) (Some buildingType)])
               Neural.buildingCostEntries) ts) ->
  d_action a = build.
Proof.
  intros H. apply in_flat_map in H as (target & _ & H).
  apply in_flat_map in H as ([bt cost] & _ & H).
  destruct (goldOr0 p <? cost); [destruct H|].
  destruct (decide (bt = wall)); [destruct H|].
  destruct H as [<-|[]]. reflexivity.
Qed.

(** C6. Every attack that [getLegalActions] enumerates goes from a cell
    of the grid that the player owns and that holds at least 5 troops,
    and strictly more troops than the target, to a cell of the grid
    within range 2 that is not a wall and is not owned by the player. *)
Theorem legal_attacks_are_sound ts p a :
  In a (Neural.getLegalActions ts p) ->
  d_action a = attack ->
  exists s t,
    d_source a = Some s /\ d_target a = Some t
    /\ In s ts /\ In t ts
    /\ ownedBy (p_id p) s = true
    /\ 5 <= t_troops s
    /\ t_troops t < t_troops s
    /\ t_wall t = false
    /\ ownedBy (p_id p) t = false
    /\ In t (Neural.findAdjacentTerritories ts s 2).
Proof.
  unfold Neural.getLegalActions. intros Hin Hact.
  apply in_app_or in Hin as [Hin|Hin]; [|apply in_app_or in Hin as [Hin|Hin]].
  - unfold Neural.attackActions in Hin.
    apply in_flat_map in Hin as (s & Hs & Hin).
    apply filter_In in Hs as [Hs Hown].
    destruct (Z.ltb_spec (t_troops s) 5) as [?|Hfive]; [destruct Hin|].
    apply in_flat_map in Hin as (t & Ht & Hin).
    destruct (ownedBy (p_id p) t) eqn:Hto; [destruct Hin|].
    destruct (t_wall t) eqn:Hwall; [destruct Hin|].
    destruct (Z.gtb_spec (t_troops s) (t_troops t)) as [Hgt|?]; [|destruct Hin].
    destruct Hin as [<-|[]].
    exists s, t. simpl. repeat split; try assumption; try lia.
    unfold Neural.findAdjacentTerritories in Ht.
    apply filter_In in Ht as [Ht _]. assumption.
  - apply in_map_iff in Hin as (t & <- & _). discriminate Hact.
  - destruct (goldOr0 p >=? 80); [|destruct Hin].
    apply in_app_or in Hin as [Hin|Hin].
    + apply build_actions_are_builds in Hin. congruence.
    + destruct (goldOr0 p >=? buildingCosts wall); [|destruct Hin].
      apply in_map_iff in Hin as (t & <- & _). discriminate Hact.
Qed.

Lemma legal_attacks_are_sound_witness :
  exists s t,
    d_source (attackOf neuralCell enemyCell) = Some s
    /\ d_target (attackOf neuralCell enemyCell) = Some t
    /\ 5 <= t_troops s /\ t_troops t < t_troops s
    /\ t_wall t = false /\ ownedBy (p_id neuralPlayer) t = false.
Proof.
  destruct (legal_attacks_are_sound ownWallGrid neuralPlayer
              (attackOf neuralCell enemyCell))
    as (s & t & Hs & Ht & _ & _ & _ & H5 & Hlt & Hw & Ho & _).
  - vm_compute. left. reflexivity.
  - reflexivity.
  - exists s, t. repeat split; assumption.
Defined.

(** ** Replay memory *)

Lemma addExperience_within (m : list Neural.Experience) e :
  Z.of_nat (length m) < Neural.replayMemorySize ->
  Neural.addExperience m e = m ++ [e].
Proof.
  intros H. unfold Neural.addExperience. rewrite length_app. simpl.
  destruct (Z.gtb_spec (Z.of_nat (length m + 1)) Neural.replayMemorySize);
    [lia|reflexivity].
Qed.

Lemma addExperience_full (m : list Neural.Experience) e :
  Z.of_nat (length m) = Neural.replayMemorySize ->
  Neural.addExperience m e = tail m ++ [e].
Proof.
  intros H. unfold Neural.addExperience. rewrite length_app. simpl.
  destruct (Z.gtb_spec (Z.of_nat (length m + 1)) Neural.replayMemorySize);
    [|lia].
  destruct m as [|x m]; [discriminate H|reflexivity].
Qed.

Lemma addExperience_bounded (m : list Neural.Experience) e :
  Z.of_nat (length m) <= Neural.replayMemorySize ->
  Z.of_nat (length (Neural.addExperience m e)) <= Neural.replayMemorySize.
Proof.
  intros H.
  destruct (Z.eq_dec (Z.of_nat (length m)) Neural.replayMemorySize) as [Hfull|Hn].
  - rewrite addExperience_full by assumption.
    unfold Neural.replayMemorySize in *.
    destruct m as [|x m]; [simpl in Hfull; lia|].
    cbn [tail]. rewrite length_app. cbn [length] in *. lia.
  - rewrite addExperience_within by lia. rewrite length_app. simpl. lia.
Qed.

Lemma tail_drop {A : Type} (l : list A) (n : nat) :
  tail (drop n l) = drop (S n) l.
Proof.
  revert l. induction n as [|n IH]; intros [|x l]; simpl; try reflexivity.
  apply IH.
Qed.

(** The memory after a sequence of insertions into the empty memory holds
    the last [replayMemorySize] of them, in order of insertion. *)
Lemma memoryAfter_drop (l : list Neural.Experience) :
  memoryAfter l = drop (length l - Z.to_nat Neural.replayMemorySize) l.
Proof.
  unfold memoryAfter.
  induction l as [|e l IH] using rev_ind; [reflexivity|].
  rewrite foldl_snoc, IH. clear IH. rewrite length_app. simpl.
  set (cap := Z.to_nat Neural.replayMemorySize).
  assert (Hcap : Z.of_nat cap = Neural.replayMemorySize) by reflexivity.
  assert (Hpos : (0 < cap)%nat)
    by (apply Nat2Z.inj_lt; rewrite Hcap; reflexivity).
  destruct (le_lt_dec cap (length l)) as [Hge|Hlt].
  - rewrite addExperience_full
      by (rewrite length_drop; lia).
    replace (length l + 1 - cap)%nat with (S (length l - cap)) by lia.
    rewrite drop_app_le by lia.
    rewrite tail_drop. reflexivity.
  - rewrite addExperience_within by (rewrite length_drop; lia).
    replace (length l - cap)%nat with 0%nat by lia.
    replace (length l + 1 - cap)%nat with 0%nat by lia.
    reflexivity.
Qed.

(** C8. Starting from the empty memory, the replay memory never holds
    more than 10000 experiences; and when 10001 experiences have been
    inserted, the memory is exactly the 10000 later ones, so the first
    one inserted is gone: it is no member of the memory, the inserted
    experiences being pairwise different objects. *)
Theorem replay_memory_bounded_fifo :
  (forall inserted,
     Z.of_nat (length (memoryAfter inserted)) <= Neural.replayMemorySize)
  /\ (forall first rest,
        Z.of_nat (length (first :: rest)) = Neural.replayMemorySize + 1 ->
        memoryAfter (first :: rest) = rest
        /\ (NoDup (first :: rest) ->
            ~ In first (memoryAfter (first :: rest)))).
Proof.
  split.
  - intros l. unfold memoryAfter.
    induction l as [|e l IH] using rev_ind.
    + simpl. unfold Neural.replayMemorySize. lia.
    + rewrite foldl_snoc. apply addExperience_bounded. exact IH.
  - intros first rest Hlen.
    assert (Hmem : memoryAfter (first :: rest) = rest).
    { rewrite memoryAfter_drop. cbn [length] in *.
      replace (S (length rest) - Z.to_nat Neural.replayMemorySize)%nat
        with 1%nat by lia.
      reflexivity. }
    split; [exact Hmem|].
    intros Hnodup. rewrite Hmem. apply NoDup_cons_1_1 in Hnodup.
    rewrite <- list_elem_of_In. exact Hnodup.
Qed.

Lemma experienceNo_inj (n m : nat) : experienceNo n = experienceNo m -> n = m.
Proof.
  unfold experienceNo. intros [= H]. apply Nat2Z.inj. exact H.
Qed.

Lemma replay_memory_bounded_fifo_witness :
  memoryAfter (experienceNo 0 :: laterExperiences) = laterExperiences
  /\ ~ In (experienceNo 0) (memoryAfter (experienceNo 0 :: laterExperiences)).
Proof.
  destruct replay_memory_bounded_fifo as [_ Hfifo].
  destruct (Hfifo (experienceNo 0) laterExperiences) as [Hmem Hgone].
  - unfold laterExperiences. cbn [length].
    rewrite length_map, length_seq. reflexivity.
  - split; [exact Hmem|]. apply Hgone.
    change (experienceNo 0 :: laterExperiences)
      with (map experienceNo (seq 0 (S (Z.to_nat Neural.replayMemorySize)))).
    apply (@NoDup_fmap_2 _ _ experienceNo experienceNo_inj).
    apply NoDup_seq.
Defined.

(** ** Exploration rate *)

(** C7 (fails from the 460th update on). The rate is multiplied by 0.995
    while it is above [epsilonMin], and nothing brings it back to
    [epsilonMin]: after 460 completed batch updates it is the double
    0x1.984c3fc5ae5e0p-4 = 0.0996820918179746, below [epsilonMin] and
    below the closed form [max (0.1, 0.995^460)] of the specification,
    which is at least 0.1. No later update changes it. Up to 459
    updates the rate is above [epsilonMin]. *)
Theorem epsilon_undershoots_floor :
  Neural.epsilonAfter 460 = S754_finite false 7182851705071072 (-56)
  /\ SFltb (Neural.epsilonAfter 460) Neural.epsilonMin = true
  /\ (JS.to_Q (Neural.epsilonAfter 460) < 1 # 10)%Q
  /\ (1 # 10 <= specEpsilon 460)%Q
  /\ (forall n, (460 <= n)%nat ->
                Neural.epsilonAfter n = Neural.epsilonAfter 460)
  /\ (forall n, (n < 460)%nat ->
                SFltb Neural.epsilonMin (Neural.epsilonAfter n) = true).
Proof.
  assert (H460 : Neural.epsilonAfter 460
                 = S754_finite false 7182851705071072 (-56))
    by (vm_compute; reflexivity).
  split; [exact H460|].
  split; [rewrite H460; vm_compute; reflexivity|].
  split; [rewrite H460; vm_compute; reflexivity|].
  split; [unfold specEpsilon; apply Q.le_max_l|].
  split.
  - induction 1 as [|m Hle IH]; [reflexivity|].
    cbn [Neural.epsilonAfter]. rewrite IH, H460. vm_compute. reflexivity.
  - assert (Hall : forallb
                     (fun n => SFltb Neural.epsilonMin (Neural.epsilonAfter n))
                     (seq 0 460) = true) by (vm_compute; reflexivity).
    intros n Hn. rewrite forallb_forall in Hall. apply Hall.
    apply in_seq. lia.
Qed.

(** * Properties of the rest of the program *)

(** ** Feature vectors *)

Lemma territoryFeatures_length id t :
  length (NeuralAI.territoryFeatures id t) = 10%nat.
Proof. reflexivity. Qed.

Lemma flat_map_block {A B : Type} (f : A -> list B) (n : nat) (l : list A) :
  (forall a, length (f a) = n) ->
  length (flat_map f l) = (n * length l)%nat
  /\ forall i a rest, l !! i = Some a ->
       take n (drop (n * i) (flat_map f l ++ rest)) = f a.
Proof.
  intros Hn. induction l as [|x l [IHlen IHblk]]; simpl.
  - split; [lia|]. intros i a rest H. destruct i; discriminate H.
  - split; [rewrite length_app, Hn, IHlen; lia|].
    intros [|i] a rest H; simpl in H.
    + injection H as <-. rewrite Nat.mul_0_r, drop_0, <- app_assoc.
      rewrite take_app_length'; [reflexivity|symmetry; apply Hn].
    + rewrite <- app_assoc.
      replace (n * S i)%nat with (length (f x) + n * i)%nat
        by (rewrite Hn; lia).
      rewrite drop_app_add. apply IHblk. exact H.
Qed.

(** X1. The feature vector has 10 numbers per territory and 3 for the
    player, and the numbers of the territory at index [i] are the ten
    from position [10 * i] on. *)
Theorem extractFeatures_layout ts player :
  length (NeuralAI.extractFeatures ts player) = (10 * length ts + 3)%nat
  /\ forall i t, ts !! i = Some t ->
       take 10 (drop (10 * i) (NeuralAI.extractFeatures ts player))
       = NeuralAI.territoryFeatures (p_id player) t.
Proof.
  unfold NeuralAI.extractFeatures.
  destruct (flat_map_block (NeuralAI.territoryFeatures (p_id player)) 10 ts
              (territoryFeatures_length (p_id player))) as [Hlen Hblk].
  split.
  - rewrite length_app, Hlen. simpl. lia.
  - intros i t Hi. apply Hblk. exact Hi.
Qed.

Lemma extractFeatures_layout_witness :
  take 10 (drop 10 (NeuralAI.extractFeatures fortGrid neuralPlayer))
  = NeuralAI.territoryFeatures "neural" fortCell.
Proof.
  exact (proj2 (extractFeatures_layout fortGrid neuralPlayer) 1%nat fortCell
           eq_refl).
Defined.

(** ** Actions and their indices *)

Lemma sameCoords_iff c t : sameCoords c t = true <-> coords t = coords c.
Proof.
  unfold sameCoords, coords. rewrite andb_true_iff, !Z.eqb_eq.
  split; [intros [-> ->]; reflexivity | intros [= -> ->]; split; reflexivity].
Qed.

(** In a grid with distinct coordinates a territory of the grid is the
    one that a lookup by its coordinates finds. *)
Lemma firstAt_member ts t :
  distinctCoords ts -> In t ts -> firstAt ts t = Some t.
Proof.
  unfold distinctCoords, firstAt. induction ts as [|x ts IH]; simpl.
  - intros _ [].
  - intros Hnd Hin. apply NoDup_cons in Hnd as [Hx Hnd].
    destruct (sameCoords t x) eqn:Hsame.
    + simpl. destruct Hin as [->|Hin]; [reflexivity|].
      exfalso. apply Hx. apply sameCoords_iff in Hsame. rewrite Hsame.
      apply list_elem_of_In. apply in_map. exact Hin.
    + destruct Hin as [->|Hin].
      * assert (H : sameCoords t t = true) by (apply sameCoords_iff; reflexivity).
        congruence.
      * specialize (IH Hnd Hin).
        destruct (findIndex (sameCoords t) ts) as [i|]; simpl in *;
          [exact IH | discriminate IH].
Qed.

Lemma elementAt_findIndex ts c :
  NeuralAI.elementAt
    (Some (NeuralAI.indexOrMinus1 (findIndex (sameCoords c) ts))) ts
  = firstAt ts c.
Proof.
  unfold firstAt, NeuralAI.elementAt.
  destruct (findIndex (sameCoords c) ts) as [i|] eqn:Hi; simpl; [|reflexivity].
  apply findIndex_Some in Hi as (t & Ht & _).
  apply lookup_lt_Some in Ht as Hlt.
  destruct (Z.leb_spec 0 (Z.of_nat i)); [|lia].
  destruct (Z.ltb_spec (Z.of_nat i) (Z.of_nat (length ts))); [|lia].
  simpl. rewrite Nat2Z.id. reflexivity.
Qed.

(** Decoding the indices of an action gives back its kind and building
    type, and for source and target the territories that a lookup by
    coordinates finds. *)
Lemma indicesToAction_actionToIndices action ts :
  NeuralAI.indicesToAction (NeuralAI.actionToIndices action ts) ts
  = mkDecision (d_action action)
      (s ← d_source action; firstAt ts s)
      (t ← d_target action; firstAt ts t)
      (d_buildingType action).
Proof.
  unfold NeuralAI.indicesToAction, NeuralAI.actionToIndices.
  cbn [lookup list_lookup]. f_equal.
  - destruct (d_action action); reflexivity.
  - destruct (d_source action) as [s|]; [apply elementAt_findIndex|reflexivity].
  - destruct (d_target action) as [t|]; [apply elementAt_findIndex|reflexivity].
  - destruct (d_buildingType action) as [[]|]; reflexivity.
Qed.

(** X2. On a grid with distinct coordinates, an action whose source and
    target (when it has them) are territories of the grid is recovered
    from its indices. *)
Theorem indices_round_trip action ts :
  distinctCoords ts ->
  (forall s, d_source action = Some s -> In s ts) ->
  (forall t, d_target action = Some t -> In t ts) ->
  NeuralAI.indicesToAction (NeuralAI.actionToIndices action ts) ts = action.
Proof.
  intros Hnd Hs Ht. rewrite indicesToAction_actionToIndices.
  destruct action as [k s t b]. simpl in *. f_equal.
  - destruct s as [s|]; [|reflexivity]. simpl.
    apply firstAt_member; [exact Hnd | apply Hs; reflexivity].
  - destruct t as [t|]; [|reflexivity]. simpl.
    apply firstAt_member; [exact Hnd | apply Ht; reflexivity].
Qed.

Lemma indices_round_trip_witness :
  NeuralAI.indicesToAction
    (NeuralAI.actionToIndices (attackOf neuralCell fortCell) fortGrid) fortGrid
  = attackOf neuralCell fortCell.
Proof.
  apply indices_round_trip.
  - unfold distinctCoords. apply (bool_decide_unpack _). vm_compute. exact I.
  - intros s [= <-]. left. reflexivity.
  - intros t [= <-]. right. left. reflexivity.
Defined.

Lemma indexOrMinus1_bounds {A : Type} (pred : A -> bool) (l : list A) :
  -1 <= NeuralAI.indexOrMinus1 (findIndex pred l) < Z.of_nat (length l).
Proof.
  destruct (findIndex pred l) as [i|] eqn:Hi; simpl; [|lia].
  apply findIndex_Some in Hi as (a & Ha & _).
  apply lookup_lt_Some in Ha. lia.
Qed.

Lemma actionToIndices_bounds action ts :
  exists k s t b,
    NeuralAI.actionToIndices action ts = [k; s; t; b]
    /\ 0 <= k <= 2
    /\ -1 <= s < Z.of_nat (length ts)
    /\ -1 <= t < Z.of_nat (length ts).
Proof.
  unfold NeuralAI.actionToIndices. do 4 eexists. split; [reflexivity|].
  split; [destruct (d_action action); lia|].
  split.
  - destruct (d_source action); [apply indexOrMinus1_bounds|lia].
  - destruct (d_target action); [apply indexOrMinus1_bounds|lia].
Qed.

(** X3. The output slot [type * 100 + (source + 1) * 10 + (target + 1)]
    separates actions only on small grids. On a grid of at most 9
    territories two actions with the same slot have the same kind, source
    index and target index. On a row of ten territories, defending the
    first territory and attacking it from the last one share slot 101. *)
Theorem actionIndex_separates_on_small_grids :
  (forall a b ts,
     (length ts <= 9)%nat ->
     NeuralAI.actionIndex (NeuralAI.actionToIndices a ts)
     = NeuralAI.actionIndex (NeuralAI.actionToIndices b ts) ->
     take 3 (NeuralAI.actionToIndices a ts)
     = take 3 (NeuralAI.actionToIndices b ts))
  /\ NeuralAI.actionIndex
       (NeuralAI.actionToIndices (defendOf (cellNo 0)) rowOfTen)
     = Some 101
  /\ NeuralAI.actionIndex
       (NeuralAI.actionToIndices (attackOf (cellNo 9) (cellNo 0)) rowOfTen)
     = Some 101.
Proof.
  split; [|split; reflexivity].
  intros a b ts Hlen.
  destruct (actionToIndices_bounds a ts) as (k & s & t & x & -> & Hk & Hs & Ht).
  destruct (actionToIndices_bounds b ts)
    as (k' & s' & t' & x' & -> & Hk' & Hs' & Ht').
  unfold NeuralAI.actionIndex. simpl. intros [= H].
  assert (k = k' /\ s = s' /\ t = t') as (-> & -> & ->) by lia.
  reflexivity.
Qed.

(** ** Metrics and batches *)

Lemma addMetric_within (m : list NeuralAI.TrainingMetrics) x :
  (length m < 1000)%nat -> NeuralAI.addMetric m x = m ++ [x].
Proof.
  intros H. unfold NeuralAI.addMetric. rewrite length_app. simpl.
  destruct (Nat.ltb_spec 1000 (length m + 1)); [lia|reflexivity].
Qed.

Lemma addMetric_full (m : list NeuralAI.TrainingMetrics) x :
  length m = 1000%nat -> NeuralAI.addMetric m x = tail m ++ [x].
Proof.
  intros H. unfold NeuralAI.addMetric. rewrite length_app. simpl.
  destruct (Nat.ltb_spec 1000 (length m + 1)); [|lia].
  destruct m as [|y m]; [discriminate H|reflexivity].
Qed.

(** X4. The metrics history keeps the last 1000 metrics added, oldest
    first: after any sequence of [addMetric] calls it is the sequence
    without all but its last 1000 entries. *)
Theorem metricsAfter_keeps_last_1000 (inserted : list NeuralAI.TrainingMetrics) :
  metricsAfter inserted = drop (length inserted - 1000) inserted
  /\ (length (metricsAfter inserted) <= 1000)%nat.
Proof.
  assert (H : metricsAfter inserted = drop (length inserted - 1000) inserted).
  { unfold metricsAfter.
    induction inserted as [|x l IH] using rev_ind; [reflexivity|].
    rewrite foldl_snoc, IH. clear IH. rewrite length_app. simpl.
    destruct (le_lt_dec 1000 (length l)) as [Hge|Hlt].
    - rewrite addMetric_full by (rewrite length_drop; lia).
      replace (length l + 1 - 1000)%nat with (S (length l - 1000)) by lia.
      rewrite drop_app_le by lia. rewrite tail_drop. reflexivity.
    - rewrite addMetric_within by (rewrite length_drop; lia).
      replace (length l - 1000)%nat with 0%nat by lia.
      replace (length l + 1 - 1000)%nat with 0%nat by lia.
      reflexivity. }
  split; [exact H|]. rewrite H, length_drop. lia.
Qed.

Lemma pick_member {A : Type} (k : nat) (arr : list A) :
  arr <> [] -> exists a, pick k arr = Some a /\ In a arr.
Proof.
  intros Hne. unfold pick.
  assert (Hlen : (0 < length arr)%nat) by (destruct arr; [congruence|simpl; lia]).
  destruct (lookup_lt_is_Some_2 arr (k mod length arr)) as [a Ha].
  { apply Nat.mod_upper_bound. lia. }
  exists a. split; [exact Ha|].
  apply list_elem_of_In. eapply list_elem_of_lookup_2. exact Ha.
Qed.

Lemma pick_empty {A : Type} (k : nat) : pick k (@nil A) = None.
Proof. reflexivity. Qed.

(** X5. A sampled batch has 32 entries, and from a memory that is not
    empty each of them is an experience of the memory. *)
Theorem sampleBatch_members memory draws :
  memory <> [] ->
  length (NeuralAI.sampleBatch memory draws) = 32%nat
  /\ forall entry, In entry (NeuralAI.sampleBatch memory draws) ->
       exists e, entry = Some e /\ In e memory.
Proof.
  intros Hne. unfold NeuralAI.sampleBatch. split.
  - rewrite length_map, length_seq. reflexivity.
  - intros entry Hin. apply in_map_iff in Hin as (i & <- & _).
    destruct (pick_member (draws i) memory Hne) as (e & He & Hin).
    exists e. split; assumption.
Qed.

Lemma sampleBatch_members_witness :
  length (NeuralAI.sampleBatch [experienceNo 1; experienceNo 2] (fun i => i))
  = 32%nat.
Proof.
  apply (sampleBatch_members [experienceNo 1; experienceNo 2] (fun i => i)).
  discriminate.
Defined.

(** ** Choosing an action *)

Lemma scoreLe_total a b :
  NeuralAI.scoreLe a b = false -> NeuralAI.scoreLe b a = true.
Proof.
  destruct a as [x|], b as [y|]; simpl; try congruence.
  intros H. apply Qle_bool_iff. apply Qlt_le_weak. apply Qnot_le_lt.
  intros Hle. apply Qle_bool_iff in Hle. congruence.
Qed.

Lemma scoreLe_trans a b c :
  NeuralAI.scoreLe a b = true -> NeuralAI.scoreLe b c = true ->
  NeuralAI.scoreLe a c = true.
Proof.
  destruct a as [x|], b as [y|], c as [z|]; simpl; try congruence.
  rewrite !Qle_bool_iff. apply Qle_trans.
Qed.

Lemma head_insertByScore {A : Type} (score : A -> NeuralAI.Score) x (l : list A) :
  head (NeuralAI.insertByScore score x l)
  = match head l with
    | None => Some x
    | Some y => if NeuralAI.scoreLe (score y) (score x) then Some x else Some y
    end.
Proof.
  destruct l as [|y l]; simpl; [reflexivity|].
  destruct (NeuralAI.scoreLe (score y) (score x)); reflexivity.
Qed.

(** The first element of the sorted array is the first of the elements
    with the highest score. *)
Lemma head_sortByScoreDesc {A : Type} (score : A -> NeuralAI.Score)
    (l : list A) :
  l <> [] ->
  exists pre a post,
    l = pre ++ a :: post
    /\ head (NeuralAI.sortByScoreDesc score l) = Some a
    /\ (forall b, In b pre -> NeuralAI.scoreLe (score a) (score b) = false)
    /\ (forall b, In b post -> NeuralAI.scoreLe (score b) (score a) = true).
Proof.
  induction l as [|x l IH]; [congruence|]. intros _.
  unfold NeuralAI.sortByScoreDesc in *. cbn [foldr].
  rewrite head_insertByScore.
  destruct l as [|y l].
  - exists [], x, []. simpl. repeat split; intros b [].
  - destruct (IH ltac:(discriminate))
      as (pre & a & post & Hl & Hhead & Hpre & Hpost).
    rewrite Hhead.
    destruct (NeuralAI.scoreLe (score a) (score x)) eqn:Hax.
    + exists [], x, (y :: l). split; [reflexivity|]. split; [reflexivity|].
      split; [intros b []|].
      intros b Hb. rewrite Hl in Hb.
      apply in_app_or in Hb as [Hb|[<-|Hb]].
      * eapply scoreLe_trans; [|exact Hax].
        apply scoreLe_total. apply Hpre. exact Hb.
      * exact Hax.
      * eapply scoreLe_trans; [|exact Hax]. apply Hpost. exact Hb.
    + exists (x :: pre), a, post. rewrite Hl.
      split; [reflexivity|]. split; [reflexivity|]. split; [|exact Hpost].
      intros b [<-|Hb]; [exact Hax|apply Hpre; exact Hb].
Qed.

(** X6. With at least one legal action, [chooseAction] returns one of
    the legal actions. When it does not explore and a model is loaded,
    the action returned is the first one, in the order of enumeration,
    among the legal actions with the highest score. *)
Theorem chooseAction_picks_best explore draw qValues ts legalActions :
  legalActions <> [] ->
  exists a,
    NeuralAI.chooseAction explore draw qValues ts legalActions = Some a
    /\ In a legalActions
    /\ forall q, explore = false -> qValues = Some q ->
         exists earlier later,
           legalActions = earlier ++ a :: later
           /\ (forall b, In b earlier ->
                 NeuralAI.scoreLe (NeuralAI.actionScore q ts a)
                   (NeuralAI.actionScore q ts b) = false)
           /\ (forall b, In b later ->
                 NeuralAI.scoreLe (NeuralAI.actionScore q ts b)
                   (NeuralAI.actionScore q ts a) = true).
Proof.
  intros Hne. unfold NeuralAI.chooseAction.
  destruct explore; [|destruct qValues as [q|]].
  - destruct (pick_member draw legalActions Hne) as (a & Ha & Hin).
    exists a. repeat split; try assumption. intros q H. discriminate H.
  - destruct (head_sortByScoreDesc (NeuralAI.actionScore q ts) legalActions Hne)
      as (pre & a & post & Hl & Hhead & Hpre & Hpost).
    exists a. split; [exact Hhead|]. split.
    + rewrite Hl. apply in_or_app. right. left. reflexivity.
    + intros q' _ [= <-]. exists pre, post. repeat split; assumption.
  - destruct (pick_member draw legalActions Hne) as (a & Ha & Hin).
    exists a. repeat split; try assumption. intros q _ H. discriminate H.
Qed.

Lemma chooseAction_picks_best_witness :
  exists a,
    NeuralAI.chooseAction false 0 (Some [])
      ownWallGrid (Neural.getLegalActions ownWallGrid neuralPlayer) = Some a
    /\ In a (Neural.getLegalActions ownWallGrid neuralPlayer).
Proof.
  destruct (chooseAction_picks_best false 0 (Some []) ownWallGrid
              (Neural.getLegalActions ownWallGrid neuralPlayer))
    as (a & Ha & Hin & _).
  - vm_compute. discriminate.
  - exists a. split; assumption.
Defined.

(** ** Territory counts, the winner and the end of the game *)

Lemma ownedBy_ownerId id t : ownedBy id t = true <-> ownerId t = Some id.
Proof.
  unfold ownedBy, ownerId. destruct (t_owner t) as [o|]; simpl.
  - rewrite bool_decide_eq_true. split; [intros ->; reflexivity|congruence].
  - split; discriminate.
Qed.

Lemma ownedCount_snoc id ts t :
  ownedCount id (ts ++ [t])
  = ownedCount id ts + (if ownedBy id t then 1 else 0).
Proof.
  unfold ownedCount. rewrite List.filter_app, length_app. simpl.
  destruct (ownedBy id t); simpl; lia.
Qed.

Lemma ownedCount_nonneg id ts : 0 <= ownedCount id ts.
Proof. unfold ownedCount. lia. Qed.

Lemma ownedCount_pos id ts :
  0 < ownedCount id ts <-> exists t, In t ts /\ ownerId t = Some id.
Proof.
  unfold ownedCount. split.
  - intros H. destruct (List.filter (ownedBy id) ts) as [|t l] eqn:Hf;
      [simpl in H; lia|].
    assert (Hin : In t (List.filter (ownedBy id) ts)) by (rewrite Hf; left; reflexivity).
    apply filter_In in Hin as [Hin Ho]. exists t. split; [exact Hin|].
    apply ownedBy_ownerId. exact Ho.
  - intros (t & Hin & Ho).
    assert (Hf : In t (List.filter (ownedBy id) ts))
      by (apply filter_In; split; [exact Hin|apply ownedBy_ownerId; exact Ho]).
    destruct (List.filter (ownedBy id) ts); [destruct Hf|simpl; lia].
Qed.

Lemma bump_keys id counts k :
  In k (map fst (Simulator.bump id counts)) <-> k = id \/ In k (map fst counts).
Proof.
  induction counts as [|[k' n'] counts IH]; simpl.
  - intuition.
  - destruct (decide (k' = id)) as [->|Hne]; simpl; [intuition|].
    rewrite IH. intuition.
Qed.

Lemma bump_NoDup id counts :
  NoDup (map fst counts) -> NoDup (map fst (Simulator.bump id counts)).
Proof.
  induction counts as [|[k n] counts IH]; simpl; intros Hnd.
  - repeat constructor. intros H. inversion H.
  - apply NoDup_cons in Hnd as [Hk Hnd].
    destruct (decide (k = id)) as [->|Hne]; simpl.
    + apply NoDup_cons. split; assumption.
    + apply NoDup_cons. split; [|apply IH; exact Hnd].
      rewrite list_elem_of_In, bump_keys. rewrite list_elem_of_In in Hk.
      intros [->|H]; [congruence|contradiction].
Qed.

Lemma bump_In id counts k n :
  NoDup (map fst counts) ->
  In (k, n) (Simulator.bump id counts)
  <-> (k <> id /\ In (k, n) counts)
      \/ (k = id /\ ((exists m, In (id, m) counts /\ n = m + 1)
                     \/ (~ In id (map fst counts) /\ n = 1))).
Proof.
  induction counts as [|[k' n'] counts IH]; simpl; intros Hnd.
  - split.
    + intros [[= <- <-]|[]]. right. split; [reflexivity|]. right. tauto.
    + intros [[_ []]|[-> [(m & [] & _)|[_ ->]]]]. left. reflexivity.
  - apply NoDup_cons in Hnd as [Hk Hnd]. rewrite list_elem_of_In in Hk.
    destruct (decide (k' = id)) as [->|Hne]; simpl.
    + split.
      * intros [[= <- <-]|Hin].
        -- right. split; [reflexivity|]. left. exists n'. split; [left|]; reflexivity.
        -- destruct (decide (k = id)) as [->|Hkn].
           ++ exfalso. apply Hk. apply (in_map fst) in Hin. exact Hin.
           ++ left. split; [exact Hkn|right; exact Hin].
      * intros [[Hkn [[= -> ->]|Hin]]|[-> [(m & [[= ->]|Hin] & ->)|[Hno _]]]].
        -- congruence.
        -- right. exact Hin.
        -- left. reflexivity.
        -- exfalso. apply Hk. apply (in_map fst) in Hin. exact Hin.
        -- exfalso. apply Hno. left. reflexivity.
    + rewrite (IH Hnd). split.
      * intros [[= <- <-]|[[Hkn Hin]|[-> H]]].
        -- left. split; [exact Hne|left; reflexivity].
        -- left. split; [exact Hkn|right; exact Hin].
        -- right. split; [reflexivity|].
           destruct H as [(m & Hin & ->)|[Hno ->]].
           ++ left. exists m. split; [right; exact Hin|reflexivity].
           ++ right. split; [|reflexivity]. intros [H|H]; [congruence|contradiction].
      * intros [[Hkn [[= -> ->]|Hin]]|[-> H]].
        -- left. reflexivity.
        -- right. left. split; assumption.
        -- right. right. split; [reflexivity|].
           destruct H as [(m & [[= -> ->]|Hin] & ->)|[Hno ->]].
           ++ congruence.
           ++ left. exists m. split; [exact Hin|reflexivity].
           ++ right. split; [|reflexivity]. intros H. apply Hno. right. exact H.
Qed.

Lemma territoryCounts_snoc ts t :
  Simulator.territoryCounts (ts ++ [t])
  = match t_owner t with
    | Some o => Simulator.bump (o_id o) (Simulator.territoryCounts ts)
    | None => Simulator.territoryCounts ts
    end.
Proof. unfold Simulator.territoryCounts. rewrite foldl_snoc. reflexivity. Qed.

(** [territoryCounts] has one entry per owner id, with the number of
    territories of that owner. *)
Lemma territoryCounts_spec ts :
  NoDup (map fst (Simulator.territoryCounts ts))
  /\ forall id n,
       In (id, n) (Simulator.territoryCounts ts)
       <-> n = ownedCount id ts /\ 0 < n.
Proof.
  induction ts as [|t ts [IHnd IH]] using rev_ind.
  - split; [constructor|]. intros id n. simpl. unfold ownedCount. simpl.
    split; [intros []|lia].
  - rewrite territoryCounts_snoc.
    destruct (t_owner t) as [o|] eqn:Ho.
    + split; [apply bump_NoDup; exact IHnd|].
      intros id n. rewrite (bump_In _ _ _ _ IHnd), ownedCount_snoc.
      assert (Hown : forall k, ownedBy k t = true <-> k = o_id o).
      { intros k. unfold ownedBy. rewrite Ho, bool_decide_eq_true.
        split; congruence. }
      assert (Hkeys : In (o_id o) (map fst (Simulator.territoryCounts ts))
                      <-> 0 < ownedCount (o_id o) ts).
      { split.
        - intros H. apply in_map_iff in H as ([k m] & Hk & Hin).
          simpl in Hk. subst k. apply IH in Hin. lia.
        - intros H. apply in_map_iff. exists (o_id o, ownedCount (o_id o) ts).
          split; [reflexivity|]. apply IH. split; [reflexivity|exact H]. }
      pose proof (ownedCount_nonneg (o_id o) ts) as Hnn.
      destruct (ownedBy id t) eqn:Hid.
      * apply Hown in Hid. subst id. split.
        -- intros [[Hne _]|[_ [(m & Hin & ->)|[Hno ->]]]]; [congruence| |].
           ++ apply IH in Hin. lia.
           ++ rewrite Hkeys in Hno. lia.
        -- intros [-> Hpos]. right. split; [reflexivity|].
           destruct (Z.eq_dec (ownedCount (o_id o) ts) 0) as [Hz|Hnz].
           ++ right. rewrite Hkeys. split; lia.
           ++ left. exists (ownedCount (o_id o) ts). split; [|lia].
              apply IH. split; [reflexivity|lia].
      * assert (Hne : id <> o_id o).
        { intros ->. assert (H : ownedBy (o_id o) t = true) by (apply Hown; reflexivity).
          congruence. }
        rewrite Z.add_0_r. rewrite <- IH. split.
        -- intros [[_ Hin]|[-> _]]; [exact Hin|congruence].
        -- intros Hin. left. split; assumption.
    + split; [exact IHnd|]. intros id n. rewrite ownedCount_snoc.
      assert (Hid : ownedBy id t = false) by (unfold ownedBy; rewrite Ho; reflexivity).
      rewrite Hid, Z.add_0_r. apply IH.
Qed.

Lemma winner_fold (entries : list (string * Z)) (mx : Z) (win : option string) :
  let r := foldl (fun '(maxTerritories, winner) '(playerId, count) =>
                    if count >? maxTerritories then (count, Some playerId)
                    else (maxTerritories, winner))
                 (mx, win) entries in
  mx <= fst r
  /\ (forall k n, In (k, n) entries -> n <= fst r)
  /\ (r = (mx, win)
      \/ exists w, snd r = Some w /\ In (w, fst r) entries /\ mx < fst r).
Proof.
  revert mx win. induction entries as [|[k n] entries IH]; intros mx win; simpl.
  - split; [lia|]. split; [intros ? ? []|]. left. reflexivity.
  - destruct (Z.gtb_spec n mx) as [Hgt|Hle].
    + destruct (IH n (Some k)) as (H1 & H2 & H3). split; [lia|]. split.
      * intros k' n' [[= <- <-]|Hin]; [exact H1|eapply H2; exact Hin].
      * right. destruct H3 as [->|(w & Hw & Hin & Hlt)].
        -- exists k. simpl. repeat split; [left; reflexivity|lia].
        -- exists w. repeat split; [exact Hw|right; exact Hin|lia].
    + destruct (IH mx win) as (H1 & H2 & H3). split; [exact H1|]. split.
      * intros k' n' [[= <- <-]|Hin]; [lia|eapply H2; exact Hin].
      * destruct H3 as [->|(w & Hw & Hin & Hlt)]; [left; reflexivity|].
        right. exists w. repeat split; [exact Hw|right; exact Hin|exact Hlt].
Qed.

(** X7. [determineWinner] returns no winner exactly when no territory
    has an owner; a winner owns at least one territory and at least as
    many as any other owner. *)
Theorem determineWinner_most_territories ts :
  (Simulator.determineWinner ts = None
   <-> forall t, In t ts -> t_owner t = None)
  /\ forall w, Simulator.determineWinner ts = Some w ->
       0 < ownedCount w ts
       /\ forall id, ownedCount id ts <= ownedCount w ts.
Proof.
  destruct (territoryCounts_spec ts) as [_ Hspec].
  unfold Simulator.determineWinner.
  pose proof (winner_fold (Simulator.territoryCounts ts) 0 None) as Hfold.
  cbv zeta in Hfold.
  destruct (foldl _ (0, None) (Simulator.territoryCounts ts)) as [mx win] eqn:Hr.
  simpl in *. destruct Hfold as (Hmx & Hall & Hcase).
  split.
  - split.
    + intros ->. destruct Hcase as [[= ->]|(w & Hw & _)]; [|discriminate Hw].
      intros t Hin. destruct (t_owner t) as [o|] eqn:Ho; [|reflexivity].
      exfalso.
      assert (Hpos : 0 < ownedCount (o_id o) ts).
      { apply ownedCount_pos. exists t. split; [exact Hin|].
        unfold ownerId. rewrite Ho. reflexivity. }
      specialize (Hall (o_id o) (ownedCount (o_id o) ts)).
      rewrite Hspec in Hall. lia.
    + intros Hnone. destruct Hcase as [[= _ ->]|(w & -> & Hin & _)]; [reflexivity|].
      exfalso. apply Hspec in Hin as [Heq Hpos].
      assert (Hw : 0 < ownedCount w ts) by lia.
      apply ownedCount_pos in Hw as (t & Ht & Ho).
      unfold ownerId in Ho. rewrite (Hnone t Ht) in Ho. discriminate Ho.
  - intros w ->. destruct Hcase as [H|(w' & [= ->] & Hin & Hlt)];
      [discriminate H|].
    apply Hspec in Hin as [-> Hpos]. split; [exact Hpos|].
    intros id. destruct (Z.eq_dec (ownedCount id ts) 0) as [->|Hnz]; [lia|].
    apply (Hall id). apply Hspec. split; [reflexivity|].
    pose proof (ownedCount_nonneg id ts). lia.
Qed.

Lemma territoryCounts_keys ts id :
  In id (map fst (Simulator.territoryCounts ts))
  <-> exists t, In t ts /\ ownerId t = Some id.
Proof.
  destruct (territoryCounts_spec ts) as [_ Hspec].
  rewrite <- ownedCount_pos. split.
  - intros H. apply in_map_iff in H as ([k n] & Hk & Hin). simpl in Hk. subst k.
    apply Hspec in Hin. lia.
  - intros H. apply in_map_iff. exists (id, ownedCount id ts).
    split; [reflexivity|]. apply Hspec. split; [reflexivity|exact H].
Qed.

(** X8. Before the day limit, [checkGameOver] says the game is over
    exactly when no two territories have different owners. *)
Theorem checkGameOver_before_limit ts gameDay :
  gameDay < GameSimulator.maxGameDays ->
  (GameSimulator.checkGameOver ts gameDay = true
   <-> forall t1 t2 a b,
         In t1 ts -> In t2 ts ->
         ownerId t1 = Some a -> ownerId t2 = Some b -> a = b).
Proof.
  intros Hday. unfold GameSimulator.checkGameOver.
  destruct (Z.geb_spec gameDay GameSimulator.maxGameDays) as [?|_]; [lia|].
  rewrite orb_false_r, Nat.leb_le.
  destruct (territoryCounts_spec ts) as [Hnd _].
  pose proof (territoryCounts_keys ts) as Hkeys.
  rewrite <- (length_map fst).
  destruct (map fst (Simulator.territoryCounts ts)) as [|k1 [|k2 keys]].
  - split; [|simpl; lia]. intros _ t1 t2 a b H1 _ Ha _.
    exfalso. apply (proj2 (Hkeys a)). exists t1. split; assumption.
  - split; [|simpl; lia]. intros _ t1 t2 a b H1 H2 Ha Hb.
    assert (Hka : In a [k1]) by (apply Hkeys; exists t1; split; assumption).
    assert (Hkb : In b [k1]) by (apply Hkeys; exists t2; split; assumption).
    destruct Hka as [<-|[]], Hkb as [<-|[]]. reflexivity.
  - split; [simpl; lia|]. intros Hsame. exfalso.
    apply NoDup_cons in Hnd as [Hk1 _]. apply Hk1.
    destruct (proj1 (Hkeys k1) (or_introl eq_refl)) as (t1 & H1 & Ho1).
    destruct (proj1 (Hkeys k2) (or_intror (or_introl eq_refl))) as (t2 & H2 & Ho2).
    rewrite (Hsame t1 t2 k1 k2 H1 H2 Ho1 Ho2). left.
Qed.

Lemma checkGameOver_before_limit_witness :
  GameSimulator.checkGameOver farmGrid 10 = false.
Proof.
  destruct (GameSimulator.checkGameOver farmGrid 10) eqn:E; [|reflexivity].
  exfalso.
  assert (Hday : 10 < GameSimulator.maxGameDays) by reflexivity.
  pose proof (proj1 (checkGameOver_before_limit farmGrid 10 Hday) E
                neuralCell farmCell "neural"%string "ai1"%string) as H.
  assert (Hc : "neural"%string = "ai1"%string).
  { apply H; [left; reflexivity | right; left; reflexivity
             | reflexivity | reflexivity]. }
  discriminate Hc.
Defined.

(** ** Growth in the simulator *)

Lemma findIndex_exists {A : Type} (pred : A -> bool) (l : list A) a :
  In a l -> pred a = true -> exists i, findIndex pred l = Some i.
Proof.
  intros Hin Hp. destruct (findIndex pred l) as [i|] eqn:E; [eauto|].
  rewrite (findIndex_None pred l E a Hin) in Hp. discriminate Hp.
Qed.

Lemma totalTroops_insert ts i (c c' : Territory) :
  ts !! i = Some c ->
  totalTroops (<[i := c']> ts) = totalTroops ts - t_troops c + t_troops c'.
Proof.
  unfold totalTroops. revert i. induction ts as [|t ts IH]; intros [|i] H;
    simpl in *; try discriminate.
  - injection H as ->. lia.
  - rewrite (IH i H). lia.
Qed.

Lemma withoutTroops_insert ts i (c : Territory) n :
  ts !! i = Some c ->
  map withoutTroops (<[i := set_troops n c]> ts) = map withoutTroops ts.
Proof.
  revert i. induction ts as [|t ts IH]; intros [|i] H; simpl in *;
    try discriminate.
  - injection H as ->. reflexivity.
  - rewrite (IH i H). reflexivity.
Qed.

Lemma filter_length_map {A B : Type} (f : B -> bool) (g : A -> B) (l : list A) :
  length (List.filter f (map g l)) = length (List.filter (fun a => f (g a)) l).
Proof.
  induction l as [|a l IH]; simpl; [reflexivity|].
  destruct (f (g a)); simpl; rewrite IH; reflexivity.
Qed.

Lemma filter_length_withoutTroops (f : Territory -> bool) ts :
  (forall t, f (withoutTroops t) = f t) ->
  length (List.filter f (map withoutTroops ts)) = length (List.filter f ts).
Proof.
  intros Hf. rewrite filter_length_map. f_equal. apply List.filter_ext.
  exact Hf.
Qed.

(** Counts of owned territories and of buildings do not depend on the
    troops on the grid. *)
Lemma ownedCount_withoutTroops id ts ts' :
  map withoutTroops ts' = map withoutTroops ts ->
  ownedCount id ts' = ownedCount id ts.
Proof.
  intros H. unfold ownedCount.
  rewrite <- (filter_length_withoutTroops (ownedBy id) ts') by reflexivity.
  rewrite <- (filter_length_withoutTroops (ownedBy id) ts) by reflexivity.
  rewrite H. reflexivity.
Qed.

Lemma buildingsOfType_withoutTroops type id ts ts' :
  map withoutTroops ts' = map withoutTroops ts ->
  buildingsOfType type id ts' = buildingsOfType type id ts.
Proof.
  intros H. unfold buildingsOfType.
  rewrite <- (filter_length_withoutTroops _ ts') by reflexivity.
  rewrite <- (filter_length_withoutTroops _ ts) by reflexivity.
  rewrite H. reflexivity.
Qed.

(** The counters of [updateGameState] in closed form. *)
Lemma playerCounters_closed ts player :
  GameSimulator.playerCounters ts player
  = (ownedCount (p_id player) ts,
     10 + 15 * buildingsOfType mine (p_id player) ts
        + 25 * buildingsOfType market (p_id player) ts,
     5 + 3 * buildingsOfType farm (p_id player) ts
       + 5 * buildingsOfType barracks (p_id player) ts).
Proof.
  unfold GameSimulator.playerCounters.
  set (id := p_id player).
  assert (H : forall l a b c,
    foldl
      (fun '(territoryCount, goldIncome, troopGrowth) territory =>
         if ownedBy id territory then
           match t_building territory with
           | Some b =>
               match b_type b with
               | mine => (territoryCount + 1, goldIncome + 15, troopGrowth)
               | market => (territoryCount + 1, goldIncome + 25, troopGrowth)
               | farm => (territoryCount + 1, goldIncome, troopGrowth + 3)
               | barracks => (territoryCount + 1, goldIncome, troopGrowth + 5)
               | _ => (territoryCount + 1, goldIncome, troopGrowth)
               end
           | None => (territoryCount + 1, goldIncome, troopGrowth)
           end
         else (territoryCount, goldIncome, troopGrowth))
      (a, b, c) l
    = (a + ownedCount id l,
       b + 15 * buildingsOfType mine id l + 25 * buildingsOfType market id l,
       c + 3 * buildingsOfType farm id l + 5 * buildingsOfType barracks id l)).
  { induction l as [|t l IH]; intros a b c.
    - simpl. unfold ownedCount, buildingsOfType. simpl. repeat (apply pair_equal_spec; split); lia.
    - cbn [foldl].
      assert (Hstep : forall type,
        buildingsOfType type id (t :: l)
        = buildingsOfType type id l
          + (if ownedBy id t
                && bool_decide (b_type <$> t_building t = Some type)
             then 1 else 0)).
      { intros type. unfold buildingsOfType. simpl.
        destruct (ownedBy id t && _); simpl; lia. }
      assert (Hown : ownedCount id (t :: l)
                     = ownedCount id l + (if ownedBy id t then 1 else 0)).
      { unfold ownedCount. simpl. destruct (ownedBy id t); simpl; lia. }
      rewrite !Hstep, Hown.
      destruct (ownedBy id t); simpl.
      + destruct (t_building t) as [[[] lvl]|]; simpl; rewrite IH;
          repeat case_bool_decide; try discriminate;
          (repeat (apply pair_equal_spec; split); lia).
      + rewrite IH. repeat (apply pair_equal_spec; split); lia. }
  rewrite H. repeat (apply pair_equal_spec; split); lia.
Qed.

Lemma pick_filter_member {A : Type} (k : nat) (f : A -> bool) (l : list A) a :
  pick k (List.filter f l) = Some a -> In a l /\ f a = true.
Proof.
  unfold pick. intros H. apply filter_In. apply list_elem_of_In.
  eapply list_elem_of_lookup_2. exact H.
Qed.

Lemma pick_None {A : Type} (k : nat) (l : list A) : pick k l = None -> l = [].
Proof.
  intros H. destruct l as [|a l]; [reflexivity|]. exfalso.
  destruct (pick_member k (a :: l)) as (x & Hx & _); [discriminate|congruence].
Qed.

Lemma updatePlayer_spec ts player draw :
  exists ts',
    GameSimulator.updatePlayer ts player draw
    = Some (ts',
            mkAIPlayer (p_id player) (p_name player) (p_color player)
              (p_personality player)
              (Some (goldOr0 player + 10
                     + 15 * buildingsOfType mine (p_id player) ts
                     + 25 * buildingsOfType market (p_id player) ts))
              (Some (default 0 (p_troops player) + 5
                     + 3 * buildingsOfType farm (p_id player) ts
                     + 5 * buildingsOfType barracks (p_id player) ts))
              (Some (ownedCount (p_id player) ts)))
    /\ map withoutTroops ts' = map withoutTroops ts
    /\ totalTroops ts'
       = totalTroops ts + (if 0 <? ownedCount (p_id player) ts then 1 else 0).
Proof.
  unfold GameSimulator.updatePlayer. rewrite playerCounters_closed.
  replace (goldOr0 player
           + (10 + 15 * buildingsOfType mine (p_id player) ts
              + 25 * buildingsOfType market (p_id player) ts))
    with (goldOr0 player + 10 + 15 * buildingsOfType mine (p_id player) ts
          + 25 * buildingsOfType market (p_id player) ts) by lia.
  replace (default 0 (p_troops player)
           + (5 + 3 * buildingsOfType farm (p_id player) ts
              + 5 * buildingsOfType barracks (p_id player) ts))
    with (default 0 (p_troops player) + 5
          + 3 * buildingsOfType farm (p_id player) ts
          + 5 * buildingsOfType barracks (p_id player) ts) by lia.
  destruct (pick draw (List.filter (ownedBy (p_id player)) ts)) as [r|] eqn:Hpick.
  - destruct (pick_filter_member _ _ _ _ Hpick) as [Hin Hown].
    assert (Hpos : 0 < ownedCount (p_id player) ts).
    { apply ownedCount_pos. exists r. split; [exact Hin|].
      apply ownedBy_ownerId. exact Hown. }
    destruct (findIndex_exists (sameCoords r) ts r Hin) as [i Hi].
    { apply sameCoords_iff. reflexivity. }
    rewrite Hi. apply findIndex_Some in Hi as (c & Hc & _).
    rewrite (update_Some _ _ _ _ Hc). simpl.
    eexists. split; [reflexivity|]. split.
    + apply withoutTroops_insert. exact Hc.
    + rewrite (totalTroops_insert _ _ _ _ Hc). simpl.
      destruct (Z.ltb_spec 0 (ownedCount (p_id player) ts)); lia.
  - apply pick_None in Hpick.
    assert (Hz : ownedCount (p_id player) ts = 0)
      by (unfold ownedCount; rewrite Hpick; reflexivity).
    eexists. split; [reflexivity|]. split; [reflexivity|].
    rewrite Hz. simpl. lia.
Qed.

(** What [updatePlayers] does to the grid as a whole and to the
    players. *)
Lemma updatePlayers_growth ts players draws i :
  exists ts' players',
    GameSimulator.updatePlayers ts players draws i = Some (ts', players')
    /\ map withoutTroops ts' = map withoutTroops ts
    /\ totalTroops ts'
       = totalTroops ts
         + Z.of_nat (length (List.filter
                               (fun p => 0 <? ownedCount (p_id p) ts) players))
    /\ Forall2
         (fun p p' =>
            p_id p' = p_id p
            /\ p_gold p'
               = Some (goldOr0 p + 10
                       + 15 * buildingsOfType mine (p_id p) ts
                       + 25 * buildingsOfType market (p_id p) ts)
            /\ p_territory p' = Some (ownedCount (p_id p) ts))
         players players'.
Proof.
  revert i.
  assert (H : forall players ts0 i,
    map withoutTroops ts0 = map withoutTroops ts ->
    exists ts' players',
      GameSimulator.updatePlayers ts0 players draws i = Some (ts', players')
      /\ map withoutTroops ts' = map withoutTroops ts
      /\ totalTroops ts'
         = totalTroops ts0
           + Z.of_nat (length (List.filter
                                 (fun p => 0 <? ownedCount (p_id p) ts) players))
      /\ Forall2
           (fun p p' =>
              p_id p' = p_id p
              /\ p_gold p'
                 = Some (goldOr0 p + 10
                         + 15 * buildingsOfType mine (p_id p) ts
                         + 25 * buildingsOfType market (p_id p) ts)
              /\ p_territory p' = Some (ownedCount (p_id p) ts))
           players players').
  { clear players. induction players as [|p players IH]; intros ts0 i Hsame.
    - exists ts0, []. simpl. repeat split; [exact Hsame|lia|constructor].
    - cbn [GameSimulator.updatePlayers].
      destruct (updatePlayer_spec ts0 p (draws i)) as (ts1 & -> & Hs1 & Ht1).
      cbn [mbind option_bind].
      destruct (IH ts1 (S i)) as (ts' & players' & -> & Hs' & Ht' & Hall).
      { rewrite Hs1. exact Hsame. }
      cbn [mbind option_bind].
      eexists _, _. split; [reflexivity|]. split; [exact Hs'|]. split.
      + rewrite Ht', Ht1. rewrite (ownedCount_withoutTroops _ _ _ Hsame).
        simpl. destruct (0 <? ownedCount (p_id p) ts); simpl; lia.
      + constructor; [|exact Hall]. simpl.
        rewrite !(buildingsOfType_withoutTroops _ _ _ _ Hsame).
        rewrite (ownedCount_withoutTroops _ _ _ Hsame). repeat split. }
  intros i. apply H. reflexivity.
Qed.

(** ** A turn of a rule-based opponent in the simulator *)

(** [executeAction] leaves the player alone, or takes the price of the
    building of a build action that the player can pay. *)
Lemma executeAction_player ts d p ts' p' :
  Simulator.executeAction ts d p = Some (ts', p') ->
  p' = p
  \/ exists bt,
       d_action d = build /\ d_buildingType d = Some bt
       /\ buildingCosts bt <= goldOr0 p
       /\ p' = set_gold (Some (goldOr0 p - buildingCosts bt)) p.
Proof.
  unfold Simulator.executeAction.
  destruct (d_action d) eqn:Hact.
  - destruct (d_source d), (d_target d); try (intros [= _ <-]; left; reflexivity).
    destruct (findIndex _ ts); [|intros [= _ <-]; left; reflexivity].
    destruct (findIndex _ ts); [|intros [= _ <-]; left; reflexivity].
    destruct (Simulator.resolveAttack _ _ _ _); simpl; [|discriminate].
    intros [= _ <-]. left. reflexivity.
  - destruct (d_target d); [|intros [= _ <-]; left; reflexivity].
    destruct (findIndex _ ts); [|intros [= _ <-]; left; reflexivity].
    destruct (ts !! _); simpl; [|discriminate].
    destruct (ownedBy _ _); [|intros [= _ <-]; left; reflexivity].
    destruct (update _ _ _); simpl; [|discriminate].
    intros [= _ <-]. left. reflexivity.
  - destruct (d_target d), (d_buildingType d) as [bt|];
      try (intros [= _ <-]; left; reflexivity).
    destruct (findIndex _ ts); [|intros [= _ <-]; left; reflexivity].
    unfold Simulator.resolveBuild.
    destruct (Z.ltb_spec (goldOr0 p) (buildingCosts bt)) as [Hlt|Hge];
      [intros [= _ <-]; left; reflexivity|].
    intros H. right. exists bt. repeat split; [exact Hge|].
    destruct (ts !! _); simpl in H; [|discriminate].
    destruct (decide (bt = wall)).
    + destruct (bool_decide _).
      * repeat (destruct (update _ _ _); simpl in H; [|discriminate]).
        injection H as _ <-. reflexivity.
      * injection H as _ <-. reflexivity.
    + destruct (ownedBy _ _).
      * destruct (update _ _ _); simpl in H; [|discriminate].
        injection H as _ <-. reflexivity.
      * injection H as _ <-. reflexivity.
Qed.

Lemma buildingCosts_pos bt : 0 < buildingCosts bt.
Proof. destruct bt; reflexivity. Qed.

Lemma executeAction_keeps_gold_in_range ts d p :
  exists ts' p',
    Simulator.executeAction ts d p = Some (ts', p')
    /\ length ts' = length ts
    /\ p_id p' = p_id p
    /\ goldOr0 p' <= goldOr0 p
    /\ (0 <= goldOr0 p -> 0 <= goldOr0 p').
Proof.
  destruct (executeAction_returns ts d p) as (ts' & p' & E & Hlen).
  exists ts', p'. split; [exact E|]. split; [exact Hlen|].
  destruct (executeAction_player ts d p ts' p' E)
    as [->|(bt & _ & _ & Hcost & ->)].
  - repeat split; lia.
  - pose proof (buildingCosts_pos bt).
    change (goldOr0 (set_gold (Some (goldOr0 p - buildingCosts bt)) p))
      with (goldOr0 p - buildingCosts bt).
    repeat split; lia.
Qed.

(** X10. A turn of a rule-based opponent always completes, keeps the
    size of the grid and the player's id, never adds to the player's
    gold, and never overdraws it. *)
Theorem executeAITurn_gold_in_range
    ts player attackRoll drawSource drawTarget drawType :
  exists ts' player',
    GameSimulator.executeAITurn ts player attackRoll drawSource drawTarget
      drawType = Some (ts', player')
    /\ length ts' = length ts
    /\ p_id player' = p_id player
    /\ goldOr0 player' <= goldOr0 player
    /\ (0 <= goldOr0 player -> 0 <= goldOr0 player').
Proof.
  assert (Hsame : exists ts' player',
            Some (ts, player) = Some (ts', player')
            /\ length ts' = length ts
            /\ p_id player' = p_id player
            /\ goldOr0 player' <= goldOr0 player
            /\ (0 <= goldOr0 player -> 0 <= goldOr0 player')).
  { exists ts, player. repeat split; lia. }
  unfold GameSimulator.executeAITurn.
  destruct (List.filter (ownedBy (p_id player)) ts) as [|o owned];
    [exact Hsame|].
  destruct (_ && attackRoll).
  - destruct (pick drawSource _); [|exact Hsame].
    destruct (sortByKey _ _); [exact Hsame|].
    apply executeAction_keeps_gold_in_range.
  - destruct (goldOr0 player >=? 80).
    + destruct (pick drawTarget _); [|exact Hsame].
      apply executeAction_keeps_gold_in_range.
    + destruct (sortByKey _ _); [exact Hsame|].
      apply executeAction_keeps_gold_in_range.
Qed.

(** X11. An opponent that does not attack and holds between 80 and 99
    gold, with a territory free to build on, chooses a wall and places it
    on a territory of its own: on a grid with distinct coordinates the
    turn costs 80 gold and changes nothing on the grid. *)
Theorem executeAITurn_pays_for_no_wall
    ts player attackRoll drawSource drawTarget drawType :
  distinctCoords ts ->
  (List.filter (fun t => t_troops t >=? 5)
     (List.filter (ownedBy (p_id player)) ts) = []
   \/ attackRoll = false) ->
  80 <= goldOr0 player < 100 ->
  List.filter (fun t => bool_decide (t_building t = None) && negb (t_wall t))
    (List.filter (ownedBy (p_id player)) ts) <> [] ->
  GameSimulator.executeAITurn ts player attackRoll drawSource drawTarget
    drawType
  = Some (ts, set_gold (Some (goldOr0 player - 80)) player).
Proof.
  intros Hdistinct Hmode Hgold Hbuildable.
  unfold GameSimulator.executeAITurn.
  destruct (List.filter (ownedBy (p_id player)) ts) as [|o owned] eqn:Howned;
    [exfalso; apply Hbuildable; reflexivity|].
  assert (Hoff : negb (bool_decide
                         (List.filter (fun t => t_troops t >=? 5) (o :: owned)
                          = [])) && attackRoll = false).
  { destruct Hmode as [->| ->].
    - rewrite bool_decide_eq_true_2 by reflexivity. reflexivity.
    - apply andb_false_r. }
  rewrite Hoff.
  destruct (Z.geb_spec (goldOr0 player) 80) as [_|?]; [|lia].
  destruct (pick_member drawTarget _ Hbuildable) as (target & -> & Hin).
  apply filter_In in Hin as [Hin _].
  assert (Hin' : In target (List.filter (ownedBy (p_id player)) ts))
    by (rewrite Howned; exact Hin).
  apply filter_In in Hin' as [Hts Hown].
  unfold GameSimulator.chooseBuildingType.
  destruct (Z.geb_spec (goldOr0 player) 200) as [?|_]; [lia|].
  destruct (Z.geb_spec (goldOr0 player) 150) as [?|_]; [lia|].
  destruct (Z.geb_spec (goldOr0 player) 100) as [?|_]; [lia|].
  unfold Simulator.executeAction, buildOf. simpl.
  pose proof (firstAt_member ts target Hdistinct Hts) as Hfirst.
  unfold firstAt in Hfirst.
  destruct (findIndex (sameCoords target) ts) as [i|]; simpl in Hfirst;
    [|discriminate Hfirst].
  unfold Simulator.resolveBuild. simpl.
  destruct (Z.ltb_spec (goldOr0 player) 80) as [?|_]; [lia|].
  rewrite Hfirst. simpl.
  unfold ownedBy in Hown.
  destruct (t_owner target) as [ow|]; [|discriminate Hown].
  reflexivity.
Qed.

Lemma executeAITurn_pays_for_no_wall_witness :
  GameSimulator.executeAITurn [cell 0 0 (Some (ownerOf ai1)) 3 None false]
    (set_gold (Some 90) ai1) true 0 0 0
  = Some ([cell 0 0 (Some (ownerOf ai1)) 3 None false],
          set_gold (Some 10) ai1).
Proof.
  apply (executeAITurn_pays_for_no_wall
           [cell 0 0 (Some (ownerOf ai1)) 3 None false]
           (set_gold (Some 90) ai1) true 0 0 0).
  - unfold distinctCoords. apply (bool_decide_unpack _). vm_compute. exact I.
  - left. reflexivity.
  - vm_compute. split; [discriminate|reflexivity].
  - vm_compute. discriminate.
Defined.

(** ** Clicks of the interactive player *)

Lemma update_total ts i f (c : Territory) ts' :
  ts !! i = Some c -> update i f ts = Some ts' ->
  totalTroops ts' = totalTroops ts - t_troops c + t_troops (f c)
  /\ length ts' = length ts.
Proof.
  intros Hc. rewrite (update_Some _ _ _ _ Hc). intros [= <-].
  split; [apply totalTroops_insert; exact Hc|apply length_insert].
Qed.

Lemma fixedPart_insert ts i (c c' : Territory) :
  ts !! i = Some c -> fixedPart c' = fixedPart c ->
  map fixedPart (<[i := c']> ts) = map fixedPart ts.
Proof.
  revert i. induction ts as [|t ts IH]; intros [|i] H Hf; simpl in *;
    try discriminate.
  - injection H as ->. rewrite Hf. reflexivity.
  - rewrite (IH i H Hf). reflexivity.
Qed.

(** One in-place change of troops or selection, seen from outside. *)
Lemma update_fixed ts i f :
  (forall c, fixedPart (f c) = fixedPart c) ->
  (i < length ts)%nat ->
  exists c ts',
    ts !! i = Some c /\ update i f ts = Some ts'
    /\ map fixedPart ts' = map fixedPart ts
    /\ length ts' = length ts
    /\ totalTroops ts' = totalTroops ts - t_troops c + t_troops (f c)
    /\ ts' !! i = Some (f c)
    /\ forall j, j <> i -> ts' !! j = ts !! j.
Proof.
  intros Hf Hi. destruct (lookup_lt_is_Some_2 ts i Hi) as [c Hc].
  exists c, (<[i := f c]> ts). split; [exact Hc|].
  split; [apply update_Some; exact Hc|].
  split; [apply (fixedPart_insert _ _ c); [exact Hc|apply Hf]|].
  split; [apply length_insert|].
  split; [apply totalTroops_insert; exact Hc|].
  split; [apply list_lookup_insert_eq; exact Hi|].
  intros j Hj. apply list_lookup_insert_ne. congruence.
Qed.

(** X12. A click on a territory of the player's own never starts an
    attack: the handler returns, and all it changes is the selection and
    how the troops are spread. Owners, buildings and walls stay, and so
    does the number of troops on the grid. *)
Theorem own_click_conserves_troops ts clickedIndex playerName (tgt : Territory) :
  ts !! clickedIndex = Some tgt ->
  ownedBy "player1" tgt = true ->
  exists ts',
    Page.handleCanvasClick ts clickedIndex playerName = Some ts'
    /\ map fixedPart ts' = map fixedPart ts
    /\ totalTroops ts' = totalTroops ts.
Proof.
  intros Ht Hown.
  assert (Hci : (clickedIndex < length ts)%nat)
    by (eapply lookup_lt_Some; exact Ht).
  unfold Page.handleCanvasClick.
  destruct (findIndex t_isSelected ts) as [si|] eqn:Hsel.
  - apply findIndex_Some in Hsel as (sel & Hs & _).
    assert (Hsi : (si < length ts)%nat) by (eapply lookup_lt_Some; exact Hs).
    rewrite Hs, Ht. cbn [mbind option_bind].
    assert (Hdeselect : forall l,
      length l = length ts -> map fixedPart l = map fixedPart ts ->
      totalTroops l = totalTroops ts ->
      exists ts',
        update si (set_isSelected false) l = Some ts'
        /\ map fixedPart ts' = map fixedPart ts
        /\ totalTroops ts' = totalTroops ts).
    { intros l Hl Hf Htot.
      destruct (update_fixed l si (set_isSelected false))
        as (c & l' & _ & E & Hf' & _ & Ht' & _); [reflexivity|lia|].
      exists l'. split; [exact E|]. split; [congruence|].
      rewrite Ht'. simpl. lia. }
    destruct (t_wall tgt); [apply Hdeselect; reflexivity|].
    destruct (withinDistance _ _ _);
      [|cbn [mbind option_bind]; apply Hdeselect; reflexivity].
    rewrite Hown. unfold Page.moveBranch. rewrite Hs. cbn [mbind option_bind].
    set (m := JS.floor_mul (t_troops sel) JS.lit_0_8).
    destruct (m >? 0); [|cbn [mbind option_bind]; apply Hdeselect; reflexivity].
    destruct (update_fixed ts clickedIndex
                (fun c => set_troops (t_troops c + m) c))
      as (c1 & ts1 & Hc1 & -> & Hf1 & Hl1 & Ht1 & _); [reflexivity|lia|].
    cbn [mbind option_bind].
    destruct (update_fixed ts1 si (fun c => set_troops (t_troops c - m) c))
      as (c2 & ts2 & Hc2 & -> & Hf2 & Hl2 & Ht2 & _); [reflexivity|lia|].
    cbn [mbind option_bind].
    apply Hdeselect; [lia|congruence|].
    rewrite Ht2, Ht1. simpl. lia.
  - rewrite Ht. cbn [mbind option_bind]. rewrite Hown.
    destruct (update_fixed ts clickedIndex (set_isSelected true))
      as (c & ts' & _ & E & Hf & _ & Htot & _); [reflexivity|exact Hci|].
    exists ts'. split; [exact E|]. split; [exact Hf|].
    rewrite Htot. simpl. lia.
Qed.

Lemma own_click_conserves_troops_witness :
  exists ts',
    Page.handleCanvasClick
      [selectedCell; cell 1 0 (Some (Page.player1 "Ann")) 4 None false]
      1 "Ann" = Some ts'
    /\ totalTroops ts' = 14.
Proof.
  destruct (own_click_conserves_troops
              [selectedCell; cell 1 0 (Some (Page.player1 "Ann")) 4 None false]
              1 "Ann" (cell 1 0 (Some (Page.player1 "Ann")) 4 None false))
    as (ts' & E & _ & Htot); [reflexivity|reflexivity|].
  exists ts'. split; [exact E|]. rewrite Htot. reflexivity.
Defined.

(** X13. A click in building mode charges the player exactly when it
    places something, and only what the player can pay. A wall is placed
    only on a territory without owner; any other building only on a
    territory of the player that has no building. No other territory
    changes. *)
Theorem buildClick_charges_what_it_places
    ts clickedIndex selected gold playerName ts' gold' placed :
  Client.buildClick ts clickedIndex selected gold playerName
  = Some (ts', gold', placed) ->
  (placed = false /\ ts' = ts /\ gold' = gold)
  \/ (placed = true
      /\ buildingCosts selected <= gold
      /\ gold' = gold - buildingCosts selected
      /\ exists c c',
           ts !! clickedIndex = Some c
           /\ ts' = <[clickedIndex := c']> ts
           /\ (if decide (selected = wall)
               then t_owner c = None
                    /\ c' = set_troops 0
                              (set_owner (Some (Page.player1 playerName))
                                 (set_wall true c))
               else ownedBy "player1" c = true
                    /\ t_building c = None
                    /\ c' = set_building (Some (mkBuilding selected 1)) c)).
Proof.
  unfold Client.buildClick.
  destruct (ts !! clickedIndex) as [c|] eqn:Hc; [|discriminate].
  cbn [mbind option_bind].
  assert (Hlt : (clickedIndex < length ts)%nat)
    by (eapply lookup_lt_Some; exact Hc).
  destruct (decide (selected = wall)) as [->|Hsel].
  - case_bool_decide as Ho; [|intros [= <- <- <-]; left; tauto].
    destruct (Z.geb_spec gold (buildingCosts wall)) as [Hge|Hlt'];
      [|intros [= <- <- <-]; left; tauto].
    repeat step_update_with update_Some. rewrite !list_insert_insert_eq.
    intros [= <- <- <-]. right.
    split; [reflexivity|]. split; [exact Hge|]. split; [reflexivity|].
    exists c. eexists. split; [reflexivity|]. split; [reflexivity|].
    split; [exact Ho|reflexivity].
  - destruct (ownedBy "player1" c) eqn:Hown;
      [|intros [= <- <- <-]; left; tauto].
    case_bool_decide as Hb; [intros [= <- <- <-]; left; tauto|].
    destruct (Z.geb_spec gold (buildingCosts selected)) as [Hge|Hlt'];
      [|intros [= <- <- <-]; left; tauto].
    repeat step_update_with update_Some.
    intros [= <- <- <-]. right.
    split; [reflexivity|]. split; [exact Hge|]. split; [reflexivity|].
    exists c. eexists. split; [reflexivity|]. split; [reflexivity|].
    split; [exact Hown|]. split; [exact Hb|reflexivity].
Qed.

Lemma buildClick_charges_what_it_places_witness :
  Client.buildClick [selectedCell] 0 farm 500 "Ann"
  = Some ([set_building (Some (mkBuilding farm 1)) selectedCell], 350, true)
  /\ buildingCosts farm <= 500
  /\ 350 = 500 - buildingCosts farm.
Proof.
  assert (E : Client.buildClick [selectedCell] 0 farm 500 "Ann"
              = Some ([set_building (Some (mkBuilding farm 1)) selectedCell],
                      350, true)) by reflexivity.
  split; [exact E|].
  destruct (buildClick_charges_what_it_places _ _ _ _ _ _ _ _ E)
    as [(Hp & _)|(_ & Hge & Hgold & _)]; [discriminate Hp|].
  split; [exact Hge|exact Hgold].
Defined.

(** ** The proposer of the rule-based agents *)

Lemma insertByKey_In {A : Type} (key : A -> Z) (x a : A) (l : list A) :
  In x (insertByKey key a l) <-> x = a \/ In x l.
Proof.
  induction l as [|y l IH]; simpl.
  - intuition congruence.
  - destruct (key a <=? key y); simpl; [intuition congruence|].
    rewrite IH. intuition congruence.
Qed.

Lemma sortByKey_In {A : Type} (key : A -> Z) (x : A) (l : list A) :
  In x (sortByKey key l) <-> In x l.
Proof.
  induction l as [|a l IH]; simpl; [tauto|].
  rewrite insertByKey_In, IH. intuition congruence.
Qed.

(** The sorted array starts with an element of the least key. *)
Lemma sortByKey_head_min {A : Type} (key : A -> Z) (l : list A) x rest :
  sortByKey key l = x :: rest ->
  forall y, In y l -> key x <= key y.
Proof.
  revert x rest. induction l as [|a l IH]; intros x rest Hs y Hy;
    [destruct Hy|].
  simpl in Hs. destruct (sortByKey key l) as [|z zs] eqn:Hz.
  - assert (Hl : forall w, ~ In w l).
    { intros w Hw. apply (sortByKey_In key) in Hw. rewrite Hz in Hw.
      exact Hw. }
    simpl in Hs. injection Hs as <- <-.
    destruct Hy as [<-|Hy]; [lia|destruct (Hl _ Hy)].
  - simpl in Hs. destruct (Z.leb_spec (key a) (key z)) as [Hle|Hgt].
    + injection Hs as <- <-. destruct Hy as [<-|Hy]; [lia|].
      specialize (IH z zs eq_refl y Hy). lia.
    + injection Hs as <- <-. destruct Hy as [<-|Hy]; [lia|].
      exact (IH z _ eq_refl y Hy).
Qed.

Lemma sortByKey_head_In {A : Type} (key : A -> Z) (l : list A) x rest :
  sortByKey key l = x :: rest -> In x l.
Proof.
  intros Hs. apply (sortByKey_In key). rewrite Hs. left. reflexivity.
Qed.

Lemma firstDecision_Some body candidates d :
  Strategies.firstDecision body candidates = Some d ->
  exists c, In c candidates /\ body c = Some d.
Proof.
  induction candidates as [|c cs IH]; simpl; [discriminate|].
  destruct (body c) as [d'|] eqn:Hb.
  - intros [= <-]. exists c. split; [left; reflexivity|exact Hb].
  - intros H. destruct (IH H) as (c' & Hin & Hc').
    exists c'. split; [right; exact Hin|exact Hc'].
Qed.

Lemma goldAtLeast_gold p cost :
  Strategies.goldAtLeast p cost = true ->
  exists gold, p_gold p = Some gold /\ cost <= gold.
Proof.
  unfold Strategies.goldAtLeast. destruct (p_gold p) as [g|]; [|discriminate].
  intros H. apply andb_true_iff in H as [_ H]. exists g.
  split; [reflexivity|lia].
Qed.

Lemma noBuildingNoWall_true t :
  Strategies.noBuildingNoWall t = true ->
  t_building t = None /\ t_wall t = false.
Proof.
  unfold Strategies.noBuildingNoWall. intros H.
  apply andb_true_iff in H as [Hb Hw].
  apply bool_decide_eq_true in Hb. apply negb_true_iff in Hw. tauto.
Qed.

Lemma findNearbyEmptyTerritories_In ts c t :
  In t (Strategies.findNearbyEmptyTerritories ts c) ->
  In t ts /\ t_owner t = None /\ t_wall t = false.
Proof.
  unfold Strategies.findNearbyEmptyTerritories,
    Neural.findNearbyEmptyTerritories.
  intros H. apply filter_In in H as [Hin H]. split; [exact Hin|].
  apply andb_true_iff in H as [H Hw]. apply andb_true_iff in H as [_ Ho].
  apply bool_decide_eq_true in Ho. apply negb_true_iff in Hw. tauto.
Qed.

Lemma findAdjacentTerritories_In ts c t :
  In t (Strategies.findAdjacentTerritories ts c) ->
  In t ts /\ t_wall t = false.
Proof.
  unfold Strategies.findAdjacentTerritories, Neural.findAdjacentTerritories.
  intros H. apply filter_In in H as [Hin H]. split; [exact Hin|].
  apply andb_true_iff in H as [_ Hw]. apply negb_true_iff in Hw. exact Hw.
Qed.

Lemma pick_In {A : Type} (k : nat) (l : list A) a :
  pick k l = Some a -> In a l.
Proof.
  unfold pick. intros H. apply list_elem_of_In.
  eapply list_elem_of_lookup_2. exact H.
Qed.

Lemma defensiveStrategy_sound ts p draws d :
  Strategies.defensiveStrategy ts (List.filter (ownedBy (p_id p)) ts) p draws
  = Some d ->
  soundDecision ts p d.
Proof.
  unfold Strategies.defensiveStrategy.
  set (isBorder := fun territory : Territory => existsb _ _).
  destruct (sortByKey t_troops _) as [|w rest] eqn:Hs; [discriminate|].
  assert (Hborder : forall t, In t (w :: rest) ->
            In t ts /\ threatenedBorder ts (p_id p) t = true).
  { intros t Ht. rewrite <- Hs in Ht. apply sortByKey_In in Ht.
    apply filter_In in Ht as [Ht Hb]. apply filter_In in Ht as [Ht Ho].
    split; [exact Ht|]. unfold threatenedBorder. rewrite Ho. exact Hb. }
  destruct (Hborder w) as [Hw Hwb]; [left; reflexivity|].
  destruct (Strategies.goldAtLeast p 100 && _ && _) eqn:Hfort.
  - intros [= <-]. right. right.
    apply andb_true_iff in Hfort as [Hfort _].
    apply andb_true_iff in Hfort as [Hgold Hb].
    apply goldAtLeast_gold in Hgold as (gold & Hg & Hge).
    apply bool_decide_eq_true in Hb.
    exists w, fort, gold. split; [reflexivity|]. split; [exact Hw|].
    split; [exact Hg|]. split; [exact Hge|]. simpl.
    unfold threatenedBorder in Hwb. apply andb_true_iff in Hwb as [Ho _].
    split; [exact Ho|exact Hb].
  - clear Hfort. destruct (Strategies.goldAtLeast p 80) eqn:Hgold.
    + destruct (Strategies.firstDecision _ _) as [d'|] eqn:Hfirst.
      * intros [= <-]. right. right.
        apply firstDecision_Some in Hfirst as (c & _ & Hc).
        destruct (Strategies.findNearbyEmptyTerritories ts c) as [|e es] eqn:He;
          [discriminate|].
        injection Hc as <-.
        destruct (pick_member (Strategies.dd_wall draws) (e :: es))
          as (t & Hpick & Hin); [discriminate|].
        rewrite <- He in Hin.
        apply findNearbyEmptyTerritories_In in Hin as (Hin & Ho & Hwall).
        apply goldAtLeast_gold in Hgold as (gold & Hg & Hge).
        exists t, wall, gold. rewrite Hpick.
        split; [reflexivity|]. split; [exact Hin|].
        split; [exact Hg|]. split; [exact Hge|]. simpl. tauto.
      * intros [= <-]. right. left. exists w.
        split; [reflexivity|]. split; [exact Hw|]. split; [exact Hwb|].
        intros t Ht Hb. apply (sortByKey_head_min t_troops _ _ _ Hs).
        unfold threatenedBorder in Hb. apply andb_true_iff in Hb as [Ho Hb].
        apply filter_In. split; [|exact Hb].
        apply filter_In. split; [exact Ht|exact Ho].
    + intros [= <-]. right. left. exists w.
      split; [reflexivity|]. split; [exact Hw|]. split; [exact Hwb|].
      intros t Ht Hb. apply (sortByKey_head_min t_troops _ _ _ Hs).
      unfold threatenedBorder in Hb. apply andb_true_iff in Hb as [Ho Hb].
      apply filter_In. split; [|exact Hb].
      apply filter_In. split; [exact Ht|exact Ho].
Qed.

Lemma chooseBuilding_sound owned empty border wallable gold draws type otarget :
  Strategies.chooseBuilding owned empty border wallable gold draws
  = Some (type, otarget) ->
  empty <> [] ->
  buildingCosts type <= gold
  /\ exists target,
       otarget = Some target
       /\ if decide (type = wall)
          then In target wallable \/ In target empty
          else In target empty
               \/ In target (List.filter Strategies.noBuildingNoWall border).
Proof.
  intros H Hne. revert H. unfold Strategies.chooseBuilding.
  destruct (pick_member (Strategies.bd_target draws) empty Hne)
    as (t0 & -> & Hin0).
  cbv zeta.
  assert (Hplain : forall type, type <> wall -> buildingCosts type <= gold ->
            buildingCosts type <= gold
            /\ exists target,
                 Some t0 = Some target
                 /\ if decide (type = wall)
                    then In target wallable \/ In target empty
                    else In target empty
                         \/ In target
                              (List.filter Strategies.noBuildingNoWall border)).
  { intros ty Hty Hc. split; [exact Hc|]. exists t0. split; [reflexivity|].
    destruct (decide (ty = wall)); [contradiction|]. left. exact Hin0. }
  next_test.
  { intros [= <- <-]. gold_facts. apply Hplain; [discriminate|simpl; lia]. }
  next_test.
  { intros [= <- <-]. gold_facts. apply Hplain; [discriminate|simpl; lia]. }
  next_test.
  { intros [= <- <-]. gold_facts. apply Hplain; [discriminate|simpl; lia]. }
  next_test.
  { intros [= <- <-]. gold_facts. apply Hplain; [discriminate|simpl; lia]. }
  next_test.
  { intros [= <- <-]. gold_facts. split; [simpl; lia|].
    destruct (List.filter Strategies.noBuildingNoWall border) as [|b bs] eqn:Hb.
    - exists t0. split; [reflexivity|]. left. exact Hin0.
    - destruct (pick_member (Strategies.bd_border draws) (b :: bs))
        as (t & Ht & Hin); [discriminate|].
      exists t. split; [exact Ht|]. right. exact Hin. }
  next_test.
  { intros [= <- <-]. gold_facts. apply Hplain; [discriminate|simpl; lia]. }
  next_test.
  { intros [= <- <-]. gold_facts. split; [simpl; lia|].
    match goal with H : negb _ = true |- _ =>
      apply negb_true_iff, bool_decide_eq_false in H; rename H into Hw end.
    destruct (pick_member (Strategies.bd_wall draws) wallable Hw)
      as (t & Ht & Hin).
    exists t. split; [exact Ht|]. left. exact Hin. }
  next_test.
  { intros [= <- <-]. gold_facts.
    repeat match goal with
           | |- context [SFltb ?a ?b] => destruct (SFltb a b)
           end; apply Hplain; try discriminate; simpl; lia. }
  next_test.
  { intros [= <- <-]. gold_facts.
    repeat match goal with
           | |- context [SFltb ?a ?b] => destruct (SFltb a b)
           end; apply Hplain; try discriminate; simpl; lia. }
  next_test.
  { intros [= <- <-]. gold_facts. apply Hplain; [discriminate|simpl; lia]. }
  next_test.
  { intros [= <- <-]. gold_facts. apply Hplain; [discriminate|simpl; lia]. }
  next_test; [|discriminate].
  intros [= <- <-]. gold_facts. split; [simpl; lia|].
  destruct wallable as [|b bs].
  - exists t0. split; [reflexivity|]. right. exact Hin0.
  - destruct (pick_member (Strategies.bd_lowWall draws) (b :: bs))
      as (t & Ht & Hin); [discriminate|].
    exists t. split; [exact Ht|]. left. exact Hin.
Qed.

Lemma buildingStrategy_sound ts p draws d :
  Strategies.buildingStrategy ts (List.filter (ownedBy (p_id p)) ts) p draws
  = Some d ->
  soundBuild ts p d.
Proof.
  unfold Strategies.buildingStrategy.
  destruct (p_gold p) as [gold|] eqn:Hg; [|discriminate].
  destruct ((gold =? 0) || (gold <? 80)); [discriminate|].
  set (owned := List.filter (ownedBy (p_id p)) ts).
  destruct (List.filter Strategies.noBuildingNoWall owned) as [|e es] eqn:He;
    [discriminate|].
  rewrite <- He.
  set (border := List.filter _ owned).
  set (wallable := flat_map _ border).
  destruct (Strategies.chooseBuilding _ _ _ _ _ _) as [[type otarget]|] eqn:Hc;
    [|discriminate].
  apply chooseBuilding_sound in Hc as (Hcost & target & -> & Htarget);
    [|rewrite He; discriminate].
  cbn [mbind option_bind]. intros [= <-].
  assert (Hempty : forall t, In t (List.filter Strategies.noBuildingNoWall owned) ->
            In t ts /\ ownedBy (p_id p) t = true
            /\ t_building t = None /\ t_wall t = false).
  { intros t Ht. apply filter_In in Ht as [Ht Hn].
    apply filter_In in Ht as [Ht Ho].
    apply noBuildingNoWall_true in Hn. tauto. }
  assert (Hborder : forall t,
            In t (List.filter Strategies.noBuildingNoWall border) ->
            In t ts /\ ownedBy (p_id p) t = true
            /\ t_building t = None /\ t_wall t = false).
  { intros t Ht. apply filter_In in Ht as [Ht Hn].
    apply filter_In in Ht as [Ht _]. apply filter_In in Ht as [Ht Ho].
    apply noBuildingNoWall_true in Hn. tauto. }
  assert (Hwallable : forall t, In t wallable ->
            In t ts /\ t_owner t = None /\ t_wall t = false).
  { intros t Ht. apply in_flat_map in Ht as (b & _ & Ht).
    apply findNearbyEmptyTerritories_In in Ht. exact Ht. }
  assert (Hsound : forall t,
            (if decide (type = wall)
             then In t wallable
                  \/ In t (List.filter Strategies.noBuildingNoWall owned)
             else In t (List.filter Strategies.noBuildingNoWall owned)
                  \/ In t (List.filter Strategies.noBuildingNoWall border)) ->
            soundBuild ts p (mkDecision build None (Some t) (Some type))).
  { intros t Ht. exists t, type, gold. split; [reflexivity|].
    destruct (decide (type = wall)).
    - destruct Ht as [Ht|Ht].
      + apply Hwallable in Ht. tauto.
      + apply Hempty in Ht. tauto.
    - destruct Ht as [Ht|Ht]; [apply Hempty in Ht|apply Hborder in Ht]; tauto. }
  destruct (decide (type = fort)) as [->|Hnf]; [|apply Hsound; exact Htarget].
  destruct (List.filter Strategies.noBuildingNoWall border) as [|b bs] eqn:Hb;
    [apply Hsound; exact Htarget|].
  destruct (pick_member (Strategies.bd_fort draws) (b :: bs))
    as (t & -> & Hin); [discriminate|].
  apply Hsound. simpl. right. exact Hin.
Qed.

Lemma head_noBuildingNoWall ts p target gold type :
  head (List.filter Strategies.noBuildingNoWall
          (List.filter (ownedBy (p_id p)) ts)) = Some target ->
  p_gold p = Some gold -> buildingCosts type <= gold -> type <> wall ->
  soundBuild ts p (buildOf target type).
Proof.
  intros Hh Hg Hc Hty. exists target, type, gold. split; [reflexivity|].
  assert (Hin : In target (List.filter Strategies.noBuildingNoWall
                             (List.filter (ownedBy (p_id p)) ts))).
  { destruct (List.filter _ _) as [|x xs]; [discriminate|].
    injection Hh as ->. left. reflexivity. }
  apply filter_In in Hin as [Hin Hn]. apply filter_In in Hin as [Hin Ho].
  apply noBuildingNoWall_true in Hn.
  destruct (decide (type = wall)); [contradiction|]. tauto.
Qed.

Lemma expansionStrategy_sound ts p draws d :
  Strategies.expansionStrategy ts (List.filter (ownedBy (p_id p)) ts) p draws
  = Some d ->
  soundDecision ts p d.
Proof.
  unfold Strategies.expansionStrategy.
  set (owned := List.filter (ownedBy (p_id p)) ts).
  destruct (List.filter (fun t => t_troops t >=? 5) owned) as [|c cs] eqn:Hc;
    [discriminate|].
  rewrite <- Hc.
  destruct (Strategies.firstDecision _ _) as [d'|] eqn:Hfirst.
  - intros [= <-]. left.
    apply firstDecision_Some in Hfirst as (source & Hsrc & Hbody).
    apply filter_In in Hsrc as [Hsrc Htroops].
    apply filter_In in Hsrc as [Hsrc Hown]. apply Z.geb_le in Htroops.
    destruct (sortByKey t_troops _) as [|target rest] eqn:Hs; [discriminate|].
    injection Hbody as <-.
    apply sortByKey_head_In in Hs. apply filter_In in Hs as [Hadj Hcan].
    apply findAdjacentTerritories_In in Hadj as [Hin Hwall].
    apply andb_true_iff in Hcan as [Hcan Hless].
    apply andb_true_iff in Hcan as [_ Hnot]. apply negb_true_iff in Hnot.
    apply Z.ltb_lt in Hless.
    exists source, target. tauto.
  - destruct (Strategies.goldAtLeast p 120 && _) eqn:Hb.
    + destruct (head _) as [target|] eqn:Hh.
      * intros [= <-]. right. right.
        apply andb_true_iff in Hb as [Hb _].
        apply goldAtLeast_gold in Hb as (gold & Hg & Hge).
        apply (head_noBuildingNoWall _ _ _ gold); auto; discriminate.
      * destruct (Strategies.goldAtLeast p 150 && _); intros H; right; right;
          exact (buildingStrategy_sound _ _ _ _ H).
    + destruct (Strategies.goldAtLeast p 150 && _) eqn:Hm.
      * destruct (head _) as [target|] eqn:Hh.
        -- intros [= <-]. right. right.
           apply andb_true_iff in Hm as [Hm _].
           apply goldAtLeast_gold in Hm as (gold & Hg & Hge).
           apply (head_noBuildingNoWall _ _ _ gold); auto; discriminate.
        -- intros H; right; right. exact (buildingStrategy_sound _ _ _ _ H).
      * intros H; right; right. exact (buildingStrategy_sound _ _ _ _ H).
Qed.

Lemma aggressiveStrategy_sound ts p draws d :
  Strategies.aggressiveStrategy ts (List.filter (ownedBy (p_id p)) ts) p draws
  = Some d ->
  soundDecision ts p d.
Proof.
  unfold Strategies.aggressiveStrategy.
  set (owned := List.filter (ownedBy (p_id p)) ts).
  destruct (List.filter (fun t => t_troops t >=? 8) owned) as [|c cs] eqn:Hc;
    [discriminate|].
  rewrite <- Hc.
  destruct (List.filter (fun t => ownedBy "player1" t && negb (t_wall t)) ts)
    as [|h hs] eqn:Hh; [apply expansionStrategy_sound|].
  rewrite <- Hh.
  destruct (Strategies.firstDecision _ _) as [d'|] eqn:Hfirst.
  - intros [= <-]. left.
    apply firstDecision_Some in Hfirst as (source & Hsrc & Hbody).
    apply filter_In in Hsrc as [Hsrc Htroops].
    apply filter_In in Hsrc as [Hsrc Hown]. apply Z.geb_le in Htroops.
    destruct (sortByKey Strategies.defenseOf _) as [|target rest] eqn:Hs;
      [discriminate|].
    destruct (SFltb _ _); [|discriminate]. injection Hbody as <-.
    apply sortByKey_head_In in Hs. apply filter_In in Hs as [Hpl _].
    apply filter_In in Hpl as [Hin Hpl].
    apply andb_true_iff in Hpl as [Hhuman Hwall].
    apply negb_true_iff in Hwall.
    exists source, target. split; [reflexivity|]. split; [exact Hsrc|].
    split; [exact Hin|]. split; [exact Hown|]. split; [lia|].
    split; [exact Hwall|]. right. exact Hhuman.
  - destruct (Strategies.goldAtLeast p 200) eqn:Hg; [|discriminate].
    destruct (List.filter Strategies.noBuildingNoWall owned) as [|t rest] eqn:Hn;
      [discriminate|].
    intros [= <-]. right. right.
    apply goldAtLeast_gold in Hg as (gold & Hg & Hge).
    apply (head_noBuildingNoWall _ _ _ gold);
      [fold owned; rewrite Hn; reflexivity|exact Hg|exact Hge|discriminate].
Qed.

Lemma balancedStrategy_sound ts p gameDay threatLevel draws d :
  Strategies.balancedStrategy ts (List.filter (ownedBy (p_id p)) ts) p gameDay
    threatLevel draws = Some d ->
  soundDecision ts p d.
Proof.
  unfold Strategies.balancedStrategy, Strategies.orElse.
  repeat match goal with
         | |- context [if ?b then _ else None] => destruct b
         end;
    repeat match goal with
           | |- match ?x with Some _ => _ | None => _ end = _ -> _ =>
               let H := fresh "H" in destruct x eqn:H;
               [first [apply buildingStrategy_sound in H
                      |apply defensiveStrategy_sound in H
                      |apply expansionStrategy_sound in H]|]
           end;
    try (intros [= <-]; first [assumption|right; right; assumption]);
    try (intros H'; apply expansionStrategy_sound in H'; assumption);
    try discriminate.
Qed.

(** What [makeAIDecisions] returns: the player object with at most its
    personality set, and a decision that the strategies' rules allow. *)
Lemma makeAIDecisions_sound ts p gameDay draws d p' :
  Strategies.makeAIDecisions ts p gameDay draws = (Some d, p') ->
  p_id p' = p_id p /\ p_gold p' = p_gold p /\ p_name p' = p_name p
  /\ p_color p' = p_color p /\ soundDecision ts p' d.
Proof.
  unfold Strategies.makeAIDecisions.
  destruct (List.filter (ownedBy (p_id p)) ts) as [|o os] eqn:Ho;
    [discriminate|].
  rewrite <- Ho.
  set (q := match p_personality p with
            | Some EmptyString | None => _
            | Some (String _ _) => p
            end).
  assert (Hq : p_id q = p_id p /\ p_gold q = p_gold p /\ p_name q = p_name p
               /\ p_color q = p_color p).
  { subst q. destruct (p_personality p) as [[|? ?]|]; simpl; tauto. }
  destruct Hq as (Hqid & Hqgold & Hqname & Hqcolor).
  intros [= Hd <-]. split; [exact Hqid|]. split; [exact Hqgold|].
  split; [exact Hqname|]. split; [exact Hqcolor|].
  rewrite <- Hqid in Hd. revert Hd.
  destruct (SFltb _ _); [apply defensiveStrategy_sound|].
  destruct (_ || _); [apply expansionStrategy_sound|].
  destruct (_ || _);
    [intros H; right; right; exact (buildingStrategy_sound _ _ _ _ H)|].
  destruct (bool_decide _); [apply aggressiveStrategy_sound|].
  apply balancedStrategy_sound.
Qed.

Lemma sound_attack_only ts p d :
  soundDecision ts p d -> d_action d = attack -> soundAttack ts p d.
Proof.
  intros [H|[(t & -> & _)|(t & ty & g & -> & _)]] Ha;
    [exact H|discriminate Ha|discriminate Ha].
Qed.

Lemma sound_defend_only ts p d :
  soundDecision ts p d -> d_action d = defend -> soundDefend ts p d.
Proof.
  intros [(s & t & -> & _)|[H|(t & ty & g & -> & _)]] Ha;
    [discriminate Ha|exact H|discriminate Ha].
Qed.

Lemma sound_build_only ts p d :
  soundDecision ts p d -> d_action d = build -> soundBuild ts p d.
Proof.
  intros [(s & t & -> & _)|[(t & -> & _)|H]] Ha;
    [discriminate Ha|discriminate Ha|exact H].
Qed.

Lemma findIndex_member ts t :
  distinctCoords ts -> In t ts ->
  exists i, findIndex (sameCoords t) ts = Some i /\ ts !! i = Some t.
Proof.
  intros Hd Hin. pose proof (firstAt_member ts t Hd Hin) as H.
  unfold firstAt in H.
  destruct (findIndex (sameCoords t) ts) as [i|]; [|discriminate H].
  exists i. split; [reflexivity|exact H].
Qed.

Lemma buildingCosts_wall_least type : 80 <= buildingCosts type.
Proof. destruct type; simpl; lia. Qed.

(** X14. An attack that [makeAIDecisions] proposes for a computer player
    starts from a territory of that player with at least 5 troops and
    aims at a territory of the grid that is no wall and is not the
    player's own; the target has fewer troops than the source unless it
    belongs to the human player. *)
Theorem proposed_attacks_are_sound ts p gameDay draws d p' :
  p_id p <> "player1"%string ->
  Strategies.makeAIDecisions ts p gameDay draws = (Some d, p') ->
  d_action d = attack ->
  exists source target,
    d = attackOf source target
    /\ In source ts /\ In target ts
    /\ ownedBy (p_id p) source = true /\ 5 <= t_troops source
    /\ t_wall target = false
    /\ ownedBy (p_id p) target = false
    /\ (t_troops target < t_troops source
        \/ ownedBy "player1" target = true).
Proof.
  intros Hid Hm Ha.
  apply makeAIDecisions_sound in Hm as (Hpid & _ & _ & _ & Hs).
  apply sound_attack_only in Hs; [|exact Ha].
  destruct Hs as (source & target & -> & Hsrc & Htgt & Hown & Htroops
                  & Hwall & Hkind).
  rewrite Hpid in *.
  exists source, target. split; [reflexivity|]. split; [exact Hsrc|].
  split; [exact Htgt|]. split; [exact Hown|]. split; [exact Htroops|].
  split; [exact Hwall|].
  destruct Hkind as [[Hnot Hless]|Hhuman].
  - split; [exact Hnot|left; exact Hless].
  - split; [|right; exact Hhuman].
    unfold ownedBy in *. destruct (t_owner target) as [o|]; [|reflexivity].
    apply bool_decide_eq_true in Hhuman. apply bool_decide_eq_false.
    congruence.
Qed.

Lemma proposed_attacks_are_sound_witness :
  exists source target,
    attackOf ai1Cell neutralCell = attackOf source target
    /\ In source [ai1Cell; neutralCell] /\ In target [ai1Cell; neutralCell]
    /\ ownedBy (p_id ai1) source = true /\ 5 <= t_troops source
    /\ t_wall target = false
    /\ ownedBy (p_id ai1) target = false
    /\ (t_troops target < t_troops source
        \/ ownedBy "player1" target = true).
Proof.
  apply (proposed_attacks_are_sound [ai1Cell; neutralCell] ai1 1 zeroDraws
           (attackOf ai1Cell neutralCell) ai1).
  - vm_compute. discriminate.
  - vm_compute. reflexivity.
  - reflexivity.
Defined.

(** X15. A reinforcement that [makeAIDecisions] proposes goes to the
    player's weakest border territory: a territory of the player with a
    neighbour in range owned by somebody else, and with no more troops
    than any other such territory. *)
Theorem proposed_defence_is_weakest_border ts p gameDay draws d p' :
  Strategies.makeAIDecisions ts p gameDay draws = (Some d, p') ->
  d_action d = defend ->
  exists target,
    d = defendOf target
    /\ In target ts
    /\ threatenedBorder ts (p_id p) target = true
    /\ forall t, In t ts -> threatenedBorder ts (p_id p) t = true ->
                 t_troops target <= t_troops t.
Proof.
  intros Hm Ha.
  apply makeAIDecisions_sound in Hm as (Hpid & _ & _ & _ & Hs).
  apply sound_defend_only in Hs; [|exact Ha].
  unfold soundDefend in Hs. rewrite Hpid in Hs. exact Hs.
Qed.

Lemma proposed_defence_is_weakest_border_witness :
  exists target,
    defendOf ai1Cell = defendOf target
    /\ In target [ai1Cell; strongNeighbour]
    /\ threatenedBorder [ai1Cell; strongNeighbour] (p_id ai1) target = true
    /\ forall t, In t [ai1Cell; strongNeighbour] ->
                 threatenedBorder [ai1Cell; strongNeighbour] (p_id ai1) t = true ->
                 t_troops target <= t_troops t.
Proof.
  apply (proposed_defence_is_weakest_border [ai1Cell; strongNeighbour] ai1 1
           zeroDraws (defendOf ai1Cell) ai1).
  - vm_compute. reflexivity.
  - reflexivity.
Defined.

(** What [processAIAction] does with a build that the strategies' rules
    allow, on a grid with distinct coordinates. *)
Lemma processAIAction_sound_build ts p d :
  distinctCoords ts -> soundBuild ts p d ->
  exists target type i gold,
    d = buildOf target type
    /\ ts !! i = Some target
    /\ p_gold p = Some gold /\ buildingCosts type <= gold
    /\ (type <> wall -> ownedBy (p_id p) target = true)
    /\ AI.processAIAction ts d p
       = Some (if decide (type = wall)
               then if bool_decide (t_owner target = None)
                    then <[i := walled p target]> ts
                    else ts
               else <[i := set_building (Some (mkBuilding type 1)) target]> ts,
               set_gold (Some (gold - buildingCosts type)) p).
Proof.
  intros Hd (target & type & gold & -> & Hin & Hg & Hcost & Hshape).
  destruct (findIndex_member ts target Hd Hin) as (i & Hi & Hti).
  assert (Hlt : (i < length ts)%nat) by (eapply lookup_lt_Some; exact Hti).
  exists target, type, i, gold. split; [reflexivity|]. split; [exact Hti|].
  split; [exact Hg|]. split; [exact Hcost|].
  split; [intros Hty; destruct (decide (type = wall)); [contradiction|tauto]|].
  unfold AI.processAIAction, buildOf. cbn [d_action d_target d_buildingType].
  rewrite Hi. unfold AI.resolveBuild. rewrite Hg.
  pose proof (buildingCosts_wall_least type) as Hleast.
  replace (negb (gold =? 0) && (gold >=? buildingCosts type)) with true
    by (symmetry; apply andb_true_iff; split;
        [apply negb_true_iff; lia|lia]).
  rewrite Hti. cbn [mbind option_bind].
  destruct (decide (type = wall)) as [->|Hty].
  - case_bool_decide as Ho; [|reflexivity].
    repeat step_update_with update_Some. rewrite !list_insert_insert_eq.
    reflexivity.
  - destruct Hshape as [Hown _]. cbn [p_id set_gold]. rewrite Hown.
    step_update_with update_Some. reflexivity.
Qed.

(** X16. On a grid with distinct coordinates, every build that
    [makeAIDecisions] proposes is within the player's gold and
    [processAIAction] charges its cost. A building other than a wall is
    put on the proposed territory, which is the player's own; a wall is
    put there if the territory has no owner, and otherwise the grid
    stays as it is. *)
Theorem proposed_builds_are_paid ts p gameDay draws d p' :
  distinctCoords ts ->
  Strategies.makeAIDecisions ts p gameDay draws = (Some d, p') ->
  d_action d = build ->
  exists target type i gold,
    d = buildOf target type
    /\ ts !! i = Some target
    /\ p_gold p = Some gold /\ buildingCosts type <= gold
    /\ (type <> wall -> ownedBy (p_id p) target = true)
    /\ AI.processAIAction ts d p'
       = Some (if decide (type = wall)
               then if bool_decide (t_owner target = None)
                    then <[i := walled p' target]> ts
                    else ts
               else <[i := set_building (Some (mkBuilding type 1)) target]> ts,
               set_gold (Some (gold - buildingCosts type)) p').
Proof.
  intros Hd Hm Ha.
  apply makeAIDecisions_sound in Hm as (Hpid & Hpgold & _ & _ & Hs).
  apply sound_build_only in Hs; [|exact Ha].
  destruct (processAIAction_sound_build ts p' d Hd Hs)
    as (target & type & i & gold & Hdec & Hti & Hg & Hcost & Hown & Hrun).
  exists target, type, i, gold. rewrite <- Hpid, <- Hpgold. tauto.
Qed.

Lemma proposed_builds_are_paid_witness :
  exists target type i gold,
    buildOf ai1Cell barracks = buildOf target type
    /\ [ai1Cell] !! i = Some target
    /\ p_gold ai1 = Some gold /\ buildingCosts type <= gold
    /\ (type <> wall -> ownedBy (p_id ai1) target = true)
    /\ AI.processAIAction [ai1Cell] (buildOf ai1Cell barracks) ai1
       = Some (if decide (type = wall)
               then if bool_decide (t_owner target = None)
                    then <[i := walled ai1 target]> [ai1Cell]
                    else [ai1Cell]
               else <[i := set_building (Some (mkBuilding type 1)) target]>
                      [ai1Cell],
               set_gold (Some (gold - buildingCosts type)) ai1).
Proof.
  apply (proposed_builds_are_paid [ai1Cell] ai1 1 eagerDraws
           (buildOf ai1Cell barracks) ai1).
  - apply (bool_decide_unpack _). vm_compute. exact I.
  - vm_compute. reflexivity.
  - reflexivity.
Defined.

Lemma filter_nil {A : Type} (f : A -> bool) (l : list A) :
  (forall x, In x l -> f x = false) -> List.filter f l = [].
Proof.
  induction l as [|a l IH]; intros H; simpl; [reflexivity|].
  rewrite (H a) by (left; reflexivity). apply IH.
  intros x Hx. apply H. right. exact Hx.
Qed.

Lemma flat_map_nil {A B : Type} (f : A -> list B) (l : list A) :
  (forall x, f x = []) -> flat_map f l = [].
Proof.
  intros H. induction l as [|a l IH]; simpl; [reflexivity|].
  rewrite H, IH. reflexivity.
Qed.

(** X17. When every territory of the grid is owned or a wall, a player
    with at least 80 and less than 100 gold and a territory free to
    build on gets from [buildingStrategy] a wall on a territory of its
    own, and [processAIAction] takes the 80 gold for it and builds
    nothing. *)
Theorem buildingStrategy_wall_on_own_territory ts p draws gold :
  distinctCoords ts ->
  p_gold p = Some gold -> 80 <= gold < 100 ->
  (forall t, In t ts -> t_owner t = None -> t_wall t = true) ->
  List.filter Strategies.noBuildingNoWall
    (List.filter (ownedBy (p_id p)) ts) <> [] ->
  exists target,
    Strategies.buildingStrategy ts (List.filter (ownedBy (p_id p)) ts) p draws
    = Some (buildOf target wall)
    /\ ownedBy (p_id p) target = true
    /\ AI.processAIAction ts (buildOf target wall) p
       = Some (ts, set_gold (Some (gold - 80)) p).
Proof.
  intros Hd Hg Hrange Hfull Hne.
  destruct (pick_member (Strategies.bd_target draws) _ Hne)
    as (target & Hpick & Hin).
  assert (Hbs : Strategies.buildingStrategy ts
                  (List.filter (ownedBy (p_id p)) ts) p draws
                = Some (buildOf target wall)).
  { unfold Strategies.buildingStrategy. rewrite Hg.
    replace ((gold =? 0) || (gold <? 80)) with false
      by (symmetry; apply orb_false_iff; split; lia).
    destruct (List.filter Strategies.noBuildingNoWall _) as [|e es] eqn:He;
      [congruence|].
    rewrite flat_map_nil.
    2:{ intros b. apply filter_nil. intros t Ht.
        destruct (t_owner t) eqn:Ho.
        - rewrite andb_false_iff. left. rewrite andb_false_iff. right.
          apply bool_decide_eq_false. congruence.
        - rewrite (Hfull t Ht Ho). apply andb_false_r. }
    unfold Strategies.chooseBuilding. cbv zeta.
    replace (gold >=? 150) with false by lia.
    replace (gold >=? 120) with false by lia.
    replace (gold >=? 200) with false by lia.
    replace (gold >=? 100) with false by lia.
    replace (gold >=? 300) with false by lia.
    replace (gold >=? 80) with true by lia.
    rewrite !andb_false_r. cbn [negb andb bool_decide decide_rel].
    rewrite Hpick. reflexivity. }
  exists target. split; [exact Hbs|].
  apply filter_In in Hin as [Hin _]. apply filter_In in Hin as [Hin Hown].
  split; [exact Hown|].
  destruct (findIndex_member ts target Hd Hin) as (i & Hi & Hti).
  unfold AI.processAIAction, buildOf. cbn [d_action d_target d_buildingType].
  rewrite Hi. unfold AI.resolveBuild. rewrite Hg.
  replace (negb (gold =? 0) && (gold >=? buildingCosts wall)) with true
    by (symmetry; apply andb_true_iff; split;
        [apply negb_true_iff; lia|simpl; lia]).
  rewrite Hti. cbn [mbind option_bind].
  destruct (decide (wall = wall)) as [_|Hw]; [|contradiction].
  case_bool_decide as Ho; [|reflexivity].
  unfold ownedBy in Hown. rewrite Ho in Hown. discriminate Hown.
Qed.

Lemma buildingStrategy_wall_on_own_territory_witness :
  exists target,
    Strategies.buildingStrategy [ai1Cell]
      (List.filter (ownedBy (p_id poorAi1)) [ai1Cell]) poorAi1
      zeroBuildingDraws
    = Some (buildOf target wall)
    /\ ownedBy (p_id poorAi1) target = true
    /\ AI.processAIAction [ai1Cell] (buildOf target wall) poorAi1
       = Some ([ai1Cell], set_gold (Some (90 - 80)) poorAi1).
Proof.
  apply (buildingStrategy_wall_on_own_territory [ai1Cell] poorAi1
           zeroBuildingDraws 90).
  - apply (bool_decide_unpack _). vm_compute. exact I.
  - reflexivity.
  - lia.
  - intros t [<-|[]] Ho. discriminate Ho.
  - vm_compute. discriminate.
Defined.

(** ** Legal actions in the simulator *)

Lemma legal_actions_cases ts p a :
  In a (Neural.getLegalActions ts p) ->
  (exists source target, a = attackOf source target /\ t_wall target = false)
  \/ (exists target,
        a = defendOf target /\ In target ts
        /\ ownedBy (p_id p) target = true)
  \/ (exists target type,
        a = buildOf target type /\ In target ts
        /\ buildingCosts type <= goldOr0 p
        /\ if decide (type = wall)
           then t_owner target = None /\ t_wall target = false
           else ownedBy (p_id p) target = true /\ t_building target = None).
Proof.
  unfold Neural.getLegalActions. intros Hin.
  apply in_app_or in Hin as [Hin|Hin]; [|apply in_app_or in Hin as [Hin|Hin]].
  - left. unfold Neural.attackActions in Hin.
    apply in_flat_map in Hin as (s & _ & Hin).
    destruct (t_troops s <? 5); [destruct Hin|].
    apply in_flat_map in Hin as (t & _ & Hin).
    destruct (ownedBy (p_id p) t); [destruct Hin|].
    destruct (t_wall t) eqn:Hwall; [destruct Hin|].
    destruct (t_troops s >? t_troops t); [|destruct Hin].
    destruct Hin as [<-|[]]. exists s, t. split; [reflexivity|exact Hwall].
  - right. left. apply in_map_iff in Hin as (t & <- & Ht).
    apply filter_In in Ht as [Ht _]. apply filter_In in Ht as [Ht Ho].
    exists t. split; [reflexivity|]. split; [exact Ht|exact Ho].
  - right. right. destruct (goldOr0 p >=? 80); [|destruct Hin].
    apply in_app_or in Hin as [Hin|Hin].
    + apply in_flat_map in Hin as (target & Ht & Hin).
      apply in_flat_map in Hin as ([type cost] & He & Hin).
      destruct (Z.ltb_spec (goldOr0 p) cost) as [?|Hcost]; [destruct Hin|].
      destruct (decide (type = wall)) as [?|Hty]; [destruct Hin|].
      destruct Hin as [<-|[]].
      unfold Neural.buildingCostEntries in He.
      apply in_map_iff in He as (b & [= <- <-] & _).
      apply filter_In in Ht as [Ht Hfree]. apply filter_In in Ht as [Ht Ho].
      apply andb_true_iff in Hfree as [Hb _]. apply bool_decide_eq_true in Hb.
      exists target, b. split; [reflexivity|]. split; [exact Ht|].
      split; [exact Hcost|].
      destruct (decide (b = wall)); [contradiction|]. tauto.
    + destruct (Z.geb_spec (goldOr0 p) (buildingCosts wall)) as [Hcost|?];
        [|destruct Hin].
      apply in_map_iff in Hin as (t & <- & Ht).
      apply in_flat_map in Ht as (b & _ & Ht).
      apply filter_In in Ht as [Ht Hfree].
      apply andb_true_iff in Hfree as [Hfree Hw].
      apply andb_true_iff in Hfree as [_ Ho].
      apply bool_decide_eq_true in Ho. apply negb_true_iff in Hw.
      exists t, wall. split; [reflexivity|]. split; [exact Ht|].
      split; [exact Hcost|]. simpl. tauto.
Qed.

(** X18. On a grid with distinct coordinates, every build that
    [getLegalActions] enumerates is carried out by [executeAction]: the
    player can pay it, the cost is taken, and the building is put on the
    target, a wall turning the unowned target into a wall of the
    player. *)
Theorem legal_builds_are_carried_out ts p a :
  distinctCoords ts ->
  In a (Neural.getLegalActions ts p) ->
  d_action a = build ->
  exists target type i,
    a = buildOf target type
    /\ ts !! i = Some target
    /\ buildingCosts type <= goldOr0 p
    /\ Simulator.executeAction ts a p
       = Some (<[i := if decide (type = wall) then walled p target
                      else set_building (Some (mkBuilding type 1)) target]> ts,
               set_gold (Some (goldOr0 p - buildingCosts type)) p).
Proof.
  intros Hd Hin Ha.
  apply legal_actions_cases in Hin
    as [(s & t & -> & _)|[(t & -> & _)
                          |(target & type & -> & Hin & Hcost & Hshape)]];
    [discriminate Ha|discriminate Ha|].
  destruct (findIndex_member ts target Hd Hin) as (i & Hi & Hti).
  assert (Hlt : (i < length ts)%nat) by (eapply lookup_lt_Some; exact Hti).
  exists target, type, i. split; [reflexivity|]. split; [exact Hti|].
  split; [exact Hcost|].
  unfold Simulator.executeAction, buildOf.
  cbn [d_action d_target d_buildingType].
  rewrite Hi. unfold Simulator.resolveBuild.
  replace (goldOr0 p <? buildingCosts type) with false by lia.
  rewrite Hti. cbn [mbind option_bind].
  destruct (decide (type = wall)) as [->|Hty].
  - destruct Hshape as [Ho _]. rewrite bool_decide_eq_true_2 by exact Ho.
    repeat step_update_with update_Some. rewrite !list_insert_insert_eq.
    reflexivity.
  - destruct Hshape as [Hown _]. cbn [p_id set_gold]. rewrite Hown.
    step_update_with update_Some. reflexivity.
Qed.

Lemma legal_builds_are_carried_out_witness :
  exists target type i,
    buildOf ai1Cell fort = buildOf target type
    /\ [ai1Cell] !! i = Some target
    /\ buildingCosts type <= goldOr0 ai1
    /\ Simulator.executeAction [ai1Cell] (buildOf ai1Cell fort) ai1
       = Some (<[i := if decide (type = wall) then walled ai1 target
                      else set_building (Some (mkBuilding type 1)) target]>
                 [ai1Cell],
               set_gold (Some (goldOr0 ai1 - buildingCosts type)) ai1).
Proof.
  apply (legal_builds_are_carried_out [ai1Cell] ai1 (buildOf ai1Cell fort)).
  - apply (bool_decide_unpack _). vm_compute. exact I.
  - vm_compute. left. reflexivity.
  - reflexivity.
Defined.

(** X19. On a grid with distinct coordinates, every reinforcement that
    [getLegalActions] enumerates is carried out by [executeAction]: its
    target is a territory of the player, and it gets 5 troops. *)
Theorem legal_defends_are_carried_out ts p a :
  distinctCoords ts ->
  In a (Neural.getLegalActions ts p) ->
  d_action a = defend ->
  exists target i,
    a = defendOf target
    /\ ts !! i = Some target
    /\ ownedBy (p_id p) target = true
    /\ Simulator.executeAction ts a p
       = Some (<[i := set_troops (t_troops target + 5) target]> ts, p).
Proof.
  intros Hd Hin Ha.
  apply legal_actions_cases in Hin
    as [(s & t & -> & _)|[(target & -> & Hin & Hown)|(t & ty & -> & _)]];
    [discriminate Ha| |discriminate Ha].
  destruct (findIndex_member ts target Hd Hin) as (i & Hi & Hti).
  assert (Hlt : (i < length ts)%nat) by (eapply lookup_lt_Some; exact Hti).
  exists target, i. split; [reflexivity|]. split; [exact Hti|].
  split; [exact Hown|].
  unfold Simulator.executeAction, defendOf. cbn [d_action d_target].
  rewrite Hi, Hti. cbn [mbind option_bind]. rewrite Hown.
  step_update_with update_Some. reflexivity.
Qed.

Lemma legal_defends_are_carried_out_witness :
  exists target i,
    defendOf ai1Cell = defendOf target
    /\ [ai1Cell; strongNeighbour] !! i = Some target
    /\ ownedBy (p_id ai1) target = true
    /\ Simulator.executeAction [ai1Cell; strongNeighbour] (defendOf ai1Cell) ai1
       = Some (<[i := set_troops (t_troops target + 5) target]>
                 [ai1Cell; strongNeighbour], ai1).
Proof.
  apply (legal_defends_are_carried_out [ai1Cell; strongNeighbour] ai1
           (defendOf ai1Cell)).
  - apply (bool_decide_unpack _). vm_compute. exact I.
  - vm_compute. left. reflexivity.
  - reflexivity.
Defined.

(** ** The click handler as a whole *)

Lemma buildClick_returns ts clickedIndex selected gold playerName :
  (clickedIndex < length ts)%nat ->
  exists ts' gold' placed,
    Client.buildClick ts clickedIndex selected gold playerName
    = Some (ts', gold', placed)
    /\ length ts' = length ts
    /\ ((placed = false /\ gold' = gold)
        \/ (placed = true /\ buildingCosts selected <= gold
            /\ gold' = gold - buildingCosts selected)).
Proof.
  intros Hlt. destruct (lookup_lt_is_Some_2 ts clickedIndex Hlt) as [c Hc].
  unfold Client.buildClick. rewrite Hc. cbn [mbind option_bind].
  destruct (decide (selected = wall)) as [->|Hsel].
  - case_bool_decide as Ho; [|eexists _, _, _; split; [reflexivity|tauto]].
    destruct (Z.geb_spec gold (buildingCosts wall)) as [Hge|?];
      [|eexists _, _, _; split; [reflexivity|tauto]].
    repeat step_update_with update_Some.
    eexists _, _, _. split; [reflexivity|].
    rewrite !length_insert. split; [reflexivity|]. right. tauto.
  - destruct (ownedBy "player1" c);
      [|eexists _, _, _; split; [reflexivity|tauto]].
    case_bool_decide as Hb; [eexists _, _, _; split; [reflexivity|tauto]|].
    destruct (Z.geb_spec gold (buildingCosts selected)) as [Hge|?];
      [|eexists _, _, _; split; [reflexivity|tauto]].
    step_update_with update_Some.
    eexists _, _, _. split; [reflexivity|].
    rewrite !length_insert. split; [reflexivity|]. right. tauto.
Qed.

Lemma lookup_map {A B : Type} (f : A -> B) (l : list A) (j : nat) (a : A) :
  l !! j = Some a -> map f l !! j = Some (f a).
Proof.
  revert j. induction l as [|x l IH]; intros [|j] H; simpl in *;
    try discriminate.
  - injection H as ->. reflexivity.
  - exact (IH j H).
Qed.

(** The callback of the handler's [findIndex] finds a territory exactly
    when the grid has one at the tile. *)
Lemma findIndex_at_tile ts (x y : Z) :
  match findIndex (fun t => (t_x t =? x) && (t_y t =? y)) ts with
  | Some i => exists c, ts !! i = Some c /\ coords c = (x, y)
  | None => forall t, In t ts -> coords t <> (x, y)
  end.
Proof.
  destruct (findIndex _ ts) as [i|] eqn:Hi.
  - apply findIndex_Some in Hi as (c & Hc & Hp). exists c.
    split; [exact Hc|]. apply andb_true_iff in Hp as [Hx Hy].
    unfold coords. f_equal; lia.
  - intros t Hin Hcoords. pose proof (findIndex_None _ _ Hi t Hin) as Hp.
    cbv beta in Hp. unfold coords in Hcoords. injection Hcoords as Hx Hy.
    rewrite Hx, Hy, !Z.eqb_refl in Hp. discriminate Hp.
Qed.

(** X20. The click handler always returns, keeps the size of the grid
    and never overdraws the player: the gold does not grow, it stays at
    0 or above, and it shrinks only on a click that leaves the building
    mode. A click on a tile without territory changes nothing. After a
    click on a tile with a territory the player has claimed land; if the
    player had not before, the click is free and claims the land around
    the tile: every territory within distance 2 of it belongs to
    player1 and holds 10 troops, the territories on the tile itself have
    a barracks, and the others are as before. *)
Theorem click_never_overdraws (s : Client.Session) x y playerName :
  0 <= Client.playerGold s ->
  exists s',
    Client.handleCanvasClick s x y playerName = Some s'
    /\ length (Client.territories s') = length (Client.territories s)
    /\ 0 <= Client.playerGold s' <= Client.playerGold s
    /\ (Client.playerGold s' < Client.playerGold s ->
        Client.buildingMode s = true /\ Client.buildingMode s' = false)
    /\ ((forall t, In t (Client.territories s) -> coords t <> (x, y)) ->
        s' = s)
    /\ (forall t, In t (Client.territories s) -> coords t = (x, y) ->
        Client.hasClaimedTerritory s' = true
        /\ (Client.hasClaimedTerritory s = false ->
            Client.playerGold s' = Client.playerGold s
            /\ forall j c,
                 Client.territories s !! j = Some c ->
                 exists c',
                   Client.territories s' !! j = Some c'
                   /\ if withinDistance (t_x c - x) (t_y c - y) 2
                      then ownedBy "player1" c' = true
                           /\ t_troops c' = 10
                           /\ (coords c = (x, y) ->
                               t_building c'
                               = Some (mkBuilding barracks 1))
                      else c' = c)).
Proof.
  intros Hgold. unfold Client.handleCanvasClick.
  pose proof (findIndex_at_tile (Client.territories s) x y) as Htile.
  destruct (findIndex _ (Client.territories s)) as [clickedIndex|].
  2:{ exists s. split; [reflexivity|]. split; [reflexivity|].
      split; [lia|]. split; [lia|]. split; [reflexivity|].
      intros t Hin Hc. destruct (Htile t Hin Hc). }
  destruct Htile as (c0 & Hc0 & Hcoords0).
  assert (Hlt : (clickedIndex < length (Client.territories s))%nat)
    by (eapply lookup_lt_Some; exact Hc0).
  assert (Hhit : forall P : Prop,
            (forall t, In t (Client.territories s) -> coords t <> (x, y)) -> P).
  { intros P Hnone. exfalso. apply (Hnone c0); [|exact Hcoords0].
    apply list_elem_of_In. eapply list_elem_of_lookup_2. exact Hc0. }
  destruct (Client.hasClaimedTerritory s) eqn:Hclaimed; cbn [negb].
  - destruct (Client.buildingMode s) eqn:Hmode.
    + destruct (Client.selectedBuildingType s) as [selected|] eqn:Hsel.
      * destruct (buildClick_returns (Client.territories s) clickedIndex
                    selected (Client.playerGold s) playerName Hlt)
          as (ts' & gold' & placed & -> & Hlen & Hcases).
        pose proof (buildingCosts_wall_least selected) as Hleast.
        destruct Hcases as [[-> ->]|(-> & Hge & ->)].
        -- eexists. split; [reflexivity|]. cbn. split; [exact Hlen|].
           split; [lia|]. split; [lia|]. split; [apply Hhit|].
           intros t _ _. split; [reflexivity|discriminate].
        -- eexists. split; [reflexivity|]. cbn. split; [exact Hlen|].
           split; [lia|]. split; [tauto|]. split; [apply Hhit|].
           intros t _ _. split; [reflexivity|discriminate].
      * destruct (handleCanvasClick_returns (Client.territories s)
                    clickedIndex playerName Hlt) as (ts' & -> & Hlen).
        cbn [mbind option_bind]. eexists. split; [reflexivity|]. cbn.
        split; [exact Hlen|]. split; [lia|]. split; [lia|].
        split; [apply Hhit|].
        intros t _ _. split; [reflexivity|discriminate].
    + destruct (handleCanvasClick_returns (Client.territories s)
                  clickedIndex playerName Hlt) as (ts' & -> & Hlen).
      destruct (Client.selectedBuildingType s);
        cbn [mbind option_bind]; eexists; (split; [reflexivity|]); cbn;
        (split; [exact Hlen|]); (split; [lia|]); (split; [lia|]);
        (split; [apply Hhit|]);
        intros t _ _; (split; [reflexivity|discriminate]).
  - unfold Client.claimTerritories. rewrite Hc0. cbn [mbind option_bind].
    eexists. split; [reflexivity|].
    cbn [Client.territories Client.playerGold Client.hasClaimedTerritory
         Client.buildingMode].
    rewrite length_map.
    split; [reflexivity|]. split; [lia|]. split; [lia|].
    split; [apply Hhit|].
    intros t _ _. split; [reflexivity|]. intros _. split; [reflexivity|].
    intros j c Hc. eexists. split; [apply lookup_map; exact Hc|].
    unfold coords in Hcoords0. injection Hcoords0 as Hx Hy.
    cbv zeta. rewrite Hx, Hy.
    destruct (withinDistance (t_x c - x) (t_y c - y) 2); [|reflexivity].
    split; [destruct (_ =? 0); reflexivity|].
    split; [destruct (_ =? 0); reflexivity|].
    intros [= -> ->]. rewrite !Z.sub_diag. reflexivity.
Qed.

Lemma click_never_overdraws_witness :
  exists s',
    Client.handleCanvasClick
      (Client.mkSession [neutralCell] 500 false false None) 1 0 "Ann"
    = Some s'
    /\ 0 <= Client.playerGold s' <= 500
    /\ Client.hasClaimedTerritory s' = true.
Proof.
  destruct (click_never_overdraws
              (Client.mkSession [neutralCell] 500 false false None)
              1 0 "Ann") as (s' & E & _ & Hrange & _ & _ & Hhit);
    [simpl; lia|].
  exists s'. split; [exact E|]. split; [exact Hrange|].
  apply (Hhit neutralCell); [left; reflexivity|reflexivity].
Defined.

(** ** The coordinates of the grid *)

Lemma update_keeps_coords i f ts ts' :
  (forall c, coords (f c) = coords c) ->
  update i f ts = Some ts' -> map coords ts' = map coords ts.
Proof.
  intros Hf. unfold update. destruct (ts !! i) as [c|] eqn:Hc; [|discriminate].
  intros [= <-]. revert i Hc.
  induction ts as [|t ts IH]; intros [|i] Hc; simpl in *; try discriminate.
  - injection Hc as ->. rewrite Hf. reflexivity.
  - rewrite (IH i Hc). reflexivity.
Qed.

Lemma processAIAction_keeps_coords ts a p ts' p' :
  AI.processAIAction ts a p = Some (ts', p') ->
  map coords ts' = map coords ts.
Proof.
  unfold AI.processAIAction, AI.resolveAttack, AI.resolveBuild. intros H.
  trace_run_with update_keeps_coords; congruence.
Qed.

Lemma executeAction_keeps_coords ts a p ts' p' :
  Simulator.executeAction ts a p = Some (ts', p') ->
  map coords ts' = map coords ts.
Proof.
  unfold Simulator.executeAction, Simulator.resolveAttack,
    Simulator.resolveBuild. intros H.
  trace_run_with update_keeps_coords; congruence.
Qed.

Lemma handleCanvasClick_keeps_coords ts clickedIndex playerName ts' :
  Page.handleCanvasClick ts clickedIndex playerName = Some ts' ->
  map coords ts' = map coords ts.
Proof.
  unfold Page.handleCanvasClick, Page.attackBranch, Page.moveBranch. intros H.
  trace_run_with update_keeps_coords; congruence.
Qed.

Lemma updatePlayers_keeps_coords players : forall ts draws i ts' players',
  GameSimulator.updatePlayers ts players draws i = Some (ts', players') ->
  map coords ts' = map coords ts.
Proof.
  induction players as [|player rest IH]; intros ts draws i ts' players' H;
    simpl in H.
  - injection H as <- _. reflexivity.
  - destruct (GameSimulator.updatePlayer ts player (draws i))
      as [[ts1 player1]|] eqn:E1; [|discriminate H].
    cbn [mbind option_bind] in H.
    destruct (GameSimulator.updatePlayers ts1 rest draws (S i))
      as [[ts2 rest2]|] eqn:E2; [|discriminate H].
    cbn [mbind option_bind] in H. injection H as <- _.
    rewrite (IH _ _ _ _ _ E2). clear IH E2.
    unfold GameSimulator.updatePlayer in E1.
    destruct (GameSimulator.playerCounters ts player) as [[? ?] ?].
    trace_run_with update_keeps_coords; congruence.
Qed.

Lemma executeAITurn_keeps_coords ts player attackRoll k1 k2 k3 ts' player' :
  GameSimulator.executeAITurn ts player attackRoll k1 k2 k3
  = Some (ts', player') ->
  map coords ts' = map coords ts.
Proof.
  unfold GameSimulator.executeAITurn. intros H.
  repeat match goal with
         | H : Simulator.executeAction _ _ _ = Some _ |- _ =>
             apply executeAction_keeps_coords in H
         | H : None = Some _ |- _ => discriminate H
         | H : Some _ = Some _ |- _ => injection H as H
         | H : (_, _) = (_, _) |- _ => injection H as H
         | H : (if ?b then _ else _) = Some _ |- _ => destruct b
         | H : match ?x with _ => _ end = Some _ |- _ => destruct x eqn:?
         end; congruence.
Qed.

Lemma claimTerritories_keeps_coords ts clickedIndex playerName ts' :
  Client.claimTerritories ts clickedIndex playerName = Some ts' ->
  map coords ts' = map coords ts.
Proof.
  unfold Client.claimTerritories.
  destruct (ts !! clickedIndex) as [c|]; [|discriminate].
  cbn [mbind option_bind]. intros [= <-]. rewrite map_map.
  apply map_ext. intros t. cbv zeta. repeat case_match; reflexivity.
Qed.

Lemma clientClick_keeps_coords s x y playerName s' :
  Client.handleCanvasClick s x y playerName = Some s' ->
  map coords (Client.territories s') = map coords (Client.territories s).
Proof.
  unfold Client.handleCanvasClick. intros H.
  destruct (findIndex _ (Client.territories s)) as [clickedIndex|];
    [|injection H as <-; reflexivity].
  destruct (negb (Client.hasClaimedTerritory s)).
  - destruct (Client.claimTerritories _ _ _) as [ts|] eqn:E; [|discriminate H].
    cbn [mbind option_bind] in H. injection H as <-.
    exact (claimTerritories_keeps_coords _ _ _ _ E).
  - assert (Hpage : forall ts,
              Page.handleCanvasClick (Client.territories s) clickedIndex
                playerName = Some ts ->
              map coords ts = map coords (Client.territories s))
      by (intros ts; apply handleCanvasClick_keeps_coords).
    destruct (Client.buildingMode s), (Client.selectedBuildingType s)
      as [selected|];
      try (destruct (Page.handleCanvasClick _ _ _) as [ts|] eqn:E;
           [|discriminate H];
           cbn [mbind option_bind] in H; injection H as <-;
           exact (Hpage _ eq_refl)).
    destruct (Client.buildClick _ _ _ _ _) as [[[ts gold] placed]|] eqn:E;
      [|discriminate H].
    assert (Hts : map coords ts = map coords (Client.territories s)).
    { clear H. unfold Client.buildClick in E.
      trace_run_with update_keeps_coords; congruence. }
    destruct placed; injection H as <-; exact Hts.
Qed.

Lemma updatePlayers_returns players : forall ts draws i,
  exists ts' players',
    GameSimulator.updatePlayers ts players draws i = Some (ts', players').
Proof.
  induction players as [|player rest IH]; intros ts draws i; simpl;
    [eauto|].
  destruct (updatePlayer_spec ts player (draws i)) as (ts1 & -> & _).
  cbn [mbind option_bind].
  destruct (IH ts1 draws (S i)) as (ts2 & rest2 & ->).
  cbn [mbind option_bind]. eauto.
Qed.

Lemma executeAITurn_returns ts player attackRoll k1 k2 k3 :
  exists ts' player',
    GameSimulator.executeAITurn ts player attackRoll k1 k2 k3
    = Some (ts', player').
Proof.
  assert (Hrun : forall a, exists ts' player',
            Simulator.executeAction ts a player = Some (ts', player')).
  { intros a. destruct (executeAction_returns ts a player)
      as (ts' & player' & E & _). eauto. }
  unfold GameSimulator.executeAITurn.
  repeat case_match; first [apply Hrun|eauto].
Qed.

Lemma clientClick_returns s x y playerName :
  exists s', Client.handleCanvasClick s x y playerName = Some s'.
Proof.
  unfold Client.handleCanvasClick.
  destruct (findIndex _ (Client.territories s)) as [clickedIndex|] eqn:Hci;
    [|eauto].
  apply findIndex_Some in Hci as (c & Hc & _).
  assert (Hlt : (clickedIndex < length (Client.territories s))%nat)
    by (eapply lookup_lt_Some; exact Hc).
  destruct (handleCanvasClick_returns (Client.territories s) clickedIndex
              playerName Hlt) as (ts1 & Hpage & _).
  destruct (negb (Client.hasClaimedTerritory s)).
  - unfold Client.claimTerritories. rewrite Hc. cbn [mbind option_bind]. eauto.
  - destruct (Client.buildingMode s), (Client.selectedBuildingType s)
      as [selected|]; try (rewrite Hpage; cbn [mbind option_bind]; eauto).
    destruct (buildClick_returns (Client.territories s) clickedIndex selected
                (Client.playerGold s) playerName Hlt)
      as (ts' & gold' & placed & -> & _). eauto.
Qed.

(** X21. Nothing that acts on the grid moves, adds or removes a
    territory: [processAIAction], [executeAction], a turn of a simulated
    opponent, the daily update of the simulator and a click of the
    player all return, and the grid they leave lists the same
    coordinates in the same order. So a grid with distinct coordinates
    stays one. *)
Theorem grid_coordinates_are_kept ts :
  (forall a p, exists ts' p',
     AI.processAIAction ts a p = Some (ts', p')
     /\ map coords ts' = map coords ts)
  /\ (forall a p, exists ts' p',
        Simulator.executeAction ts a p = Some (ts', p')
        /\ map coords ts' = map coords ts)
  /\ (forall player attackRoll k1 k2 k3, exists ts' player',
        GameSimulator.executeAITurn ts player attackRoll k1 k2 k3
        = Some (ts', player')
        /\ map coords ts' = map coords ts)
  /\ (forall players draws, exists ts' players',
        GameSimulator.updateGameState ts players draws = Some (ts', players')
        /\ map coords ts' = map coords ts)
  /\ (forall gold claimed mode selected x y playerName, exists s',
        Client.handleCanvasClick
          (Client.mkSession ts gold claimed mode selected) x y playerName
        = Some s'
        /\ map coords (Client.territories s') = map coords ts).
Proof.
  split; [|split; [|split; [|split]]].
  - intros a p. destruct (processAIAction_returns ts a p) as (ts' & p' & E & _).
    exists ts', p'. split; [exact E|].
    exact (processAIAction_keeps_coords _ _ _ _ _ E).
  - intros a p. destruct (executeAction_returns ts a p) as (ts' & p' & E & _).
    exists ts', p'. split; [exact E|].
    exact (executeAction_keeps_coords _ _ _ _ _ E).
  - intros player r k1 k2 k3.
    destruct (executeAITurn_returns ts player r k1 k2 k3) as (ts' & p' & E).
    exists ts', p'. split; [exact E|].
    exact (executeAITurn_keeps_coords _ _ _ _ _ _ _ _ E).
  - intros players draws.
    destruct (updatePlayers_returns players ts draws 0) as (ts' & ps' & E).
    exists ts', ps'. split; [exact E|].
    exact (updatePlayers_keeps_coords _ _ _ _ _ _ E).
  - intros gold claimed mode selected x y playerName.
    destruct (clientClick_returns
                (Client.mkSession ts gold claimed mode selected) x y playerName)
      as (s' & E).
    exists s'. split; [exact E|].
    exact (clientClick_keeps_coords _ _ _ _ _ E).
Qed.

(** ** The generated map *)

Lemma imap_keeps_coords (f : nat -> Territory -> Territory) l :
  (forall i t, coords (f i t) = coords t) ->
  map coords (imap f l) = map coords l.
Proof.
  revert f. induction l as [|t l IH]; intros f Hf; [reflexivity|].
  simpl. rewrite Hf, IH; [reflexivity|]. intros i t'. apply Hf.
Qed.

Lemma imap_In (f : nat -> Territory -> Territory) l t :
  In t (imap f l) -> exists i t0, In t0 l /\ t = f i t0.
Proof.
  revert f. induction l as [|t0 l IH]; intros f; simpl; [tauto|].
  intros [<-|H].
  - exists 0%nat, t0. split; [left; reflexivity|reflexivity].
  - destruct (IH _ H) as (i & t1 & Hin & ->).
    exists (S i), t1. split; [right; exact Hin|reflexivity].
Qed.

Lemma imap_length (f : nat -> Territory -> Territory) l :
  length (imap f l) = length l.
Proof.
  revert f. induction l as [|t l IH]; intros f; simpl; [reflexivity|].
  rewrite IH. reflexivity.
Qed.

Lemma addTerrain_coords random t :
  coords (MapGenerator.addTerrain random t) = coords t.
Proof.
  unfold MapGenerator.addTerrain. repeat case_match; reflexivity.
Qed.

(** The rows of a grid: their length and their coordinates. *)
Lemma rows_length {A : Type} (g : nat -> nat -> A) (xs ys : list nat) :
  length (flat_map (fun y => map (g y) xs) ys) = (length ys * length xs)%nat.
Proof.
  induction ys as [|y ys IH]; simpl; [reflexivity|].
  rewrite length_app, length_map, IH. reflexivity.
Qed.

Lemma rows_In (xs ys : list nat) (x y : Z) :
  In (x, y)
     (flat_map (fun b => map (fun a => (Z.of_nat a, Z.of_nat b)) xs) ys)
  <-> exists a b, In a xs /\ In b ys /\ x = Z.of_nat a /\ y = Z.of_nat b.
Proof.
  rewrite in_flat_map. split.
  - intros (b & Hb & H). apply in_map_iff in H as (a & [= <- <-] & Ha).
    exists a, b. tauto.
  - intros (a & b & Ha & Hb & -> & ->). exists b. split; [exact Hb|].
    apply in_map_iff. exists a. split; [reflexivity|exact Ha].
Qed.

Lemma rows_NoDup (xs ys : list nat) :
  NoDup xs -> NoDup ys ->
  NoDup (flat_map (fun b => map (fun a => (Z.of_nat a, Z.of_nat b)) xs) ys).
Proof.
  intros Hx Hy. induction Hy as [|b ys Hb Hy IH]; simpl; [constructor|].
  apply NoDup_app. split; [|split; [|exact IH]].
  - assert (Hinj : Inj eq eq (fun a : nat => (Z.of_nat a, Z.of_nat b)))
      by (intros a a' [= H]; lia).
    exact (@NoDup_fmap_2 _ _ _ Hinj xs Hx).
  - intros [x y] Hin Hrest.
    apply list_elem_of_In in Hin, Hrest.
    apply in_map_iff in Hin as (a & [= <- <-] & _).
    apply rows_In in Hrest as (a' & b' & _ & Hb' & _ & Heq).
    apply Nat2Z.inj in Heq. subst b'. apply Hb. apply list_elem_of_In.
    exact Hb'.
Qed.

Lemma generateRandomMap_coords width height troopsDraw goldDraw terrainRoll :
  map coords
    (MapGenerator.generateRandomMap width height troopsDraw goldDraw
       terrainRoll)
  = flat_map (fun b => map (fun a => (Z.of_nat a, Z.of_nat b)) (seq 0 width))
      (seq 0 height).
Proof.
  unfold MapGenerator.generateRandomMap. cbv zeta.
  rewrite imap_keeps_coords by (intros i t; apply addTerrain_coords).
  induction (seq 0 height) as [|y ys IH]; simpl; [reflexivity|].
  rewrite map_app, IH, map_map. reflexivity.
Qed.

(** X22. The map that the simulator generates is a full grid: it has
    width times height territories, their coordinates are the pairs
    (x, y) with 0 <= x < width and 0 <= y < height, each once, and every
    territory is without owner, building and wall and holds between 0
    and 5 troops. *)
Theorem generated_map_is_a_grid width height troopsDraw goldDraw terrainRoll :
  length (MapGenerator.generateRandomMap width height troopsDraw goldDraw
            terrainRoll) = (height * width)%nat
  /\ distinctCoords
       (MapGenerator.generateRandomMap width height troopsDraw goldDraw
          terrainRoll)
  /\ (forall x y,
        In (x, y)
           (map coords
              (MapGenerator.generateRandomMap width height troopsDraw
                 goldDraw terrainRoll))
        <-> 0 <= x < Z.of_nat width /\ 0 <= y < Z.of_nat height)
  /\ (forall t,
        In t (MapGenerator.generateRandomMap width height troopsDraw goldDraw
                terrainRoll) ->
        t_owner t = None /\ t_building t = None /\ t_wall t = false
        /\ 0 <= t_troops t <= 5).
Proof.
  split; [|split; [|split]].
  - unfold MapGenerator.generateRandomMap. cbv zeta.
    rewrite imap_length, rows_length, !length_seq. reflexivity.
  - unfold distinctCoords. rewrite generateRandomMap_coords.
    apply rows_NoDup; apply NoDup_ListNoDup, List.seq_NoDup.
  - intros x y. rewrite generateRandomMap_coords, rows_In. split.
    + intros (a & b & Ha & Hb & -> & ->).
      apply in_seq in Ha, Hb. lia.
    + intros [Hx Hy]. exists (Z.to_nat x), (Z.to_nat y).
      rewrite !in_seq. lia.
  - intros t Ht. unfold MapGenerator.generateRandomMap in Ht. cbv zeta in Ht.
    apply imap_In in Ht as (i & t0 & Ht0 & ->).
    apply in_flat_map in Ht0 as (y & _ & Ht0).
    apply in_map_iff in Ht0 as (x & <- & _).
    pose proof (Nat.mod_upper_bound (troopsDraw (y * width + x)%nat) 5).
    unfold MapGenerator.addTerrain, MapGenerator.newTerritory.
    repeat case_match; simpl; repeat split; lia.
Qed.

(** ** The reward of a day of an episode *)

Lemma chooseAction_returns explore draw qValues ts legalActions :
  legalActions <> [] ->
  exists a,
    NeuralAI.chooseAction explore draw qValues ts legalActions = Some a.
Proof.
  intros Hne. unfold NeuralAI.chooseAction.
  destruct explore; [|destruct qValues as [q|]].
  - destruct (pick_member draw legalActions Hne) as (a & Ha & _). eauto.
  - destruct (head_sortByScoreDesc (NeuralAI.actionScore q ts) legalActions Hne)
      as (pre & a & post & _ & Hhead & _). eauto.
  - destruct (pick_member draw legalActions Hne) as (a & Ha & _). eauto.
Qed.

Lemma executeAction_keeps_id ts d p ts' p' :
  Simulator.executeAction ts d p = Some (ts', p') -> p_id p' = p_id p.
Proof.
  intros H. apply executeAction_player in H as [->|(bt & _ & _ & _ & ->)];
    reflexivity.
Qed.

Lemma opponentsTurns_returns opponents : forall ts draws i,
  exists ts' opponents',
    GameSimulator.opponentsTurns ts opponents draws i = Some (ts', opponents').
Proof.
  induction opponents as [|p rest IH]; intros ts draws i; simpl; [eauto|].
  destruct (executeAITurn_returns ts p (GameSimulator.day_attackRoll draws i)
              (GameSimulator.day_source draws i)
              (GameSimulator.day_target draws i)
              (GameSimulator.day_type draws i)) as (ts1 & p1 & ->).
  cbn [mbind option_bind].
  destruct (IH ts1 draws (S i)) as (ts2 & rest2 & ->).
  cbn [mbind option_bind]. eauto.
Qed.

Lemma updatePlayers_head ts player rest draws i :
  exists ts' player' rest',
    GameSimulator.updatePlayers ts (player :: rest) draws i
    = Some (ts', player' :: rest')
    /\ p_id player' = p_id player.
Proof.
  cbn [GameSimulator.updatePlayers].
  destruct (updatePlayer_spec ts player (draws i)) as (ts1 & -> & _).
  cbn [mbind option_bind].
  destruct (updatePlayers_returns rest ts1 draws (S i)) as (ts2 & rest2 & ->).
  cbn [mbind option_bind]. eexists _, _, _. split; reflexivity.
Qed.

(** The three counts of [calculateReward] depend on the player only
    through its id. *)
Lemma counts_by_id ts p q :
  p_id p = p_id q ->
  Neural.territoryCount (Neural.mkGameState ts p)
  = Neural.territoryCount (Neural.mkGameState ts q)
  /\ Neural.troopCount (Neural.mkGameState ts p)
     = Neural.troopCount (Neural.mkGameState ts q)
  /\ Neural.buildingCount (Neural.mkGameState ts p)
     = Neural.buildingCount (Neural.mkGameState ts q).
Proof.
  intros H. unfold Neural.territoryCount, Neural.troopCount,
    Neural.buildingCount. cbn [Neural.s_player Neural.s_territories].
  rewrite H. repeat split; reflexivity.
Qed.

(** C9 (fails in every episode). [calculateReward] computes the
    weighted sum of the four differences of the two states that it is
    given: for a state pair with differences +2, +50, -10 and +1 it
    returns 25. But [runEpisode] hands it, as the state before, an array
    of the territory objects that the day has changed in place. So on
    every day the differences in territories, troops and buildings are
    0, and the reward is 0.1 times the gold gained, whatever else
    happened: 5 for a day with a gain of 50 gold. On the day on which the neural player captures its
    neighbour on [captureGrid] the reward is 1, where the weighted sum
    of the differences between the morning and the evening (+1
    territory, +10 gold, -2 troops) is 10. The 100 for the winner is
    added once, at the end of the episode: that episode totals 101. *)
Theorem runEpisode_rewards_gold_only :
  (forall territories neuralPlayer opponents gameDay draws,
     exists r neuralPlayer',
       GameSimulator.runDay territories (neuralPlayer :: opponents) gameDay
         draws = Some r
       /\ head (GameSimulator.r_players r) = Some neuralPlayer'
       /\ GameSimulator.r_reward r
          = Neural.weightedSum 0 (goldOr0 neuralPlayer' - goldOr0 neuralPlayer)
              0 0)
  /\ GameSimulator.runDay captureGrid [neuralPlayer] 0 firstActionDraws
     = Some (GameSimulator.mkDayResult capturedGrid [neuralPlayerNextDay] true
               (JS.of_int 1))
  /\ Neural.calculateReward (Neural.mkGameState captureGrid neuralPlayer)
       (Neural.mkGameState capturedGrid neuralPlayerNextDay)
     = JS.of_int 10
  /\ Neural.calculateReward stateBefore stateAfter = JS.of_int 25
  /\ Neural.weightedSum 0 50 0 0 = JS.of_int 5
  /\ GameSimulator.runEpisode captureGrid [neuralPlayer] 0
       (fun _ => firstActionDraws)
     = Some (GameSimulator.mkEpisodeResult (JS.of_int 101) 2 510 8 0 true).
Proof.
  split; [|repeat split; vm_compute; reflexivity].
  intros ts p opponents gameDay draws. unfold GameSimulator.runDay.
  assert (Hturn : exists ts1 p1,
            match Neural.getLegalActions ts p with
            | [] => Some (ts, p)
            | _ :: _ =>
                action ← NeuralAI.chooseAction (GameSimulator.day_explore draws)
                           (GameSimulator.day_action draws)
                           (GameSimulator.day_qValues draws) ts
                           (Neural.getLegalActions ts p);
                Simulator.executeAction ts action p
            end = Some (ts1, p1)
            /\ p_id p1 = p_id p).
  { destruct (Neural.getLegalActions ts p) as [|a0 rest] eqn:Hlegal;
      [eexists _, _; split; reflexivity|].
    destruct (chooseAction_returns (GameSimulator.day_explore draws)
                (GameSimulator.day_action draws)
                (GameSimulator.day_qValues draws) ts (a0 :: rest))
      as (a & ->); [discriminate|].
    cbn [mbind option_bind].
    destruct (executeAction_returns ts a p) as (ts1 & p1 & E & _).
    exists ts1, p1. split; [exact E|].
    exact (executeAction_keeps_id _ _ _ _ _ E). }
  destruct Hturn as (ts1 & p1 & -> & Hid1). cbn [mbind option_bind].
  destruct (opponentsTurns_returns opponents ts1 draws 1)
    as (ts2 & opponents2 & ->).
  cbn [mbind option_bind].
  destruct (updatePlayers_head ts2 p1 opponents2
              (GameSimulator.day_growth draws) 0)
    as (ts3 & p3 & rest3 & E3 & Hid3).
  unfold GameSimulator.updateGameState. rewrite E3.
  cbn [mbind option_bind head].
  eexists _, p3. split; [reflexivity|]. split; [reflexivity|].
  cbn [GameSimulator.r_reward]. unfold Neural.calculateReward.
  destruct (counts_by_id ts3 p3 p) as (-> & -> & ->); [congruence|].
  cbn [Neural.s_player]. rewrite !Z.sub_diag. reflexivity.
Qed.

(** ** What the resolvers reject, and what they are never asked *)

Lemma executeAITurn_as_action ts player attackRoll k1 k2 k3 :
  GameSimulator.executeAITurn ts player attackRoll k1 k2 k3
  = match aiTurnAction ts player attackRoll k1 k2 k3 with
    | Some a => Simulator.executeAction ts a player
    | None => Some (ts, player)
    end.
Proof.
  unfold GameSimulator.executeAITurn, aiTurnAction.
  repeat case_match; reflexivity.
Qed.

Lemma aiTurnAction_within_rules ts player attackRoll k1 k2 k3 a :
  aiTurnAction ts player attackRoll k1 k2 k3 = Some a ->
  withinUntestedRules a.
Proof.
  unfold aiTurnAction.
  destruct (List.filter (ownedBy (p_id player)) ts) as [|o os] eqn:Ho;
    [discriminate|].
  rewrite <- Ho. destruct (_ && attackRoll).
  - destruct (pick k1 _) as [source|]; [|discriminate].
    destruct (sortByKey t_troops _) as [|target rest] eqn:Hs; [discriminate|].
    intros [= <-]. apply sortByKey_head_In in Hs.
    apply filter_In in Hs as [_ Hcan].
    apply andb_true_iff in Hcan as [Hcan _].
    apply andb_true_iff in Hcan as [Hwall _]. apply negb_true_iff in Hwall.
    exists target. split; [reflexivity|exact Hwall].
  - destruct (goldOr0 player >=? 80).
    + destruct (pick k2 _) as [target|] eqn:Hpick; [|discriminate].
      intros [= <-]. apply pick_filter_member in Hpick as [_ Hfree].
      apply andb_true_iff in Hfree as [Hb _]. apply bool_decide_eq_true in Hb.
      eexists target, _. split; [reflexivity|]. split; [reflexivity|].
      intros _. exact Hb.
    + destruct (sortByKey t_troops _); [discriminate|].
      intros [= <-]. exact I.
Qed.

Lemma legal_action_within_rules ts p a :
  In a (Neural.getLegalActions ts p) -> withinUntestedRules a.
Proof.
  intros Hin.
  apply legal_actions_cases in Hin
    as [(s & t & -> & Hwall)|[(t & -> & _)|(t & ty & -> & _ & _ & Hshape)]].
  - exists t. split; [reflexivity|exact Hwall].
  - exact I.
  - exists t, ty. split; [reflexivity|]. split; [reflexivity|].
    intros Hty. destruct (decide (ty = wall)); [contradiction|tauto].
Qed.

Lemma proposed_decision_within_rules ts p gameDay draws d p' :
  Strategies.makeAIDecisions ts p gameDay draws = (Some d, p') ->
  withinUntestedRules d.
Proof.
  intros H. apply makeAIDecisions_sound in H as (_ & _ & _ & _ & Hs).
  destruct Hs as [(s & t & -> & _ & _ & _ & _ & Hwall & _)
                 |[(t & -> & _)|(t & ty & g & -> & _ & _ & _ & Hshape)]].
  - exists t. split; [reflexivity|exact Hwall].
  - exact I.
  - exists t, ty. split; [reflexivity|]. split; [reflexivity|].
    intros Hty. destruct (decide (ty = wall)); [contradiction|tauto].
Qed.

(** A wall aimed at a territory that has an owner leaves the grid as it
    is, in both resolvers. *)
Lemma wall_on_owned_cell ts target p i (c : Territory) :
  findIndex (sameCoords target) ts = Some i ->
  ts !! i = Some c -> t_owner c <> None ->
  fst <$> AI.processAIAction ts (buildOf target wall) p = Some ts
  /\ fst <$> Simulator.executeAction ts (buildOf target wall) p = Some ts.
Proof.
  intros Hi Hc Ho.
  unfold AI.processAIAction, Simulator.executeAction, buildOf.
  cbn [d_action d_target d_buildingType]. rewrite Hi.
  unfold AI.resolveBuild, Simulator.resolveBuild. rewrite Hc.
  cbn [mbind option_bind].
  rewrite bool_decide_eq_false_2 by exact Ho.
  split; repeat case_match; try reflexivity; congruence.
Qed.

(** C3, amended. Neither resolver ever raises: each returns a grid of
    the same size. Each returns the grid unchanged, with the player
    unchanged, for a build that the player cannot pay and for an action
    with a coordinate that matches no territory; and the grid unchanged
    for a wall aimed at a territory that has an owner. Neither tests for
    an attack on a wall or for a building on the target of a build; but
    no caller asks for them: the actions of [getLegalActions], the
    decision of [makeAIDecisions] and the action that [executeAITurn]
    hands on never attack a wall, and build nothing but a wall on a
    territory that has a building. *)
Theorem resolvers_reject_what_they_test ts d p :
  (exists ts' p',
     AI.processAIAction ts d p = Some (ts', p') /\ length ts' = length ts)
  /\ (exists ts' p',
        Simulator.executeAction ts d p = Some (ts', p')
        /\ length ts' = length ts)
  /\ (forall target type,
        d = buildOf target type -> goldOr0 p < buildingCosts type ->
        AI.processAIAction ts d p = Some (ts, p)
        /\ Simulator.executeAction ts d p = Some (ts, p))
  /\ (forall target i c,
        d = buildOf target wall ->
        findIndex (sameCoords target) ts = Some i ->
        ts !! i = Some c -> t_owner c <> None ->
        fst <$> AI.processAIAction ts d p = Some ts
        /\ fst <$> Simulator.executeAction ts d p = Some ts)
  /\ (forall c,
        (d_action d = attack /\ (d_source d = Some c \/ d_target d = Some c)
         \/ d_action d <> attack /\ d_target d = Some c) ->
        findIndex (sameCoords c) ts = None ->
        AI.processAIAction ts d p = Some (ts, p)
        /\ Simulator.executeAction ts d p = Some (ts, p))
  /\ (In d (Neural.getLegalActions ts p) -> withinUntestedRules d)
  /\ (forall gameDay draws p',
        Strategies.makeAIDecisions ts p gameDay draws = (Some d, p') ->
        withinUntestedRules d)
  /\ (forall attackRoll k1 k2 k3,
        GameSimulator.executeAITurn ts p attackRoll k1 k2 k3
        = match aiTurnAction ts p attackRoll k1 k2 k3 with
          | Some a => Simulator.executeAction ts a p
          | None => Some (ts, p)
          end
        /\ (aiTurnAction ts p attackRoll k1 k2 k3 = Some d ->
            withinUntestedRules d)).
Proof.
  split; [apply processAIAction_returns|].
  split; [apply executeAction_returns|].
  split; [intros target type -> Hgold; apply build_insufficient_gold; exact Hgold|].
  split; [intros target i c -> Hi Hc Ho;
          exact (wall_on_owned_cell ts target p i c Hi Hc Ho)|].
  split.
  { intros c Hd Hmiss. split.
    - exact (processAIAction_missing_territory ts d p c Hd Hmiss).
    - exact (executeAction_missing_territory ts d p c Hd Hmiss). }
  split; [apply legal_action_within_rules|].
  split; [intros gameDay draws p'; apply proposed_decision_within_rules|].
  intros attackRoll k1 k2 k3.
  split; [apply executeAITurn_as_action|apply aiTurnAction_within_rules].
Qed.

(** ** Where the daily troop lands *)

Lemma troopsOf_insert id ts i (c : Territory) n :
  ts !! i = Some c ->
  troopsOf id (<[i := set_troops n c]> ts)
  = troopsOf id ts + (if ownedBy id c then n - t_troops c else 0).
Proof.
  unfold troopsOf. revert i.
  induction ts as [|t ts IH]; intros [|i] H; simpl in *; try discriminate.
  - injection H as ->.
    change (ownedBy id (set_troops n c)) with (ownedBy id c).
    destruct (ownedBy id c); simpl; lia.
  - rewrite <- Z.add_0_r at 1.
    destruct (ownedBy id t); simpl; rewrite (IH i H); lia.
Qed.

Lemma troops_insert_grow ts i (c : Territory) n :
  ts !! i = Some c -> t_troops c <= n ->
  Forall2 (fun t t' => t_troops t <= t_troops t') ts (<[i := set_troops n c]> ts).
Proof.
  revert i. induction ts as [|t ts IH]; intros [|i] H Hn; simpl in *;
    try discriminate.
  - injection H as ->. constructor; [exact Hn|].
    apply Forall_Forall2_diag, Forall_forall. intros x _. lia.
  - constructor; [lia|]. exact (IH i H Hn).
Qed.

Lemma troops_grow_trans (l1 l2 l3 : list Territory) :
  Forall2 (fun t t' => t_troops t <= t_troops t') l1 l2 ->
  Forall2 (fun t t' => t_troops t <= t_troops t') l2 l3 ->
  Forall2 (fun t t' => t_troops t <= t_troops t') l1 l3.
Proof.
  intros H. revert l3. induction H as [|x y l1 l2 Hxy _ IH]; intros l3 H23.
  - inversion H23. constructor.
  - inversion H23 as [|y' z l2' l3' Hyz Hrest]; subst.
    constructor; [lia|]. apply IH. exact Hrest.
Qed.

(** The territory that one player's daily troop goes to. *)
Lemma updatePlayer_cell ts player draw :
  exists ts' player',
    GameSimulator.updatePlayer ts player draw = Some (ts', player')
    /\ (ts' = ts /\ ownedCount (p_id player) ts = 0
        \/ exists i c,
             ts !! i = Some c
             /\ ts' = <[i := set_troops (t_troops c + 1) c]> ts
             /\ 0 < ownedCount (p_id player) ts
             /\ (distinctCoords ts -> ownedBy (p_id player) c = true)).
Proof.
  unfold GameSimulator.updatePlayer.
  destruct (GameSimulator.playerCounters ts player) as [[? ?] ?].
  destruct (pick draw (List.filter (ownedBy (p_id player)) ts)) as [r|] eqn:Hpick.
  - destruct (pick_filter_member _ _ _ _ Hpick) as [Hin Hown].
    assert (Hpos : 0 < ownedCount (p_id player) ts).
    { apply ownedCount_pos. exists r. split; [exact Hin|].
      apply ownedBy_ownerId. exact Hown. }
    destruct (findIndex_exists (sameCoords r) ts r Hin) as [i Hi].
    { apply sameCoords_iff. reflexivity. }
    rewrite Hi. pose proof Hi as Hfound.
    apply findIndex_Some in Hi as (c & Hc & _).
    rewrite (update_Some _ _ _ _ Hc). cbn [mbind option_bind].
    eexists _, _. split; [reflexivity|]. right. exists i, c.
    split; [exact Hc|]. split; [reflexivity|]. split; [exact Hpos|].
    intros Hd. destruct (findIndex_member ts r Hd Hin) as (i' & Hi' & Hr).
    rewrite Hfound in Hi'. injection Hi' as <-.
    rewrite Hc in Hr. injection Hr as ->. exact Hown.
  - apply pick_None in Hpick.
    eexists _, _. split; [reflexivity|]. left. split; [reflexivity|].
    unfold ownedCount. rewrite Hpick. reflexivity.
Qed.

Lemma withoutTroops_coords ts ts' :
  map withoutTroops ts' = map withoutTroops ts -> map coords ts' = map coords ts.
Proof.
  intros H.
  assert (Hc : forall l, map coords l = map coords (map withoutTroops l))
    by (intros l; rewrite map_map; reflexivity).
  rewrite (Hc ts'), (Hc ts), H. reflexivity.
Qed.

Lemma updatePlayers_own_cells ts draws : forall players ts0 i,
  map withoutTroops ts0 = map withoutTroops ts ->
  exists ts' players',
    GameSimulator.updatePlayers ts0 players draws i = Some (ts', players')
    /\ Forall2 (fun t t' => t_troops t <= t_troops t') ts0 ts'
    /\ (distinctCoords ts ->
        forall id,
          troopsOf id ts'
          = troopsOf id ts0
            + Z.of_nat
                (length
                   (List.filter
                      (fun p => bool_decide (p_id p = id)
                                && (0 <? ownedCount id ts))
                      players))).
Proof.
  induction players as [|p players IH]; intros ts0 i Hsame.
  - exists ts0, []. split; [reflexivity|]. split.
    + apply Forall_Forall2_diag, Forall_forall. intros x _. lia.
    + intros _ id. simpl. lia.
  - cbn [GameSimulator.updatePlayers].
    destruct (updatePlayer_cell ts0 p (draws i)) as (ts1 & p1 & -> & Hcell).
    cbn [mbind option_bind].
    assert (Hsame1 : map withoutTroops ts1 = map withoutTroops ts).
    { destruct Hcell as [[-> _]|(j & c & Hc & -> & _)]; [exact Hsame|].
      rewrite withoutTroops_insert by exact Hc. exact Hsame. }
    destruct (IH ts1 (S i) Hsame1) as (ts' & players' & -> & Hgrow & Hown).
    cbn [mbind option_bind]. eexists _, _. split; [reflexivity|]. split.
    + destruct Hcell as [[-> _]|(j & c & Hc & -> & _)]; [exact Hgrow|].
      eapply troops_grow_trans; [|exact Hgrow].
      apply (troops_insert_grow ts0 j c); [exact Hc|lia].
    + intros Hd id. rewrite (Hown Hd id). cbn [List.filter].
      assert (Hd0 : distinctCoords ts0).
      { unfold distinctCoords in *.
        rewrite (withoutTroops_coords _ _ Hsame). exact Hd. }
      rewrite <- (ownedCount_withoutTroops id ts ts0 Hsame).
      destruct Hcell as [[-> Hzero]|(j & c & Hc & -> & Hpos & Hmine)].
      * case_bool_decide as Hid; [|simpl; lia].
        subst id. rewrite Hzero. simpl. lia.
      * rewrite troopsOf_insert by exact Hc.
        specialize (Hmine Hd0).
        assert (Hc_id : ownedBy id c = bool_decide (p_id p = id)).
        { unfold ownedBy in *. destruct (t_owner c) as [o|]; [|discriminate].
          apply bool_decide_eq_true in Hmine. rewrite Hmine. reflexivity. }
        rewrite Hc_id. case_bool_decide as Hid; [|simpl; lia].
        subst id. replace (0 <? ownedCount (p_id p) ts0) with true by lia.
        simpl length. lia.
Qed.

(** X9. [updateGameState] always completes and changes nothing on the
    grid but troop counts, none of which goes down: the troops on the
    grid grow by one for every player that owns a territory. On a grid
    with distinct coordinates this troop goes to a territory of the
    player: the troops on the territories of each owner grow by one for
    each player of that id that owns a territory. Every player's gold
    grows by 10, plus 15 per mine and 25 per market it owns, and its
    territory counter becomes the number of territories it owns. *)
Theorem updateGameState_growth ts players draws :
  exists ts' players',
    GameSimulator.updateGameState ts players draws = Some (ts', players')
    /\ map withoutTroops ts' = map withoutTroops ts
    /\ totalTroops ts'
       = totalTroops ts
         + Z.of_nat (length (List.filter
                               (fun p => 0 <? ownedCount (p_id p) ts) players))
    /\ Forall2
         (fun p p' =>
            p_id p' = p_id p
            /\ p_gold p'
               = Some (goldOr0 p + 10
                       + 15 * buildingsOfType mine (p_id p) ts
                       + 25 * buildingsOfType market (p_id p) ts)
            /\ p_territory p' = Some (ownedCount (p_id p) ts))
         players players'
    /\ Forall2 (fun t t' => t_troops t <= t_troops t') ts ts'
    /\ (distinctCoords ts ->
        forall id,
          troopsOf id ts'
          = troopsOf id ts
            + Z.of_nat
                (length
                   (List.filter
                      (fun p => bool_decide (p_id p = id)
                                && (0 <? ownedCount id ts))
                      players))).
Proof.
  unfold GameSimulator.updateGameState.
  destruct (updatePlayers_growth ts players draws 0)
    as (ts' & players' & E & Hsame & Htotal & Hplayers).
  destruct (updatePlayers_own_cells ts draws players ts 0 eq_refl)
    as (ts2 & players2 & E2 & Hgrow & Hown).
  rewrite E in E2. injection E2 as <- <-.
  exists ts', players'. split; [exact E|]. split; [exact Hsame|].
  split; [exact Htotal|]. split; [exact Hplayers|].
  split; [exact Hgrow|exact Hown].
Qed.

Lemma updateGameState_growth_witness :
  exists ts' players',
    GameSimulator.updateGameState [ai1Cell; strongNeighbour]
      [neuralPlayer; ai1] (fun _ => 0%nat) = Some (ts', players')
    /\ troopsOf "ai1" ts' = 11
    /\ troopsOf "neural" ts' = 21.
Proof.
  destruct (updateGameState_growth [ai1Cell; strongNeighbour]
              [neuralPlayer; ai1] (fun _ => 0%nat))
    as (ts' & players' & E & _ & _ & _ & _ & Hown).
  assert (Hd : distinctCoords [ai1Cell; strongNeighbour])
    by (apply (bool_decide_unpack _); vm_compute; exact I).
  exists ts', players'. split; [exact E|].
  split; rewrite (Hown Hd); reflexivity.
Defined.
